(** * ex_openzl: the native bridge [c_src/ex_openzl_nif.cpp]

    A shallow embedding of the NIF layer that sits between the BEAM and the
    OpenZL engine.  The engine, the SDDL compiler and the BEAM allocator are
    external: every call that crosses into them is an _event_ of the
    signature [engineE]; a NIF is a finite program over that signature
    ([prog], a free monad), and [run] interprets a program under an arbitrary
    handler, recording every call together with the engine's answer.
    Theorems quantify over all handlers, i.e. over every possible engine. *)

From Stdlib Require Import ZArith List String Ascii Bool Lia.
From Stdlib Require Import DecimalString.
From ExtLib Require Import Structures.Monad.
Import ListNotations.
Import MonadNotation.
Local Open Scope string_scope.
Local Open Scope list_scope.
Local Open Scope Z_scope.
Local Open Scope monad_scope.

Set Warnings "-register-all".

(* ===================================================================== *)
(** ** Machine integers and byte buffers *)
(* ===================================================================== *)

Definition byte := Byte.byte.
Definition bytes := list byte.

(** [size_t] / [uint64_t] arithmetic wraps modulo 2^64. *)
Definition size_t_modulus : Z := 2 ^ 64.
Definition wrap64 (z : Z) : Z := z mod size_t_modulus.

(** [static_cast<int>(x)]: two's-complement reinterpretation in 32 bits. *)
Definition static_cast_int (z : Z) : Z :=
  let u := z mod 2 ^ 32 in
  if u <? 2 ^ 31 then u else u - 2 ^ 32.

(** [std::string_view::size()], [ErlNifBinary::size]. *)
Definition size (b : bytes) : Z := Z.of_nat (List.length b).

(** [std::string_view::empty()]. *)
Definition empty (b : bytes) : bool :=
  match b with [] => true | _ :: _ => false end.

(** [sizeof(uint32_t)]. *)
Definition sizeof_uint32_t : Z := 4.

(** [std::string output(n, '\0')] after the engine wrote [written] at its
    start: the buffer keeps its length [n]. *)
Definition filled (n : Z) (written : bytes) : bytes :=
  firstn (Z.to_nat n) (written ++ repeat Byte.x00 (Z.to_nat n)).

(** [std::string::resize(n)]: truncate, or pad with NUL bytes. *)
Definition resize (s : bytes) (n : Z) : bytes :=
  firstn (Z.to_nat n) s ++ repeat Byte.x00 (Z.to_nat n - List.length s).

(** [std::memcpy(dst, src, n)] into a fresh binary of [n] bytes; the native
    memory [src] holds at least [n] bytes by the engine's contract. *)
Definition memcpy (src : bytes) (n : Z) : bytes := firstn (Z.to_nat n) src.

(* ===================================================================== *)
(** ** Host terms ([ERL_NIF_TERM]) and the [enif_*] accessors *)
(* ===================================================================== *)

(** An atom is a sequence of code points; a list is built from cons cells
    and may be improper. *)
Inductive term : Type :=
| TAtom (name : list N)
| TInt (z : Z)
| TBinary (b : bytes)
| TTuple (elems : list term)
| TNil
| TCons (hd tl : term)
| TMap (pairs : list (term * term))
| TOther.

Definition ascii_of_code (c : N) : ascii := ascii_of_N c.

Definition string_of_codes (cs : list N) : string :=
  string_of_list_ascii (map ascii_of_code cs).

Definition codes_of_string (s : string) : list N :=
  map N_of_ascii (list_ascii_of_string s).

(** [fine::__private__::make_atom(env, name)]. *)
Definition make_atom (s : string) : term := TAtom (codes_of_string s).

(** [enif_make_uint64]. *)
Definition enif_make_uint64 (v : Z) : term := TInt v.

(** [enif_make_list_from_array]. *)
Fixpoint enif_make_list_from_array (items : list term) : term :=
  match items with
  | [] => TNil
  | x :: rest => TCons x (enif_make_list_from_array rest)
  end.

(** [enif_make_map_from_arrays(env, keys, vals, n, &map)]. *)
Definition enif_make_map_from_arrays (keys vals : list term) : term :=
  TMap (combine keys vals).

(** [enif_get_list_cell]: succeeds on a cons cell only. *)
Definition enif_get_list_cell (t : term) : option (term * term) :=
  match t with
  | TCons hd tl => Some (hd, tl)
  | _ => None
  end.

(** [enif_get_tuple]: arity and elements. *)
Definition enif_get_tuple (t : term) : option (Z * list term) :=
  match t with
  | TTuple elems => Some (Z.of_nat (List.length elems), elems)
  | _ => None
  end.

(** [enif_get_atom(env, t, buf, size, ERL_NIF_LATIN1)]: fails when [t] is
    not an atom, when the name with its terminating NUL does not fit in
    [size] bytes, or when a code point is outside Latin-1. *)
Definition enif_get_atom (t : term) (buf_size : Z) : option string :=
  match t with
  | TAtom name =>
      if forallb (fun c => (c <=? 255)%N) name
         && (Z.of_nat (List.length name) + 1 <=? buf_size)
      then Some (string_of_codes name) else None
  | _ => None
  end.

(** [enif_inspect_binary]. *)
Definition enif_inspect_binary (t : term) : option bytes :=
  match t with
  | TBinary b => Some b
  | _ => None
  end.

(** [enif_get_uint64]: an integer that fits an unsigned 64-bit word. *)
Definition enif_get_uint64 (t : term) : option Z :=
  match t with
  | TInt z => if (0 <=? z) && (z <? size_t_modulus) then Some z else None
  | _ => None
  end.

(** A [char] buffer read as a C string stops at the first NUL. *)
Fixpoint c_str (s : string) : string :=
  match s with
  | EmptyString => EmptyString
  | String c rest =>
      if Ascii.eqb c zero then EmptyString else String c (c_str rest)
  end.

(** [std::strcmp(a, b) == 0]. *)
Definition strcmp_eq0 (a b : string) : bool := String.eqb (c_str a) (c_str b).

(* ===================================================================== *)
(** ** Engine interface *)
(* ===================================================================== *)

(** Native handles are non-null addresses; a nullable pointer is an
    [option]. *)
Definition ZL_CCtx := Z.
Definition ZL_DCtx := Z.
Definition ZL_Compressor := Z.
Definition ZL_TypedRef := Z.
Definition ZL_TypedBuffer := Z.
Definition ZL_FrameInfo := Z.

(** [ZL_Report]: a value or an error code. *)
Inductive ZL_Report : Type :=
| ZL_returnValue (v : Z)
| ZL_returnError (code : Z).

Definition ZL_isError (r : ZL_Report) : bool :=
  match r with ZL_returnValue _ => false | ZL_returnError _ => true end.

(** Only consulted after [ZL_isError] answered false. *)
Definition ZL_validResult (r : ZL_Report) : Z :=
  match r with ZL_returnValue v => v | ZL_returnError _ => 0 end.

Inductive ZL_CParam : Type :=
| ZL_CParam_formatVersion
| ZL_CParam_stickyParameters
| ZL_CParam_compressionLevel.

Inductive ZL_GraphID : Type :=
| ZL_GRAPH_COMPRESS_GENERIC
| ZL_GRAPH_custom (id : Z).

(** [ZL_Type] is a C enum; the numbering is the one of the engine's public
    header. *)
Definition ZL_Type := Z.
Definition ZL_Type_serial : ZL_Type := 1.
Definition ZL_Type_struct : ZL_Type := 2.
Definition ZL_Type_numeric : ZL_Type := 4.
Definition ZL_Type_string : ZL_Type := 8.

(** What a C++ call can throw: something derived from [std::exception]
    (with its [what()] text), or anything else. *)
Inductive cpp_exception : Type :=
| StdException (what : string)
| NonStdException.

(** Outcome of [openzl::sddl::Compiler::compile]. *)
Inductive compile_outcome : Type :=
| Compiled (blob : bytes)
| Thrown (e : cpp_exception).

(** The calls this layer makes.  The index is the type of the answer.
    A call writing into a destination buffer answers with the report and
    the bytes it wrote. *)
Inductive engineE : Type -> Type :=
| ZL_compressBound (srcSize : Z) : engineE Z
| ZL_getDefaultEncodingVersion : engineE Z
| ZL_CCtx_create : engineE (option ZL_CCtx)
| ZL_CCtx_free (c : ZL_CCtx) : engineE unit
| ZL_CCtx_setParameter (c : ZL_CCtx) (p : ZL_CParam) (v : Z) : engineE ZL_Report
| ZL_CCtx_compress (c : ZL_CCtx) (dstCapacity : Z) (src : bytes)
  : engineE (ZL_Report * bytes)
| ZL_CCtx_getErrorContextString (c : ZL_CCtx) (r : ZL_Report)
  : engineE (option string)
| ZL_CCtx_refCompressor (c : ZL_CCtx) (comp : ZL_Compressor) : engineE ZL_Report
| ZL_CCtx_compressTypedRef (c : ZL_CCtx) (dstCapacity : Z) (ref : ZL_TypedRef)
  : engineE (ZL_Report * bytes)
| ZL_CCtx_compressMultiTypedRef (c : ZL_CCtx) (dstCapacity : Z)
    (refs : list ZL_TypedRef) (nbRefs : Z) : engineE (ZL_Report * bytes)
| ZL_Compressor_create : engineE (option ZL_Compressor)
| ZL_Compressor_free (comp : ZL_Compressor) : engineE unit
| ZL_Compressor_selectStartingGraphID (comp : ZL_Compressor) (g : ZL_GraphID)
  : engineE ZL_Report
| ZL_TypedRef_createNumeric (data : bytes) (eltWidth eltCount : Z)
  : engineE (option ZL_TypedRef)
| ZL_TypedRef_createStruct (data : bytes) (structWidth structCount : Z)
  : engineE (option ZL_TypedRef)
| ZL_TypedRef_createString (data : bytes) (bufferSize : Z)
    (lengths : bytes) (nbStrings : Z) : engineE (option ZL_TypedRef)
| ZL_TypedRef_free (ref : ZL_TypedRef) : engineE unit
| ZL_getDecompressedSize (src : bytes) : engineE ZL_Report
| ZL_getNumOutputs (src : bytes) : engineE ZL_Report
| ZL_decompress (dstCapacity : Z) (src : bytes) : engineE (ZL_Report * bytes)
| ZL_DCtx_decompress (d : ZL_DCtx) (dstCapacity : Z) (src : bytes)
  : engineE (ZL_Report * bytes)
| ZL_DCtx_getErrorContextString (d : ZL_DCtx) (r : ZL_Report)
  : engineE (option string)
| ZL_DCtx_decompressTBuffer (d : ZL_DCtx) (buf : ZL_TypedBuffer) (src : bytes)
  : engineE ZL_Report
| ZL_DCtx_decompressMultiTBuffer (d : ZL_DCtx) (bufs : list ZL_TypedBuffer)
    (nbOutputs : Z) (src : bytes) : engineE ZL_Report
| ZL_TypedBuffer_create : engineE (option ZL_TypedBuffer)
| ZL_TypedBuffer_free (buf : ZL_TypedBuffer) : engineE unit
| ZL_TypedBuffer_type (buf : ZL_TypedBuffer) : engineE ZL_Type
| ZL_TypedBuffer_byteSize (buf : ZL_TypedBuffer) : engineE Z
| ZL_TypedBuffer_numElts (buf : ZL_TypedBuffer) : engineE Z
| ZL_TypedBuffer_eltWidth (buf : ZL_TypedBuffer) : engineE Z
| ZL_TypedBuffer_rPtr (buf : ZL_TypedBuffer) : engineE bytes
| ZL_TypedBuffer_rStringLens (buf : ZL_TypedBuffer) : engineE (option bytes)
| ZL_FrameInfo_create (src : bytes) : engineE (option ZL_FrameInfo)
| ZL_FrameInfo_free (fi : ZL_FrameInfo) : engineE unit
| ZL_FrameInfo_getFormatVersion (fi : ZL_FrameInfo) : engineE ZL_Report
| ZL_FrameInfo_getNumOutputs (fi : ZL_FrameInfo) : engineE ZL_Report
| ZL_FrameInfo_getOutputType (fi : ZL_FrameInfo) (outputID : Z) : engineE ZL_Report
| ZL_FrameInfo_getDecompressedSize (fi : ZL_FrameInfo) (outputID : Z)
  : engineE ZL_Report
| ZL_FrameInfo_getNumElts (fi : ZL_FrameInfo) (outputID : Z) : engineE ZL_Report
| Compiler_compile (source : bytes) (filename : string) : engineE compile_outcome.

(* ===================================================================== *)
(** ** Programs over the engine, and their runs *)
(* ===================================================================== *)

Inductive prog (A : Type) : Type :=
| Ret (a : A)
| Call (X : Type) (e : engineE X) (k : X -> prog A).

Arguments Ret {A} a.
Arguments Call {A X} e k.

Fixpoint prog_bind {A B : Type} (p : prog A) (f : A -> prog B) : prog B :=
  match p with
  | Ret a => f a
  | Call e k => Call e (fun x => prog_bind (k x) f)
  end.

#[export] Instance Monad_prog : Monad prog :=
  {| ret := fun _ a => Ret a;
     bind := fun _ _ p f => prog_bind p f |}.

(** Perform one engine call. *)
Definition call {X : Type} (e : engineE X) : prog X := Call e (fun x => Ret x).

(** One line of the call log: the call and the engine's answer. *)
Inductive entry : Type :=
| Entry (X : Type) (e : engineE X) (answer : X).

Arguments Entry {X} e answer.

(** An engine: a state and the answer it gives to every call. *)
Definition handler (S : Type) : Type := forall X : Type, engineE X -> S -> X * S.

(** Run a program: result, final engine state, and the log in call order. *)
Fixpoint run {S A : Type} (h : handler S) (p : prog A) (s : S)
  : A * S * list entry :=
  match p with
  | Ret a => (a, s, [])
  | Call e k =>
      let '(x, s1) := h _ e s in
      let '(a, s2, tr) := run h (k x) s1 in
      (a, s2, Entry e x :: tr)
  end.

Definition result_of {S A : Type} (r : A * S * list entry) : A := fst (fst r).
Definition state_of {S A : Type} (r : A * S * list entry) : S := snd (fst r).
Definition trace_of {S A : Type} (r : A * S * list entry) : list entry := snd r.

(** What a NIF hands back to the host: [fine::Ok] or [fine::Error]. *)
Inductive nif_result (A : Type) : Type :=
| Ok (a : A)
| Error (msg : string).

Arguments Ok {A} a.
Arguments Error {A} msg.

(* ===================================================================== *)
(** ** Phase 0: one-shot and context-reusing byte streams *)
(* ===================================================================== *)

(** The error branch shared by the compress NIFs:
    [err ? std::string(err) : fallback]. *)
Definition error_message (err : option string) (fallback : string) : string :=
  match err with
  | Some e => e
  | None => fallback
  end.

(** [nif_compress]. *)
Definition nif_compress (input : bytes) : prog (nif_result bytes) :=
  if empty input then ret (Error "input must not be empty")
  else
    bound <- call (ZL_compressBound (size input)) ;;
    cctx <- call ZL_CCtx_create ;;
    match cctx with
    | None => ret (Error "failed to create compression context")
    | Some cctx =>
        version <- call ZL_getDefaultEncodingVersion ;;
        _ <- call (ZL_CCtx_setParameter cctx ZL_CParam_formatVersion
                     (static_cast_int version)) ;;
        '(result, written) <- call (ZL_CCtx_compress cctx bound input) ;;
        let output := filled bound written in
        if ZL_isError result then
          err <- call (ZL_CCtx_getErrorContextString cctx result) ;;
          let msg := error_message err "compression failed" in
          call (ZL_CCtx_free cctx) ;;
          ret (Error msg)
        else
          call (ZL_CCtx_free cctx) ;;
          ret (Ok (resize output (ZL_validResult result)))
    end.


(** [nif_decompress].  [std::string output(out_size, 0)] is the value
    [filled out_size written] once the engine has written into it.  The
    constructor throws when a buffer of the declared size cannot be
    obtained; that outcome is not among the results below, which describe
    the runs in which the buffer exists.  Statements about this function
    are therefore about given engine replies, or about what held when it
    answered. *)
Definition nif_decompress (compressed : bytes) : prog (nif_result bytes) :=
  if empty compressed then ret (Error "input must not be empty")
  else
    decompressed_size <- call (ZL_getDecompressedSize compressed) ;;
    if ZL_isError decompressed_size then
      ret (Error "failed to read decompressed size from frame")
    else
      let out_size := ZL_validResult decompressed_size in
      '(result, written) <- call (ZL_decompress out_size compressed) ;;
      let output := filled out_size written in
      if ZL_isError result then
        ret (Error "decompression failed")
      else
        ret (Ok (resize output (ZL_validResult result))).

(* ===================================================================== *)
(** ** Resources *)
(* ===================================================================== *)

(** [class Compressor]. *)
Record Compressor : Type := mkCompressor { compressor : ZL_Compressor }.

(** [class CCtx]: the native context, the default generic compressor it
    owns (null when it could not be created), and the optional reference
    to an attached [Compressor] resource. *)
Record CCtx : Type := mkCCtx {
  ctx : ZL_CCtx;
  default_compressor : option ZL_Compressor;
  compressor_ref : option Compressor
}.

(** [class DCtx]; its only member is called [ctx] in the source. *)
Record DCtx : Type := mkDCtx { dctx_ctx : ZL_DCtx }.

(** A C++ call either completes or lets an exception through. *)
Inductive outcome (A : Type) : Type :=
| Returned (a : A)
| Propagated (e : cpp_exception).

Arguments Returned {A} a.
Arguments Propagated {A} e.

(** [CCtx::CCtx()].  The reports of both [ZL_CCtx_setParameter] calls and of
    [ZL_CCtx_refCompressor] are cast to [void]. *)
Definition CCtx_new : prog (outcome CCtx) :=
  c <- call ZL_CCtx_create ;;
  match c with
  | None =>
      ret (Propagated
             (StdException "failed to create OpenZL compression context"))
  | Some c =>
      version <- call ZL_getDefaultEncodingVersion ;;
      _ <- call (ZL_CCtx_setParameter c ZL_CParam_formatVersion
                   (static_cast_int version)) ;;
      _ <- call (ZL_CCtx_setParameter c ZL_CParam_stickyParameters 1) ;;
      dc <- call ZL_Compressor_create ;;
      match dc with
      | Some comp =>
          result <- call (ZL_Compressor_selectStartingGraphID
                            comp ZL_GRAPH_COMPRESS_GENERIC) ;;
          if negb (ZL_isError result) then
            _ <- call (ZL_CCtx_refCompressor c comp) ;;
            ret (Returned (mkCCtx c (Some comp) None))
          else
            ret (Returned (mkCCtx c (Some comp) None))
      | None =>
          ret (Returned (mkCCtx c None None))
      end
  end.

(** [CCtx::~CCtx()]. *)
Definition CCtx_delete (cctx : CCtx) : prog unit :=
  call (ZL_CCtx_free (ctx cctx)) ;;
  match default_compressor cctx with
  | Some comp => call (ZL_Compressor_free comp)
  | None => ret tt
  end.

(** [nif_create_compression_context]: [fine::make_resource<CCtx>()]. *)
Definition nif_create_compression_context : prog (outcome CCtx) := CCtx_new.

(** [nif_compress_with_context]. *)
Definition nif_compress_with_context (cctx : CCtx) (input : bytes)
  : prog (nif_result bytes) :=
  if empty input then ret (Error "input must not be empty")
  else
    bound <- call (ZL_compressBound (size input)) ;;
    '(result, written) <- call (ZL_CCtx_compress (ctx cctx) bound input) ;;
    let output := filled bound written in
    if ZL_isError result then
      err <- call (ZL_CCtx_getErrorContextString (ctx cctx) result) ;;
      let msg := error_message err "compression failed" in
      ret (Error msg)
    else
      ret (Ok (resize output (ZL_validResult result))).

(** [nif_decompress_with_context].  As for [nif_decompress], the runs
    described are those in which the output buffer could be obtained. *)
Definition nif_decompress_with_context (dctx : DCtx) (compressed : bytes)
  : prog (nif_result bytes) :=
  if empty compressed then ret (Error "input must not be empty")
  else
    decompressed_size <- call (ZL_getDecompressedSize compressed) ;;
    if ZL_isError decompressed_size then
      ret (Error "failed to read decompressed size from frame")
    else
      let out_size := ZL_validResult decompressed_size in
      '(result, written) <-
        call (ZL_DCtx_decompress (dctx_ctx dctx) out_size compressed) ;;
      let output := filled out_size written in
      if ZL_isError result then
        ret (Error "decompression failed")
      else
        ret (Ok (resize output (ZL_validResult result))).

(* ===================================================================== *)
(** ** Phase 2: typed compression *)
(* ===================================================================== *)

(** [~TypedRefPtr()] for every element of a [std::vector<TypedRefPtr>]. *)
Fixpoint free_refs (refs : list ZL_TypedRef) : prog unit :=
  match refs with
  | [] => ret tt
  | r :: rest => call (ZL_TypedRef_free r) ;; free_refs rest
  end.

(** The tail shared by the three single-stream typed NIFs, from the bound
    computation on; [tref] is released when the NIF returns. *)
Definition compress_typed_ref (cctx : CCtx) (data : bytes) (tref : ZL_TypedRef)
    (fallback : string) : prog (nif_result bytes) :=
  bound <- call (ZL_compressBound (size data)) ;;
  '(result, written) <- call (ZL_CCtx_compressTypedRef (ctx cctx) bound tref) ;;
  let output := filled bound written in
  if ZL_isError result then
    err <- call (ZL_CCtx_getErrorContextString (ctx cctx) result) ;;
    let msg := error_message err fallback in
    call (ZL_TypedRef_free tref) ;;
    ret (Error msg)
  else
    call (ZL_TypedRef_free tref) ;;
    ret (Ok (resize output (ZL_validResult result))).

(** [width != 1 && width != 2 && width != 4 && width != 8]. *)
Definition bad_numeric_width (width : Z) : bool :=
  negb (width =? 1) && negb (width =? 2) && negb (width =? 4)
  && negb (width =? 8).

(** [nif_compress_typed_numeric]. *)
Definition nif_compress_typed_numeric (cctx : CCtx) (data : bytes)
    (element_width : Z) : prog (nif_result bytes) :=
  if empty data then ret (Error "input must not be empty")
  else if bad_numeric_width element_width then
    ret (Error "element_width must be 1, 2, 4, or 8")
  else
    let num_elements := size data / element_width in
    if negb (size data mod element_width =? 0) then
      ret (Error "data size must be a multiple of element_width")
    else
      tref <- call (ZL_TypedRef_createNumeric data element_width num_elements) ;;
      match tref with
      | None => ret (Error "failed to create numeric typed ref")
      | Some tref =>
          compress_typed_ref cctx data tref "typed numeric compression failed"
      end.

(** [nif_compress_typed_struct]. *)
Definition nif_compress_typed_struct (cctx : CCtx) (data : bytes)
    (struct_width : Z) : prog (nif_result bytes) :=
  if empty data then ret (Error "input must not be empty")
  else if struct_width =? 0 then ret (Error "struct_width must be > 0")
  else
    let struct_count := size data / struct_width in
    if negb (size data mod struct_width =? 0) then
      ret (Error "data size must be a multiple of struct_width")
    else
      tref <- call (ZL_TypedRef_createStruct data struct_width struct_count) ;;
      match tref with
      | None => ret (Error "failed to create struct typed ref")
      | Some tref =>
          compress_typed_ref cctx data tref "typed struct compression failed"
      end.

(** [nif_compress_typed_string]; [lengths_bin] is the packed array of
    little-endian [uint32_t] lengths, handed to the engine as it is. *)
Definition nif_compress_typed_string (cctx : CCtx) (data lengths_bin : bytes)
  : prog (nif_result bytes) :=
  if empty data then ret (Error "input must not be empty")
  else if negb (size lengths_bin mod sizeof_uint32_t =? 0) then
    ret (Error "lengths binary size must be a multiple of 4")
  else
    let nb_strings := size lengths_bin / sizeof_uint32_t in
    let lengths := lengths_bin in
    tref <- call (ZL_TypedRef_createString data (size data) lengths nb_strings) ;;
    match tref with
    | None => ret (Error "failed to create string typed ref")
    | Some tref =>
        compress_typed_ref cctx data tref "typed string compression failed"
    end.

(* --------------------------------------------------------------------- *)
(** *** [nif_compress_multi_typed] *)
(* --------------------------------------------------------------------- *)

(** The three locals the loop updates: the owning vector [refs], the raw
    pointer vector [ref_ptrs], and [total_size]. *)
Record multi_state : Type := mkMulti {
  refs : list ZL_TypedRef;
  ref_ptrs : list ZL_TypedRef;
  total_size : Z
}.

(** [total_size += bin.size; ref_ptrs.push_back(ref.get());
     refs.push_back(std::move(ref));] *)
Definition push_ref (st : multi_state) (bin : bytes) (ref : ZL_TypedRef)
  : multi_state :=
  {| refs := refs st ++ [ref];
     ref_ptrs := ref_ptrs st ++ [ref];
     total_size := wrap64 (total_size st + size bin) |}.

(** One iteration of the [while] loop on the cell's head: [inl msg] is an
    early [return fine::Error(msg)], [inr st'] reaches [current = tail]. *)
Definition multi_item (head : term) (st : multi_state)
  : prog (string + multi_state) :=
  match enif_get_tuple head with
  | None => ret (inl "each input must be a 3-tuple {type, data, param}")
  | Some (arity, tuple_terms) =>
      if negb (arity =? 3) then
        ret (inl "each input must be a 3-tuple {type, data, param}")
      else
        match enif_get_atom (nth 0 tuple_terms TOther) 16 with
        | None => ret (inl "first element must be an atom")
        | Some type_atom =>
            match enif_inspect_binary (nth 1 tuple_terms TOther) with
            | None => ret (inl "second element must be a binary")
            | Some bin =>
                if strcmp_eq0 type_atom "numeric" then
                  match enif_get_uint64 (nth 2 tuple_terms TOther) with
                  | None =>
                      ret (inl "numeric width must be a positive integer")
                  | Some width =>
                      if bad_numeric_width width then
                        ret (inl "numeric element_width must be 1, 2, 4, or 8")
                      else if negb (size bin mod width =? 0) then
                        ret (inl "numeric data size must be a multiple of width")
                      else
                        let count := size bin / width in
                        ref <- call (ZL_TypedRef_createNumeric bin width count) ;;
                        match ref with
                        | None =>
                            ret (inl "failed to create numeric typed ref")
                        | Some ref => ret (inr (push_ref st bin ref))
                        end
                  end
                else if strcmp_eq0 type_atom "struct" then
                  match enif_get_uint64 (nth 2 tuple_terms TOther) with
                  | None =>
                      ret (inl "struct width must be a positive integer")
                  | Some swidth =>
                      if swidth =? 0 then ret (inl "struct_width must be > 0")
                      else if negb (size bin mod swidth =? 0) then
                        ret (inl "struct data size must be a multiple of width")
                      else
                        let count := size bin / swidth in
                        ref <- call (ZL_TypedRef_createStruct bin swidth count) ;;
                        match ref with
                        | None =>
                            ret (inl "failed to create struct typed ref")
                        | Some ref => ret (inr (push_ref st bin ref))
                        end
                  end
                else if strcmp_eq0 type_atom "string" then
                  match enif_inspect_binary (nth 2 tuple_terms TOther) with
                  | None =>
                      ret (inl
                        "string lengths must be a binary of uint32_t values")
                  | Some lens_bin =>
                      if negb (size lens_bin mod sizeof_uint32_t =? 0) then
                        ret (inl
                          "string lengths binary size must be a multiple of 4")
                      else
                        let nb_strings := size lens_bin / sizeof_uint32_t in
                        let lengths := lens_bin in
                        ref <- call (ZL_TypedRef_createString
                                       bin (size bin) lengths nb_strings) ;;
                        match ref with
                        | None =>
                            ret (inl "failed to create string typed ref")
                        | Some ref => ret (inr (push_ref st bin ref))
                        end
                  end
                else
                  ret (inl (String.append "unknown type atom: "
                                          (c_str type_atom)))
            end
        end
  end.

(** [while (enif_get_list_cell(env, current, &head, &tail)) { ... }]: the
    loop runs as long as [current] is a cons cell and stops, without an
    error, on anything else.  The answer carries the locals at the exit and
    the message of an early return, if any. *)
Fixpoint multi_loop (current : term) (st : multi_state)
  : prog (multi_state * option string) :=
  match current with
  | TCons head tail =>
      r <- multi_item head st ;;
      match r with
      | inl msg => ret (st, Some msg)
      | inr st' => multi_loop tail st'
      end
  | _ => ret (st, None)
  end.

(** [nif_compress_multi_typed].  Every path out of the function destroys
    [refs], which releases the references built so far. *)
Definition nif_compress_multi_typed (cctx : CCtx) (list_term : term)
  : prog (nif_result bytes) :=
  '(st, early) <- multi_loop list_term (mkMulti [] [] 0) ;;
  match early with
  | Some msg =>
      free_refs (refs st) ;;
      ret (Error msg)
  | None =>
      if match refs st with [] => true | _ :: _ => false end then
        ret (Error "input list must not be empty")
      else
        bound <- call (ZL_compressBound (total_size st)) ;;
        '(result, written) <-
          call (ZL_CCtx_compressMultiTypedRef (ctx cctx) bound (ref_ptrs st)
                  (Z.of_nat (List.length (ref_ptrs st)))) ;;
        let output := filled bound written in
        if ZL_isError result then
          err <- call (ZL_CCtx_getErrorContextString (ctx cctx) result) ;;
          let msg := error_message err "multi-typed compression failed" in
          free_refs (refs st) ;;
          ret (Error msg)
        else
          free_refs (refs st) ;;
          ret (Ok (resize output (ZL_validResult result)))
  end.

(* ===================================================================== *)
(** ** Typed decompression *)
(* ===================================================================== *)

(** [type_to_string]. *)
Definition type_to_string (type : ZL_Type) : string :=
  if type =? ZL_Type_serial then "serial"
  else if type =? ZL_Type_struct then "struct"
  else if type =? ZL_Type_numeric then "numeric"
  else if type =? ZL_Type_string then "string"
  else "unknown".

(** What is read out of one typed buffer. *)
Record buffer_view : Type := mkView {
  bv_type : ZL_Type;
  bv_byte_size : Z;
  bv_num_elts : Z;
  bv_elt_width : Z;
  bv_data : bytes;
  bv_str_lens : option bytes
}.

(** The result map built from what was read: the four fixed keys, and
    [string_lengths] for a string buffer whose length array is not null.
    All data is copied into fresh binaries. *)
Definition view_to_map (v : buffer_view) : term :=
  let data_bin := TBinary (memcpy (bv_data v) (bv_byte_size v)) in
  let keys := [make_atom "type"; make_atom "data"; make_atom "element_width";
               make_atom "num_elements"] in
  let vals := [make_atom (type_to_string (bv_type v)); data_bin;
               enif_make_uint64 (bv_elt_width v);
               enif_make_uint64 (bv_num_elts v)] in
  match bv_str_lens v with
  | Some str_lens =>
      let lens_byte_size := wrap64 (bv_num_elts v * sizeof_uint32_t) in
      let lens_bin := TBinary (memcpy str_lens lens_byte_size) in
      enif_make_map_from_arrays (keys ++ [make_atom "string_lengths"])
                                (vals ++ [lens_bin])
  | None => enif_make_map_from_arrays keys vals
  end.

(** The block both typed-decompress NIFs run on a filled buffer: five
    getters, then [ZL_TypedBuffer_rStringLens] only when the type is
    [ZL_Type_string]. *)
Definition read_typed_buffer (tbuf : ZL_TypedBuffer) : prog term :=
  type <- call (ZL_TypedBuffer_type tbuf) ;;
  byte_size <- call (ZL_TypedBuffer_byteSize tbuf) ;;
  num_elts <- call (ZL_TypedBuffer_numElts tbuf) ;;
  elt_width <- call (ZL_TypedBuffer_eltWidth tbuf) ;;
  data_ptr <- call (ZL_TypedBuffer_rPtr tbuf) ;;
  if type =? ZL_Type_string then
    str_lens <- call (ZL_TypedBuffer_rStringLens tbuf) ;;
    ret (view_to_map (mkView type byte_size num_elts elt_width data_ptr str_lens))
  else
    ret (view_to_map (mkView type byte_size num_elts elt_width data_ptr None)).

(** [~TypedBufferPtr()] for every element of the vector. *)
Fixpoint free_buffers (bufs : list ZL_TypedBuffer) : prog unit :=
  match bufs with
  | [] => ret tt
  | b :: rest => call (ZL_TypedBuffer_free b) ;; free_buffers rest
  end.

(** [nif_decompress_typed]. *)
Definition nif_decompress_typed (dctx : DCtx) (compressed : bytes)
  : prog (nif_result term) :=
  if empty compressed then ret (Error "input must not be empty")
  else
    tbuf <- call ZL_TypedBuffer_create ;;
    match tbuf with
    | None => ret (Error "failed to create typed buffer")
    | Some tbuf =>
        result <- call (ZL_DCtx_decompressTBuffer (dctx_ctx dctx) tbuf compressed) ;;
        if ZL_isError result then
          err <- call (ZL_DCtx_getErrorContextString (dctx_ctx dctx) result) ;;
          let msg := error_message err "typed decompression failed" in
          call (ZL_TypedBuffer_free tbuf) ;;
          ret (Error msg)
        else
          map <- read_typed_buffer tbuf ;;
          call (ZL_TypedBuffer_free tbuf) ;;
          ret (Ok map)
    end.

(** [for (size_t i = 0; i < nb_outputs; i++)]: create the buffers; [false]
    is the early return on a null buffer. *)
Fixpoint create_buffers (remaining : nat) (bufs buf_ptrs : list ZL_TypedBuffer)
  : prog (list ZL_TypedBuffer * list ZL_TypedBuffer * bool) :=
  match remaining with
  | O => ret (bufs, buf_ptrs, true)
  | S remaining' =>
      buf <- call ZL_TypedBuffer_create ;;
      match buf with
      | None => ret (bufs, buf_ptrs, false)
      | Some buf => create_buffers remaining' (bufs ++ [buf]) (buf_ptrs ++ [buf])
      end
  end.

(** [for (size_t i = 0; i < nb_outputs; i++)]: read [buf_ptrs[i]] and
    [push_back] its map. *)
Fixpoint build_list_items (remaining : nat) (i : Z)
    (buf_ptrs : list ZL_TypedBuffer) (list_items : list term)
  : prog (list term) :=
  match remaining with
  | O => ret list_items
  | S remaining' =>
      let tbuf := nth (Z.to_nat i) buf_ptrs 0 in
      map <- read_typed_buffer tbuf ;;
      build_list_items remaining' (i + 1) buf_ptrs (list_items ++ [map])
  end.

(** [nif_decompress_multi_typed]. *)
Definition nif_decompress_multi_typed (dctx : DCtx) (compressed : bytes)
  : prog (nif_result term) :=
  if empty compressed then ret (Error "input must not be empty")
  else
    num_report <- call (ZL_getNumOutputs compressed) ;;
    if ZL_isError num_report then
      ret (Error "failed to get number of outputs from frame")
    else
      let nb_outputs := ZL_validResult num_report in
      '(bufs, buf_ptrs, created) <- create_buffers (Z.to_nat nb_outputs) [] [] ;;
      if negb created then
        free_buffers bufs ;;
        ret (Error "failed to create typed buffer")
      else
        result <- call (ZL_DCtx_decompressMultiTBuffer
                          (dctx_ctx dctx) buf_ptrs nb_outputs compressed) ;;
        if ZL_isError result then
          err <- call (ZL_DCtx_getErrorContextString (dctx_ctx dctx) result) ;;
          let msg := error_message err "multi-typed decompression failed" in
          free_buffers bufs ;;
          ret (Error msg)
        else
          list_items <- build_list_items (Z.to_nat nb_outputs) 0 buf_ptrs [] ;;
          let result_list := enif_make_list_from_array list_items in
          free_buffers bufs ;;
          ret (Ok result_list).

(* ===================================================================== *)
(** ** Frame introspection *)
(* ===================================================================== *)

(** The map of one output, from the three reports of its queries. *)
Definition output_item (type_report size_report elts_report : ZL_Report) : term :=
  let keys := [make_atom "type"; make_atom "decompressed_size";
               make_atom "num_elements"] in
  let vals :=
    [ (if negb (ZL_isError type_report)
       then make_atom (type_to_string (ZL_validResult type_report))
       else make_atom "unknown");
      (if negb (ZL_isError size_report)
       then enif_make_uint64 (ZL_validResult size_report)
       else make_atom "unknown");
      (if negb (ZL_isError elts_report)
       then enif_make_uint64 (ZL_validResult elts_report)
       else make_atom "unknown") ] in
  enif_make_map_from_arrays keys vals.

(** [for (size_t i = 0; i < num_outputs; i++)] of [nif_frame_info]; the
    index is passed as [(int)i]. *)
Fixpoint build_output_items (remaining : nat) (i : Z) (fi : ZL_FrameInfo)
    (output_items : list term) : prog (list term) :=
  match remaining with
  | O => ret output_items
  | S remaining' =>
      type_report <- call (ZL_FrameInfo_getOutputType fi (static_cast_int i)) ;;
      size_report <-
        call (ZL_FrameInfo_getDecompressedSize fi (static_cast_int i)) ;;
      elts_report <- call (ZL_FrameInfo_getNumElts fi (static_cast_int i)) ;;
      build_output_items remaining' (i + 1) fi
        (output_items ++ [output_item type_report size_report elts_report])
  end.

(** [nif_frame_info]. *)
Definition nif_frame_info (compressed : bytes) : prog (nif_result term) :=
  if empty compressed then ret (Error "input must not be empty")
  else
    fi <- call (ZL_FrameInfo_create compressed) ;;
    match fi with
    | None => ret (Error "failed to create frame info")
    | Some fi =>
        ver_report <- call (ZL_FrameInfo_getFormatVersion fi) ;;
        if ZL_isError ver_report then
          call (ZL_FrameInfo_free fi) ;;
          ret (Error "failed to get format version")
        else
          num_report <- call (ZL_FrameInfo_getNumOutputs fi) ;;
          if ZL_isError num_report then
            call (ZL_FrameInfo_free fi) ;;
            ret (Error "failed to get number of outputs")
          else
            let num_outputs := ZL_validResult num_report in
            output_items <- build_output_items (Z.to_nat num_outputs) 0 fi [] ;;
            let top_keys := [make_atom "format_version"; make_atom "num_outputs";
                             make_atom "outputs"] in
            let top_vals := [enif_make_uint64 (ZL_validResult ver_report);
                             enif_make_uint64 num_outputs;
                             enif_make_list_from_array output_items] in
            let result_map := enif_make_map_from_arrays top_keys top_vals in
            call (ZL_FrameInfo_free fi) ;;
            ret (Ok result_map)
    end.

(* ===================================================================== *)
(** ** Phase 3: SDDL *)
(* ===================================================================== *)

(** [nif_sddl_compile].  The [try] block constructs the compiler and calls
    [compile(source, "[input]")]; the only handler is
    [catch (const std::exception &e)]. *)
Definition nif_sddl_compile (source : bytes) : prog (outcome (nif_result bytes)) :=
  if empty source then ret (Returned (Error "SDDL source must not be empty"))
  else
    compiled <- call (Compiler_compile source "[input]") ;;
    match compiled with
    | Compiled compiled => ret (Returned (Ok compiled))
    | Thrown (StdException what) =>
        ret (Returned (Error (String.append "SDDL compilation failed: " what)))
    | Thrown e => ret (Propagated e)
    end.

(* ===================================================================== *)
(** ** Reading [nif_compress_multi_typed] item by item *)
(* ===================================================================== *)

(** The local checks an item can fail, in the order the loop body makes
    them. *)
Inductive constraint : Type :=
| NotATriple
| TagNotAtom
| DataNotBinary
| NumericWidthNotInteger
| NumericWidthNotAllowed
| NumericSizeNotMultiple
| StructWidthNotInteger
| StructWidthZero
| StructSizeNotMultiple
| LengthsNotBinary
| LengthsMisaligned
| UnknownTypeTag (type_atom : string).

(** The text of each early return of the loop body. *)
Definition constraint_message (c : constraint) : string :=
  match c with
  | NotATriple => "each input must be a 3-tuple {type, data, param}"
  | TagNotAtom => "first element must be an atom"
  | DataNotBinary => "second element must be a binary"
  | NumericWidthNotInteger => "numeric width must be a positive integer"
  | NumericWidthNotAllowed => "numeric element_width must be 1, 2, 4, or 8"
  | NumericSizeNotMultiple => "numeric data size must be a multiple of width"
  | StructWidthNotInteger => "struct width must be a positive integer"
  | StructWidthZero => "struct_width must be > 0"
  | StructSizeNotMultiple => "struct data size must be a multiple of width"
  | LengthsNotBinary => "string lengths must be a binary of uint32_t values"
  | LengthsMisaligned => "string lengths binary size must be a multiple of 4"
  | UnknownTypeTag type_atom => String.append "unknown type atom: " type_atom
  end.

(** What a valid item asks of the engine. *)
Inductive ref_request : Type :=
| ReqNumeric (data : bytes) (width count : Z)
| ReqStruct (data : bytes) (swidth count : Z)
| ReqString (data : bytes) (lengths : bytes) (nb_strings : Z).

Definition request_data (q : ref_request) : bytes :=
  match q with
  | ReqNumeric data _ _ => data
  | ReqStruct data _ _ => data
  | ReqString data _ _ => data
  end.

Definition request_call (q : ref_request) : engineE (option ZL_TypedRef) :=
  match q with
  | ReqNumeric data width count => ZL_TypedRef_createNumeric data width count
  | ReqStruct data swidth count => ZL_TypedRef_createStruct data swidth count
  | ReqString data lengths nb => ZL_TypedRef_createString data (size data) lengths nb
  end.

(** The message of the loop body when the engine answers null. *)
Definition request_failure (q : ref_request) : string :=
  match q with
  | ReqNumeric _ _ _ => "failed to create numeric typed ref"
  | ReqStruct _ _ _ => "failed to create struct typed ref"
  | ReqString _ _ _ => "failed to create string typed ref"
  end.

(** The checks of [multi_item] alone: the first constraint the item
    violates, or the engine call it leads to.  [multi_item_decode] below
    proves that this is what the loop body does. *)
Definition decode_item (head : term) : constraint + ref_request :=
  match enif_get_tuple head with
  | None => inl NotATriple
  | Some (arity, tuple_terms) =>
      if negb (arity =? 3) then inl NotATriple
      else
        match enif_get_atom (nth 0 tuple_terms TOther) 16 with
        | None => inl TagNotAtom
        | Some type_atom =>
            match enif_inspect_binary (nth 1 tuple_terms TOther) with
            | None => inl DataNotBinary
            | Some bin =>
                if strcmp_eq0 type_atom "numeric" then
                  match enif_get_uint64 (nth 2 tuple_terms TOther) with
                  | None => inl NumericWidthNotInteger
                  | Some width =>
                      if bad_numeric_width width then inl NumericWidthNotAllowed
                      else if negb (size bin mod width =? 0)
                      then inl NumericSizeNotMultiple
                      else inr (ReqNumeric bin width (size bin / width))
                  end
                else if strcmp_eq0 type_atom "struct" then
                  match enif_get_uint64 (nth 2 tuple_terms TOther) with
                  | None => inl StructWidthNotInteger
                  | Some swidth =>
                      if swidth =? 0 then inl StructWidthZero
                      else if negb (size bin mod swidth =? 0)
                      then inl StructSizeNotMultiple
                      else inr (ReqStruct bin swidth (size bin / swidth))
                  end
                else if strcmp_eq0 type_atom "string" then
                  match enif_inspect_binary (nth 2 tuple_terms TOther) with
                  | None => inl LengthsNotBinary
                  | Some lens_bin =>
                      if negb (size lens_bin mod sizeof_uint32_t =? 0)
                      then inl LengthsMisaligned
                      else inr (ReqString bin lens_bin
                                          (size lens_bin / sizeof_uint32_t))
                  end
                else inl (UnknownTypeTag (c_str type_atom))
            end
        end
  end.

(** The heads of the cons cells the [while] loop can visit. *)
Fixpoint cells (t : term) : list term :=
  match t with
  | TCons hd tl => hd :: cells tl
  | _ => []
  end.

(** Position of the first item that fails a local check. *)
Fixpoint first_invalid (items : list term) : option nat :=
  match items with
  | [] => None
  | x :: rest =>
      match decode_item x with
      | inl _ => Some O
      | inr _ => option_map S (first_invalid rest)
      end
  end.

(** The data sizes of the items, added as mathematical integers. *)
Definition sum_sizes (reqs : list ref_request) : Z :=
  fold_right (fun q acc => size (request_data q) + acc) 0 reqs.

(** The log of creating one reference per request, in order. *)
Fixpoint create_entries (reqs : list ref_request) (rs : list ZL_TypedRef)
  : list entry :=
  match reqs, rs with
  | q :: reqs', r :: rs' => Entry (request_call q) (Some r) :: create_entries reqs' rs'
  | _, _ => []
  end.

Definition free_entries (rs : list ZL_TypedRef) : list entry :=
  map (fun r => Entry (ZL_TypedRef_free r) tt) rs.

(** Log entries that are a multi-reference compress call. *)
Definition is_multi_compress (en : entry) : bool :=
  match en with
  | Entry (ZL_CCtx_compressMultiTypedRef _ _ _ _) _ => true
  | Entry _ _ => false
  end.

(** Log entries that ask a context for its diagnostic string. *)
Definition is_diagnostic_query (en : entry) : bool :=
  match en with
  | Entry (ZL_CCtx_getErrorContextString _ _) _ => true
  | Entry (ZL_DCtx_getErrorContextString _ _) _ => true
  | Entry _ _ => false
  end.

(** Log entries that attach a compressor to a context. *)
Definition is_ref_compressor (en : entry) : bool :=
  match en with
  | Entry (ZL_CCtx_refCompressor _ _) _ => true
  | Entry _ _ => false
  end.

(** The packed [uint32_t] array as the engine reads it (little endian). *)
Fixpoint lengths_of_bin (b : bytes) : list Z :=
  match b with
  | b0 :: b1 :: b2 :: b3 :: rest =>
      (Z.of_N (Byte.to_N b0) + 256 * Z.of_N (Byte.to_N b1)
       + 65536 * Z.of_N (Byte.to_N b2) + 16777216 * Z.of_N (Byte.to_N b3))
      :: lengths_of_bin rest
  | _ => []
  end.

Definition sum_lengths (b : bytes) : Z := fold_right Z.add 0 (lengths_of_bin b).

(** Lookup in a result map. *)
Fixpoint map_get (key : term -> bool) (pairs : list (term * term)) : option term :=
  match pairs with
  | [] => None
  | (k, v) :: rest => if key k then Some v else map_get key rest
  end.

Definition is_atom_named (s : string) (t : term) : bool :=
  match t with
  | TAtom name => String.eqb (string_of_codes name) s
  | _ => false
  end.

Definition field (name : string) (m : term) : option term :=
  match m with
  | TMap pairs => map_get (is_atom_named name) pairs
  | _ => None
  end.

(* ===================================================================== *)
(** ** Concrete engines *)
(* ===================================================================== *)

(** A well-behaved engine: handles come from a counter, compression stores
    its input unchanged, every frame holds one serial output. *)
Definition nominal : handler Z := fun X e s =>
  match e in engineE X return X * Z with
  | ZL_compressBound n => (n + 16, s)
  | ZL_getDefaultEncodingVersion => (21, s)
  | ZL_CCtx_create => (Some s, s + 1)
  | ZL_CCtx_free _ => (tt, s)
  | ZL_CCtx_setParameter _ _ _ => (ZL_returnValue 0, s)
  | ZL_CCtx_compress _ _ src => ((ZL_returnValue (size src), src), s)
  | ZL_CCtx_getErrorContextString _ _ => (Some "engine diagnostic", s)
  | ZL_CCtx_refCompressor _ _ => (ZL_returnValue 0, s)
  | ZL_CCtx_compressTypedRef _ _ _ => ((ZL_returnValue 1, [Byte.x2a]), s)
  | ZL_CCtx_compressMultiTypedRef _ _ _ _ => ((ZL_returnValue 1, [Byte.x2a]), s)
  | ZL_Compressor_create => (Some s, s + 1)
  | ZL_Compressor_free _ => (tt, s)
  | ZL_Compressor_selectStartingGraphID _ _ => (ZL_returnValue 0, s)
  | ZL_TypedRef_createNumeric _ _ _ => (Some s, s + 1)
  | ZL_TypedRef_createStruct _ _ _ => (Some s, s + 1)
  | ZL_TypedRef_createString _ _ _ _ => (Some s, s + 1)
  | ZL_TypedRef_free _ => (tt, s)
  | ZL_getDecompressedSize src => (ZL_returnValue (size src), s)
  | ZL_getNumOutputs _ => (ZL_returnValue 1, s)
  | ZL_decompress _ src => ((ZL_returnValue (size src), src), s)
  | ZL_DCtx_decompress _ _ src => ((ZL_returnValue (size src), src), s)
  | ZL_DCtx_getErrorContextString _ _ => (Some "engine diagnostic", s)
  | ZL_DCtx_decompressTBuffer _ _ _ => (ZL_returnValue 0, s)
  | ZL_DCtx_decompressMultiTBuffer _ _ _ _ => (ZL_returnValue 0, s)
  | ZL_TypedBuffer_create => (Some s, s + 1)
  | ZL_TypedBuffer_free _ => (tt, s)
  | ZL_TypedBuffer_type _ => (ZL_Type_serial, s)
  | ZL_TypedBuffer_byteSize _ => (1, s)
  | ZL_TypedBuffer_numElts _ => (1, s)
  | ZL_TypedBuffer_eltWidth _ => (1, s)
  | ZL_TypedBuffer_rPtr buf => ([Byte.x2a], s)
  | ZL_TypedBuffer_rStringLens _ => (None, s)
  | ZL_FrameInfo_create _ => (Some s, s + 1)
  | ZL_FrameInfo_free _ => (tt, s)
  | ZL_FrameInfo_getFormatVersion _ => (ZL_returnValue 21, s)
  | ZL_FrameInfo_getNumOutputs _ => (ZL_returnValue 1, s)
  | ZL_FrameInfo_getOutputType _ _ => (ZL_returnValue ZL_Type_serial, s)
  | ZL_FrameInfo_getDecompressedSize _ _ => (ZL_returnValue 1, s)
  | ZL_FrameInfo_getNumElts _ _ => (ZL_returnValue 1, s)
  | Compiler_compile source _ => (Compiled source, s)
  end.

(** Some answers of an engine replaced by fixed ones. *)
Definition faults : Type := forall X : Type, engineE X -> option X.

Definition with_faults {S : Type} (f : faults) (h : handler S) : handler S :=
  fun X e s =>
    match f X e with
    | Some x => (x, s)
    | None => h X e s
    end.

(** The engine cannot allocate a compressor. *)
Definition no_compressor : faults := fun X e =>
  match e in engineE X return option X with
  | ZL_Compressor_create => Some None
  | _ => None
  end.

(** Every decompress call reports an error, and the decompression context
    has a diagnostic for it. *)
Definition corrupt_payload : faults := fun X e =>
  match e in engineE X return option X with
  | ZL_decompress _ _ => Some (ZL_returnError 5, [])
  | ZL_DCtx_decompress _ _ _ => Some (ZL_returnError 5, [])
  | ZL_DCtx_decompressTBuffer _ _ _ => Some (ZL_returnError 5)
  | ZL_DCtx_decompressMultiTBuffer _ _ _ _ => Some (ZL_returnError 5)
  | ZL_DCtx_getErrorContextString _ _ => Some (Some "corrupt payload")
  | _ => None
  end.

(** The frame opens and its output count is readable, its format version
    is not. *)
Definition version_unreadable : faults := fun X e =>
  match e in engineE X return option X with
  | ZL_FrameInfo_getFormatVersion _ => Some (ZL_returnError 3)
  | _ => None
  end.

(** The type of output 0 is unreadable, its size and count are. *)
Definition type_unreadable : faults := fun X e =>
  match e in engineE X return option X with
  | ZL_FrameInfo_getOutputType _ _ => Some (ZL_returnError 4)
  | _ => None
  end.

(** The SDDL compiler rejects every source. *)
Definition compiler_rejects : faults := fun X e =>
  match e in engineE X return option X with
  | Compiler_compile _ _ => Some (Thrown (StdException "boom"))
  | _ => None
  end.

(** The SDDL compiler throws something that is not a [std::exception]. *)
Definition compiler_throws_other : faults := fun X e =>
  match e in engineE X return option X with
  | Compiler_compile _ _ => Some (Thrown NonStdException)
  | _ => None
  end.

(** The multi-reference compress call fails. *)
Definition multi_fails : faults := fun X e =>
  match e in engineE X return option X with
  | ZL_CCtx_compressMultiTypedRef _ _ _ _ => Some (ZL_returnError 9, [])
  | _ => None
  end.

(** Selecting the generic graph fails. *)
Definition select_fails : faults := fun X e =>
  match e in engineE X return option X with
  | ZL_Compressor_selectStartingGraphID _ _ => Some (ZL_returnError 2)
  | _ => None
  end.

(** Attaching a compressor fails. *)
Definition attach_fails : faults := fun X e =>
  match e in engineE X return option X with
  | ZL_CCtx_refCompressor _ _ => Some (ZL_returnError 6)
  | _ => None
  end.

(** Sample inputs. *)
Definition sample_cctx : CCtx := mkCCtx 100 (Some 101) None.
Definition sample_dctx : DCtx := mkDCtx 200.

Definition numeric_item (data : bytes) (width : Z) : term :=
  TTuple [make_atom "numeric"; TBinary data; TInt width].
Definition struct_item (data : bytes) (swidth : Z) : term :=
  TTuple [make_atom "struct"; TBinary data; TInt swidth].
Definition string_item (data lengths : bytes) : term :=
  TTuple [make_atom "string"; TBinary data; TBinary lengths].

(* ===================================================================== *)
(** ** Logs, outcomes and sample inputs used by the statements *)
(* ===================================================================== *)

(** [loop_run h items st s out s' tr]: from the locals [st] and the engine
    state [s], visiting [items] ends with [out] (locals and message of an
    early return), engine state [s'] and log [tr]. *)
Inductive loop_run {S : Type} (h : handler S)
  : list term -> multi_state -> S -> multi_state * option string -> S
    -> list entry -> Prop :=
| loop_end st s :
    loop_run h [] st s (st, None) s []
| loop_invalid x xs st s c :
    decode_item x = inl c ->
    loop_run h (x :: xs) st s (st, Some (constraint_message c)) s []
| loop_null x xs st s q s1 :
    decode_item x = inr q ->
    h _ (request_call q) s = (None, s1) ->
    loop_run h (x :: xs) st s (st, Some (request_failure q)) s1
             [Entry (request_call q) None]
| loop_next x xs st s q r s1 out s2 tr :
    decode_item x = inr q ->
    h _ (request_call q) s = (Some r, s1) ->
    loop_run h xs (push_ref st (request_data q) r) s1 out s2 tr ->
    loop_run h (x :: xs) st s out s2 (Entry (request_call q) (Some r) :: tr).

Definition no_multi_compress (tr : list entry) : Prop :=
  forallb (fun en => negb (is_multi_compress en)) tr = true.

Definition no_diagnostic_query (tr : list entry) : Prop :=
  forallb (fun en => negb (is_diagnostic_query en)) tr = true.

Definition no_ref_compressor (tr : list entry) : Prop :=
  forallb (fun en => negb (is_ref_compressor en)) tr = true.

(** The binary an item carries ([tuple_terms[1]]). *)
Definition item_binary (x : term) : option bytes :=
  match enif_get_tuple x with
  | Some (_, tuple_terms) => enif_inspect_binary (nth 1 tuple_terms TOther)
  | None => None
  end.

(** The log of reading one buffer into a view. *)
Definition view_entries (tbuf : ZL_TypedBuffer) (v : buffer_view) : list entry :=
  [Entry (ZL_TypedBuffer_type tbuf) (bv_type v);
   Entry (ZL_TypedBuffer_byteSize tbuf) (bv_byte_size v);
   Entry (ZL_TypedBuffer_numElts tbuf) (bv_num_elts v);
   Entry (ZL_TypedBuffer_eltWidth tbuf) (bv_elt_width v);
   Entry (ZL_TypedBuffer_rPtr tbuf) (bv_data v)]
  ++ (if bv_type v =? ZL_Type_string
      then [Entry (ZL_TypedBuffer_rStringLens tbuf) (bv_str_lens v)]
      else []).

(** The log of reading the buffers one after the other. *)
Fixpoint read_entries (bufs : list ZL_TypedBuffer) (views : list buffer_view)
  : list entry :=
  match bufs, views with
  | b :: bufs', v :: views' => view_entries b v ++ read_entries bufs' views'
  | _, _ => []
  end.

Definition buffer_entries (bufs : list ZL_TypedBuffer) : list entry :=
  map (fun b => Entry ZL_TypedBuffer_create (Some b)) bufs.

Definition buffer_free_entries (bufs : list ZL_TypedBuffer) : list entry :=
  map (fun b => Entry (ZL_TypedBuffer_free b) tt) bufs.

(** The answer of a log entry, when it is a report. *)
Definition entry_reports_error (en : entry) : bool :=
  match en with
  | Entry e x =>
      match e in engineE X return X -> bool with
      | ZL_Compressor_selectStartingGraphID _ _ => ZL_isError
      | ZL_CCtx_refCompressor _ _ => ZL_isError
      | _ => fun _ => false
      end x
  end.

(** The engine could not allocate a compressor. *)
Definition is_compressor_alloc_failure (en : entry) : bool :=
  match en with
  | Entry e x =>
      match e in engineE X return X -> bool with
      | ZL_Compressor_create =>
          fun x => match x with None => true | Some _ => false end
      | _ => fun _ => false
      end x
  end.

(** One of the three steps of the default graph setup failed. *)
Definition is_graph_setup_failure (en : entry) : bool :=
  is_compressor_alloc_failure en || entry_reports_error en.

(** A compressor was attached and the engine accepted it. *)
Definition is_attach_success (en : entry) : bool :=
  is_ref_compressor en && negb (entry_reports_error en).

(** The four calls every constructed context starts with. *)
Definition construction_prefix (c : ZL_CCtx) (version : Z) (r1 r2 : ZL_Report)
  : list entry :=
  [Entry ZL_CCtx_create (Some c);
   Entry ZL_getDefaultEncodingVersion version;
   Entry (ZL_CCtx_setParameter c ZL_CParam_formatVersion
            (static_cast_int version)) r1;
   Entry (ZL_CCtx_setParameter c ZL_CParam_stickyParameters 1) r2].

(** The three ways the default graph setup can go, as the rest of the log
    and the [default_compressor] member. *)
Definition graph_setup (c : ZL_CCtx) (rest : list entry)
    (member : option ZL_Compressor) : Prop :=
  (rest = [Entry ZL_Compressor_create None] /\ member = None)
  \/ (exists comp report,
         ZL_isError report = true
         /\ rest = [Entry ZL_Compressor_create (Some comp);
                    Entry (ZL_Compressor_selectStartingGraphID
                             comp ZL_GRAPH_COMPRESS_GENERIC) report]
         /\ member = Some comp)
  \/ (exists comp report attach,
         ZL_isError report = false
         /\ rest = [Entry ZL_Compressor_create (Some comp);
                    Entry (ZL_Compressor_selectStartingGraphID
                             comp ZL_GRAPH_COMPRESS_GENERIC) report;
                    Entry (ZL_CCtx_refCompressor c comp) attach]
         /\ member = Some comp).

(** The three reports of one output. *)
Definition output_reports : Type := (ZL_Report * ZL_Report * ZL_Report)%type.

Definition output_of_reports (r : output_reports) : term :=
  let '(type_report, size_report, elts_report) := r in
  output_item type_report size_report elts_report.

(** The log of querying the outputs from index [i] on. *)
Fixpoint query_entries (fi : ZL_FrameInfo) (i : Z) (reports : list output_reports)
  : list entry :=
  match reports with
  | [] => []
  | (type_report, size_report, elts_report) :: rest =>
      Entry (ZL_FrameInfo_getOutputType fi (static_cast_int i)) type_report
      :: Entry (ZL_FrameInfo_getDecompressedSize fi (static_cast_int i))
               size_report
      :: Entry (ZL_FrameInfo_getNumElts fi (static_cast_int i)) elts_report
      :: query_entries fi (i + 1) rest
  end.

(** The top-level map of [nif_frame_info]. *)
Definition frame_info_map (version num_outputs : Z) (outputs : list term) : term :=
  TMap [(make_atom "format_version", TInt version);
        (make_atom "num_outputs", TInt num_outputs);
        (make_atom "outputs", enif_make_list_from_array outputs)].

(** The value of a field that may be unknown. *)
Definition known_or_unknown (report : ZL_Report) (value : Z -> term) : term :=
  if ZL_isError report then make_atom "unknown"
  else value (ZL_validResult report).

(** The ways [nif_frame_info] answers, with the log of each. *)
Definition frame_info_outcome (compressed : bytes) (res : nif_result term)
    (tr : list entry) : Prop :=
  match res with
  | Error msg =>
      (compressed = [] /\ msg = "input must not be empty" /\ tr = [])
      \/ (msg = "failed to create frame info"
          /\ tr = [Entry (ZL_FrameInfo_create compressed) None])
      \/ (exists fi code,
             msg = "failed to get format version"
             /\ tr = [Entry (ZL_FrameInfo_create compressed) (Some fi);
                      Entry (ZL_FrameInfo_getFormatVersion fi)
                            (ZL_returnError code);
                      Entry (ZL_FrameInfo_free fi) tt])
      \/ (exists fi version code,
             msg = "failed to get number of outputs"
             /\ tr = [Entry (ZL_FrameInfo_create compressed) (Some fi);
                      Entry (ZL_FrameInfo_getFormatVersion fi)
                            (ZL_returnValue version);
                      Entry (ZL_FrameInfo_getNumOutputs fi)
                            (ZL_returnError code);
                      Entry (ZL_FrameInfo_free fi) tt])
  | Ok m =>
      exists fi version n reports,
        List.length reports = Z.to_nat n
        /\ m = frame_info_map version n (map output_of_reports reports)
        /\ tr = [Entry (ZL_FrameInfo_create compressed) (Some fi);
                 Entry (ZL_FrameInfo_getFormatVersion fi)
                       (ZL_returnValue version);
                 Entry (ZL_FrameInfo_getNumOutputs fi) (ZL_returnValue n)]
                ++ query_entries fi 0 reports
                ++ [Entry (ZL_FrameInfo_free fi) tt]
  end.

Definition good_numeric : term := numeric_item [Byte.x01; Byte.x02] 2.
Definition good_struct : term := struct_item [Byte.x0a; Byte.x0b; Byte.x0c] 3.
Definition good_string : term :=
  string_item [Byte.x61; Byte.x62; Byte.x63]
              [Byte.x01; Byte.x00; Byte.x00; Byte.x00;
               Byte.x02; Byte.x00; Byte.x00; Byte.x00].
Definition bad_width : term := numeric_item [Byte.x01] 3.

Definition three_streams : term :=
  enif_make_list_from_array [good_numeric; good_struct; good_string].

(** The references handed to the multi-reference compress call are the
    engine's answers for the items, one per cell in cell order, and the
    bound is asked for the accumulated data size. *)
Definition references_in_input_order {S : Type} (h : handler S) (s : S)
    (cctx : CCtx) (t : term) : Prop :=
  exists reqs rs bound answer rest,
    Forall2 (fun x q => decode_item x = inr q
                        /\ item_binary x = Some (request_data q))
            (cells t) reqs
    /\ List.length rs = List.length reqs
    /\ trace_of (run h (nif_compress_multi_typed cctx t) s)
       = create_entries reqs rs
         ++ Entry (ZL_compressBound (wrap64 (sum_sizes reqs))) bound
         :: Entry (ZL_CCtx_compressMultiTypedRef
                     (ctx cctx) bound rs (Z.of_nat (List.length rs))) answer
         :: rest
    /\ no_multi_compress rest
    /\ (sum_sizes reqs < size_t_modulus ->
        wrap64 (sum_sizes reqs) = sum_sizes reqs).

(** The descriptors returned are the maps of the buffers handed to the
    multi-buffer decompress call, read one after the other in array
    order. *)
Definition descriptors_in_frame_order {S : Type} (h : handler S) (s : S)
    (dctx : DCtx) (compressed : bytes) (out : term) : Prop :=
  exists n bufs views report,
    trace_of (run h (nif_decompress_multi_typed dctx compressed) s)
    = Entry (ZL_getNumOutputs compressed) (ZL_returnValue n)
      :: buffer_entries bufs
      ++ Entry (ZL_DCtx_decompressMultiTBuffer
                  (dctx_ctx dctx) bufs n compressed) report
      :: read_entries bufs views
      ++ buffer_free_entries bufs
    /\ List.length bufs = Z.to_nat n
    /\ List.length views = List.length bufs
    /\ out = enif_make_list_from_array (map view_to_map views).

(* ===================================================================== *)
(** ** The remaining NIFs and resources *)
(* ===================================================================== *)

(** [std::to_string] on an unsigned value: its decimal digits. *)
Definition std_to_string (n : Z) : string :=
  NilZero.string_of_uint (N.to_uint (Z.to_N n)).

(** [unsigned] arithmetic wraps modulo 2^32. *)
Definition wrap32 (z : Z) : Z := z mod 2 ^ 32.

(** [nif_version]; the macro [ZL_LIBRARY_VERSION_NUMBER] comes from the
    engine's header and is taken as a parameter. *)
Definition nif_version (ZL_LIBRARY_VERSION_NUMBER : Z) : string :=
  let ver := wrap32 ZL_LIBRARY_VERSION_NUMBER in
  let major := ver / 10000 in
  let minor := (ver / 100) mod 100 in
  let patch := ver mod 100 in
  String.append (std_to_string major)
    (String.append "."
       (String.append (std_to_string minor)
          (String.append "." (std_to_string patch)))).

(** [nif_compress_bound]; both casts are between 64-bit unsigned types. *)
Definition nif_compress_bound (src_size : Z) : prog Z :=
  bound <- call (ZL_compressBound (wrap64 src_size)) ;;
  ret (wrap64 bound).

(** [fine::Atom]. *)
Inductive Atom : Type := mkAtom (name : string).

(** [nif_set_compression_level]; [level] is an [int64_t] narrowed by
    [static_cast<int>]. *)
Definition nif_set_compression_level (cctx : CCtx) (level : Z)
  : prog (nif_result Atom) :=
  result <- call (ZL_CCtx_setParameter (ctx cctx) ZL_CParam_compressionLevel
                    (static_cast_int level)) ;;
  if ZL_isError result then
    err <- call (ZL_CCtx_getErrorContextString (ctx cctx) result) ;;
    let msg := error_message err "failed to set compression level" in
    ret (Error msg)
  else
    ret (Ok (mkAtom "ok")).


(** [Compressor::Compressor()]. *)
Definition Compressor_new : prog (outcome Compressor) :=
  c <- call ZL_Compressor_create ;;
  match c with
  | None => ret (Propagated (StdException "failed to create OpenZL compressor"))
  | Some c => ret (Returned (mkCompressor c))
  end.

(** [Compressor::~Compressor()]. *)
Definition Compressor_delete (comp : Compressor) : prog unit :=
  call (ZL_Compressor_free (compressor comp)).

(* --------------------------------------------------------------------- *)
(** *** Calls outside [engineE] *)
(* --------------------------------------------------------------------- *)

(** [ZL_RESULT_OF(ZL_GraphID)]: a graph id, or an error object. *)
Inductive ZL_GraphID_result : Type :=
| ZL_RES_value (id : ZL_GraphID)
| ZL_RES_error (error : Z).

Definition ZL_RES_isError (r : ZL_GraphID_result) : bool :=
  match r with ZL_RES_value _ => false | ZL_RES_error _ => true end.

(** The calls of [engineE], and the ones only the decompression-context
    resource and the SDDL compressor NIF make. *)
Inductive nativeE : Type -> Type :=
| Engine (X : Type) (e : engineE X) : nativeE X
| ZL_DCtx_create : nativeE (option ZL_DCtx)
| ZL_DCtx_free (d : ZL_DCtx) : nativeE unit
| ZL_SDDL_setupProfile (comp : ZL_Compressor) (compiled : bytes) (size : Z)
  : nativeE ZL_GraphID_result
| ZL_Compressor_getErrorContextString_fromError (comp : ZL_Compressor)
    (error : Z) : nativeE (option string)
| ZL_Compressor_getErrorContextString (comp : ZL_Compressor) (r : ZL_Report)
  : nativeE (option string).

Arguments Engine {X} e.

(** Programs over [nativeE]. *)
Inductive nprog (A : Type) : Type :=
| NRet (a : A)
| NCall (X : Type) (e : nativeE X) (k : X -> nprog A).

Arguments NRet {A} a.
Arguments NCall {A X} e k.

Fixpoint nprog_bind {A B : Type} (p : nprog A) (f : A -> nprog B) : nprog B :=
  match p with
  | NRet a => f a
  | NCall e k => NCall e (fun x => nprog_bind (k x) f)
  end.

#[export] Instance Monad_nprog : Monad nprog :=
  {| ret := fun _ a => NRet a;
     bind := fun _ _ p f => nprog_bind p f |}.

Definition ncall {X : Type} (e : nativeE X) : nprog X :=
  NCall e (fun x => NRet x).

(** A program over [engineE] is a program over [nativeE]. *)
Fixpoint lift {A : Type} (p : prog A) : nprog A :=
  match p with
  | Ret a => NRet a
  | Call e k => NCall (Engine e) (fun x => lift (k x))
  end.

Inductive nentry : Type :=
| NEntry (X : Type) (e : nativeE X) (answer : X).

Arguments NEntry {X} e answer.

Definition nhandler (S : Type) : Type :=
  forall X : Type, nativeE X -> S -> X * S.

Fixpoint nrun {S A : Type} (h : nhandler S) (p : nprog A) (s : S)
  : A * S * list nentry :=
  match p with
  | NRet a => (a, s, [])
  | NCall e k =>
      let '(x, s1) := h _ e s in
      let '(a, s2, tr) := nrun h (k x) s1 in
      (a, s2, NEntry e x :: tr)
  end.

(** [DCtx::DCtx()]. *)
Definition DCtx_new : nprog (outcome DCtx) :=
  d <- ncall ZL_DCtx_create ;;
  match d with
  | None =>
      ret (Propagated
             (StdException "failed to create OpenZL decompression context"))
  | Some d => ret (Returned (mkDCtx d))
  end.

(** [DCtx::~DCtx()]. *)
Definition DCtx_delete (dctx : DCtx) : nprog unit :=
  ncall (ZL_DCtx_free (dctx_ctx dctx)).

(** [nif_create_decompression_context]. *)
Definition nif_create_decompression_context : nprog (outcome DCtx) := DCtx_new.

(** [nif_create_sddl_compressor].  [fine::make_resource<Compressor>()] runs
    the constructor, which may throw; when the NIF returns an error the
    resource pointer is dropped and the host runtime runs the destructor. *)
Definition nif_create_sddl_compressor (compiled : bytes)
  : nprog (outcome (nif_result Compressor)) :=
  if empty compiled then
    ret (Returned (Error "compiled SDDL must not be empty"))
  else
    made <- lift Compressor_new ;;
    match made with
    | Propagated e => ret (Propagated e)
    | Returned comp =>
        graph_result <- ncall (ZL_SDDL_setupProfile
                                 (compressor comp) compiled (size compiled)) ;;
        match graph_result with
        | ZL_RES_error error =>
            err <- ncall (ZL_Compressor_getErrorContextString_fromError
                            (compressor comp) error) ;;
            let msg := error_message err "failed to build SDDL graph" in
            ret (Returned (Error msg))
        | ZL_RES_value graph_id =>
            select_result <-
              ncall (Engine (ZL_Compressor_selectStartingGraphID
                               (compressor comp) graph_id)) ;;
            if ZL_isError select_result then
              err <- ncall (ZL_Compressor_getErrorContextString
                              (compressor comp) select_result) ;;
              let msg := error_message err "failed to select starting graph" in
              ret (Returned (Error msg))
            else
              ret (Returned (Ok comp))
        end
    end.

(** A well-behaved engine for the calls outside [engineE]; the calls of
    [engineE] are answered by [nominal]. *)
Definition nnominal : nhandler Z := fun X e s =>
  match e in nativeE X return X * Z with
  | Engine e => nominal _ e s
  | ZL_DCtx_create => (Some s, s + 1)
  | ZL_DCtx_free _ => (tt, s)
  | ZL_SDDL_setupProfile _ _ _ => (ZL_RES_value (ZL_GRAPH_custom 7), s)
  | ZL_Compressor_getErrorContextString_fromError _ _ =>
      (Some "compressor diagnostic", s)
  | ZL_Compressor_getErrorContextString _ _ =>
      (Some "compressor diagnostic", s)
  end.

(* --------------------------------------------------------------------- *)
(** *** Native objects obtained and released in a log *)
(* --------------------------------------------------------------------- *)

Inductive native : Type :=
| NativeCCtx (c : ZL_CCtx)
| NativeCompressor (c : ZL_Compressor)
| NativeTypedRef (r : ZL_TypedRef)
| NativeTypedBuffer (b : ZL_TypedBuffer)
| NativeFrameInfo (fi : ZL_FrameInfo).

(** The object a log entry hands to this layer, if any. *)
Definition acquired_by (en : entry) : option native :=
  match en with
  | Entry e x =>
      match e in engineE X return X -> option native with
      | ZL_CCtx_create => option_map NativeCCtx
      | ZL_Compressor_create => option_map NativeCompressor
      | ZL_TypedRef_createNumeric _ _ _ => option_map NativeTypedRef
      | ZL_TypedRef_createStruct _ _ _ => option_map NativeTypedRef
      | ZL_TypedRef_createString _ _ _ _ => option_map NativeTypedRef
      | ZL_TypedBuffer_create => option_map NativeTypedBuffer
      | ZL_FrameInfo_create _ => option_map NativeFrameInfo
      | _ => fun _ => None
      end x
  end.

(** The object a log entry gives back to the engine, if any. *)
Definition released_by (en : entry) : option native :=
  match en with
  | Entry (ZL_CCtx_free c) _ => Some (NativeCCtx c)
  | Entry (ZL_Compressor_free c) _ => Some (NativeCompressor c)
  | Entry (ZL_TypedRef_free r) _ => Some (NativeTypedRef r)
  | Entry (ZL_TypedBuffer_free b) _ => Some (NativeTypedBuffer b)
  | Entry (ZL_FrameInfo_free fi) _ => Some (NativeFrameInfo fi)
  | Entry _ _ => None
  end.

Definition keep {A : Type} (f : entry -> option A) (tr : list entry) : list A :=
  flat_map (fun en => match f en with Some a => [a] | None => [] end) tr.

Definition acquired (tr : list entry) : list native := keep acquired_by tr.
Definition released (tr : list entry) : list native := keep released_by tr.

(** Log entries that decompress, or allocate a decompression buffer. *)
Definition is_decompression (en : entry) : bool :=
  match en with
  | Entry (ZL_decompress _ _) _ => true
  | Entry (ZL_DCtx_decompress _ _ _) _ => true
  | Entry (ZL_DCtx_decompressTBuffer _ _ _) _ => true
  | Entry (ZL_DCtx_decompressMultiTBuffer _ _ _ _) _ => true
  | Entry ZL_TypedBuffer_create _ => true
  | Entry _ _ => false
  end.

(** The bytes of a NUL-padded buffer. *)
Definition zeros (n : Z) : bytes := repeat Byte.x00 (Z.to_nat n).

(** The ways [nif_decompress_multi_typed] runs, by the shape of its log. *)
Definition decompress_multi_outcome (dctx : DCtx) (compressed : bytes)
    (res : nif_result term) (tr : list entry) : Prop :=
  (compressed = [] /\ res = Error "input must not be empty" /\ tr = [])
  \/ (exists code,
         res = Error "failed to get number of outputs from frame"
         /\ tr = [Entry (ZL_getNumOutputs compressed) (ZL_returnError code)])
  \/ (exists n bufs,
         res = Error "failed to create typed buffer"
         /\ tr = Entry (ZL_getNumOutputs compressed) (ZL_returnValue n)
                 :: buffer_entries bufs
                 ++ Entry ZL_TypedBuffer_create None
                 :: buffer_free_entries bufs)
  \/ (exists n bufs report err,
         ZL_isError report = true
         /\ List.length bufs = Z.to_nat n
         /\ res = Error (error_message err "multi-typed decompression failed")
         /\ tr = Entry (ZL_getNumOutputs compressed) (ZL_returnValue n)
                 :: buffer_entries bufs
                 ++ Entry (ZL_DCtx_decompressMultiTBuffer
                             (dctx_ctx dctx) bufs n compressed) report
                 :: Entry (ZL_DCtx_getErrorContextString
                             (dctx_ctx dctx) report) err
                 :: buffer_free_entries bufs)
  \/ (exists n bufs views report,
         ZL_isError report = false
         /\ List.length bufs = Z.to_nat n
         /\ List.length views = List.length bufs
         /\ res = Ok (enif_make_list_from_array (map view_to_map views))
         /\ tr = Entry (ZL_getNumOutputs compressed) (ZL_returnValue n)
                 :: buffer_entries bufs
                 ++ Entry (ZL_DCtx_decompressMultiTBuffer
                             (dctx_ctx dctx) bufs n compressed) report
                 :: read_entries bufs views
                 ++ buffer_free_entries bufs).

(** The ways [nif_create_sddl_compressor] runs on a non-empty blob. *)
Definition sddl_compressor_outcome (compiled : bytes)
    (res : outcome (nif_result Compressor)) (tr : list nentry) : Prop :=
  (res = Propagated (StdException "failed to create OpenZL compressor")
   /\ tr = [NEntry (Engine ZL_Compressor_create) None])
  \/ (exists c error err,
         res = Returned (Error (error_message err "failed to build SDDL graph"))
         /\ tr = [NEntry (Engine ZL_Compressor_create) (Some c);
                  NEntry (ZL_SDDL_setupProfile c compiled (size compiled))
                         (ZL_RES_error error);
                  NEntry (ZL_Compressor_getErrorContextString_fromError c error)
                         err])
  \/ (exists c graph_id report err,
         ZL_isError report = true
         /\ res = Returned
                    (Error (error_message err "failed to select starting graph"))
         /\ tr = [NEntry (Engine ZL_Compressor_create) (Some c);
                  NEntry (ZL_SDDL_setupProfile c compiled (size compiled))
                         (ZL_RES_value graph_id);
                  NEntry (Engine (ZL_Compressor_selectStartingGraphID c graph_id))
                         report;
                  NEntry (ZL_Compressor_getErrorContextString c report) err])
  \/ (exists c graph_id report,
         ZL_isError report = false
         /\ res = Returned (Ok (mkCompressor c))
         /\ tr = [NEntry (Engine ZL_Compressor_create) (Some c);
                  NEntry (ZL_SDDL_setupProfile c compiled (size compiled))
                         (ZL_RES_value graph_id);
                  NEntry (Engine (ZL_Compressor_selectStartingGraphID c graph_id))
                         report]).

(** Log entries that give an object back. *)
Definition is_release (en : entry) : bool :=
  match released_by en with Some _ => true | None => false end.

(** A log that releases at its very end, and only there, exactly the
    objects it obtained before, in the order it obtained them. *)
Definition scoped (tr : list entry) : Prop :=
  exists pre post,
    tr = pre ++ post
    /\ released pre = []
    /\ forallb is_release post = true
    /\ acquired post = []
    /\ released post = acquired pre.

(** Log entries that ask a typed buffer for its string lengths. *)
Definition is_lens_query (en : entry) : bool :=
  match en with
  | Entry (ZL_TypedBuffer_rStringLens _) _ => true
  | Entry _ _ => false
  end.

(** The frame declares four bytes, decompression produces two. *)
Definition short_output : faults := fun X e =>
  match e in engineE X return option X with
  | ZL_getDecompressedSize _ => Some (ZL_returnValue 4)
  | ZL_decompress _ _ => Some (ZL_returnValue 2, [Byte.x61; Byte.x62])
  | ZL_DCtx_decompress _ _ _ => Some (ZL_returnValue 2, [Byte.x61; Byte.x62])
  | _ => None
  end.

(** The engine rejects every parameter and every attachment. *)
Definition rejects_settings : faults := fun X e =>
  match e in engineE X return option X with
  | ZL_CCtx_setParameter _ _ _ => Some (ZL_returnError 8)
  | ZL_CCtx_refCompressor _ _ => Some (ZL_returnError 8)
  | _ => None
  end.

(** A frame with two outputs, the second a string buffer with a lengths
    array. *)
Definition string_output : faults := fun X e =>
  match e in engineE X return option X with
  | ZL_TypedBuffer_type _ => Some ZL_Type_string
  | ZL_TypedBuffer_byteSize _ => Some 3
  | ZL_TypedBuffer_numElts _ => Some 2
  | ZL_TypedBuffer_rPtr _ => Some [Byte.x61; Byte.x62; Byte.x63]
  | ZL_TypedBuffer_rStringLens _ =>
      Some (Some [Byte.x01; Byte.x00; Byte.x00; Byte.x00;
                  Byte.x02; Byte.x00; Byte.x00; Byte.x00])
  | _ => None
  end.

(* ===================================================================== *)
(** ** Running programs: general facts *)
(* ===================================================================== *)

Section Runs.

Variable S : Type.
Variable h : handler S.

Lemma run_bind (A B : Type) (p : prog A) (f : A -> prog B) (s : S) :
  run h (prog_bind p f) s =
  let '(a, s1, t1) := run h p s in
  let '(b, s2, t2) := run h (f a) s1 in
  (b, s2, t1 ++ t2).
Proof.
  revert s. induction p as [a | X e k IH]; intros s; simpl.
  - destruct (run h (f a) s) as [[b s2] t2]. reflexivity.
  - destruct (h X e s) as [x s1]. rewrite IH.
    destruct (run h (k x) s1) as [[a s2] t1].
    destruct (run h (f a) s2) as [[b s3] t2]. reflexivity.
Qed.

Lemma run_call (X : Type) (e : engineE X) (s : S) :
  run h (call e) s = let '(x, s1) := h X e s in (x, s1, [Entry e x]).
Proof. simpl. destruct (h X e s). reflexivity. Qed.

End Runs.

(** The loop body is [decode_item] followed by at most one engine call. *)
Lemma multi_item_decode (head : term) (st : multi_state) :
  multi_item head st =
  match decode_item head with
  | inl c => Ret (inl (constraint_message c))
  | inr q =>
      Call (request_call q)
           (fun ref => match ref with
                       | None => Ret (inl (request_failure q))
                       | Some ref => Ret (inr (push_ref st (request_data q) ref))
                       end)
  end.
Proof.
  unfold multi_item, decode_item.
  destruct (enif_get_tuple head) as [[arity tuple_terms]|]; [|reflexivity].
  destruct (negb (arity =? 3)); [reflexivity|].
  destruct (enif_get_atom _ 16) as [type_atom|]; [|reflexivity].
  destruct (enif_inspect_binary (nth 1 tuple_terms TOther)) as [bin|]; [|reflexivity].
  destruct (strcmp_eq0 type_atom "numeric").
  { destruct (enif_get_uint64 _) as [width|]; [|reflexivity].
    destruct (bad_numeric_width width); [reflexivity|].
    destruct (negb _); reflexivity. }
  destruct (strcmp_eq0 type_atom "struct").
  { destruct (enif_get_uint64 _) as [width|]; [|reflexivity].
    destruct (width =? 0); [reflexivity|].
    destruct (negb _); reflexivity. }
  destruct (strcmp_eq0 type_atom "string"); [|reflexivity].
  destruct (enif_inspect_binary _) as [lens|]; [|reflexivity].
  destruct (negb _); reflexivity.
Qed.

(* ===================================================================== *)
(** ** The loop of [nif_compress_multi_typed] as a relation *)
(* ===================================================================== *)

Section Loop.

Variable S : Type.
Variable h : handler S.

(** Every run of the loop is a [loop_run] over the cells of its argument. *)
Lemma multi_loop_run (t : term) :
  forall st s,
    loop_run h (cells t) st s
             (result_of (run h (multi_loop t st) s))
             (state_of (run h (multi_loop t st) s))
             (trace_of (run h (multi_loop t st) s)).
Proof.
  induction t as [ | | | | | hd _ tl IH | | ]; intros st s;
    try (simpl; apply loop_end).
  change (multi_loop (TCons hd tl) st)
    with (prog_bind (multi_item hd st)
            (fun r => match r with
                      | inl msg => Ret (st, Some msg)
                      | inr st' => multi_loop tl st'
                      end)).
  rewrite multi_item_decode. simpl cells.
  destruct (decode_item hd) as [c | q] eqn:Hd.
  - simpl. apply loop_invalid. exact Hd.
  - simpl. destruct (h _ (request_call q) s) as [[r|] s1] eqn:Hq.
    + specialize (IH (push_ref st (request_data q) r) s1). cbn [prog_bind].
      destruct (run h (multi_loop tl (push_ref st (request_data q) r)) s1)
        as [[out s2] tr].
      simpl in *. eapply loop_next; eauto.
    + simpl. eapply loop_null; eauto.
Qed.

(** The loop only looks at the cells: an improper tail, or a term that is
    no list, is the same as the end of the list. *)
Lemma multi_loop_cells (t : term) :
  forall st s,
    run h (multi_loop t st) s
    = run h (multi_loop (enif_make_list_from_array (cells t)) st) s.
Proof.
  induction t as [ | | | | | hd _ tl IH | | ]; intros st s; try reflexivity.
  change (multi_loop (TCons hd tl) st)
    with (prog_bind (multi_item hd st)
            (fun r => match r with
                      | inl msg => Ret (st, Some msg)
                      | inr st' => multi_loop tl st'
                      end)).
  simpl cells. simpl enif_make_list_from_array.
  change (multi_loop (TCons hd (enif_make_list_from_array (cells tl))) st)
    with (prog_bind (multi_item hd st)
            (fun r => match r with
                      | inl msg => Ret (st, Some msg)
                      | inr st' =>
                          multi_loop (enif_make_list_from_array (cells tl)) st'
                      end)).
  rewrite !run_bind.
  destruct (run h (multi_item hd st) s) as [[[msg | st'] s1] t1]; [reflexivity|].
  rewrite IH. reflexivity.
Qed.

(** A loop that ends without an early return has built one reference per
    cell, in order, and nothing else. *)
Lemma loop_run_done items :
  forall st s st' s' tr base,
    loop_run h items st s (st', None) s' tr ->
    total_size st = wrap64 base ->
    exists reqs rs,
      map decode_item items = map inr reqs
      /\ List.length rs = List.length reqs
      /\ refs st' = refs st ++ rs
      /\ ref_ptrs st' = ref_ptrs st ++ rs
      /\ total_size st' = wrap64 (base + sum_sizes reqs)
      /\ tr = create_entries reqs rs.
Proof.
  induction items as [|x xs IH]; intros st s st' s' tr base Hrun Hsz.
  - inversion Hrun; subst. exists [], []. simpl.
    rewrite !app_nil_r, Z.add_0_r. repeat split; auto.
  - inversion Hrun; subst.
    match goal with
    | Hd : decode_item x = inr ?q, Hn : loop_run h xs _ _ _ _ _ |- _ =>
        apply (IH _ _ _ _ _ (base + size (request_data q))) in Hn;
        [ destruct Hn as (reqs & rs & Hm & Hl & Hr & Hp & Ht & Htr);
          exists (q :: reqs); eexists (_ :: rs); simpl;
          rewrite Hd, Hm, Hl, Hr, Hp, Ht, Htr; simpl;
          rewrite <- !app_assoc; simpl;
          repeat split; try reflexivity;
          f_equal; lia
        | simpl; rewrite Hsz; unfold wrap64;
          rewrite Zplus_mod_idemp_l; reflexivity ]
    end.
Qed.

End Loop.

Lemma bind_prog (A B : Type) (p : prog A) (f : A -> prog B) :
  bind p f = prog_bind p f.
Proof. reflexivity. Qed.

Lemma create_entries_no_multi reqs :
  forall rs, no_multi_compress (create_entries reqs rs).
Proof.
  induction reqs as [|q reqs IH]; intros [|r rs]; try reflexivity.
  unfold no_multi_compress in *. simpl. rewrite IH.
  destruct q; reflexivity.
Qed.

Lemma free_entries_no_multi rs : no_multi_compress (free_entries rs).
Proof. induction rs as [|r rs IH]; [reflexivity | exact IH]. Qed.

Lemma no_multi_app t1 t2 :
  no_multi_compress t1 -> no_multi_compress t2 -> no_multi_compress (t1 ++ t2).
Proof.
  unfold no_multi_compress. intros H1 H2. rewrite forallb_app, H1, H2. reflexivity.
Qed.

Section Multi.

Variable S : Type.
Variable h : handler S.

Lemma run_free_refs rs :
  forall s, exists s', run h (free_refs rs) s = (tt, s', free_entries rs).
Proof.
  induction rs as [|r rs IH]; intros s.
  - exists s. reflexivity.
  - simpl.
    destruct (h unit (ZL_TypedRef_free r) s) as [[] s1].
    destruct (IH s1) as [s' Hs']. rewrite Hs'. exists s'. reflexivity.
Qed.

(** A loop that returns early: the cells before the offending one were
    valid and got their reference; the message is either the constraint
    the offending cell violates, or the engine's refusal to build its
    reference. *)
Lemma loop_run_early items :
  forall st s st' msg s' tr,
    loop_run h items st s (st', Some msg) s' tr ->
    exists pre x post reqs rs,
      items = pre ++ x :: post
      /\ map decode_item pre = map inr reqs
      /\ List.length rs = List.length reqs
      /\ refs st' = refs st ++ rs
      /\ ((exists c, decode_item x = inl c /\ msg = constraint_message c
                     /\ tr = create_entries reqs rs)
          \/ (exists q, decode_item x = inr q /\ msg = request_failure q
                        /\ tr = create_entries reqs rs
                                  ++ [Entry (request_call q) None])).
Proof.
  induction items as [|x xs IH]; intros st s st' msg s' tr Hrun.
  - inversion Hrun.
  - inversion Hrun; subst.
    + exists [], x, xs, [], []. simpl. rewrite app_nil_r.
      repeat split; auto. left. eauto.
    + exists [], x, xs, [], []. simpl. rewrite app_nil_r.
      repeat split; auto. right. eauto.
    + match goal with
      | Hn : loop_run h xs _ _ _ _ _ |- _ =>
          apply IH in Hn;
          destruct Hn as (pre & y & post & reqs & rs & Hi & Hm & Hl & Hr & Hc)
      end.
      match goal with
      | Hd : decode_item x = inr ?q, Hh : h _ _ _ = (Some ?r, _) |- _ =>
          exists (x :: pre), y, post, (q :: reqs), (r :: rs); simpl;
          rewrite Hd, Hm, Hl, Hi, Hr; simpl; rewrite <- app_assoc; simpl
      end.
      repeat split; auto.
      destruct Hc as [(c & Hc1 & Hc2 & Hc3) | (q' & Hc1 & Hc2 & Hc3)];
        rewrite Hc3; [left | right]; eauto.
Qed.

(** Valid cells followed by an invalid one: the loop returns early, at the
    invalid cell unless the engine refused an earlier reference. *)
Lemma loop_run_invalid pre :
  forall reqs bad post c st s out s' tr,
    map decode_item pre = map inr reqs ->
    decode_item bad = inl c ->
    loop_run h (pre ++ bad :: post) st s out s' tr ->
    exists rs,
      refs (fst out) = refs st ++ rs
      /\ ((snd out = Some (constraint_message c)
           /\ List.length rs = List.length reqs
           /\ tr = create_entries reqs rs)
          \/ (exists q, In q reqs
                        /\ snd out = Some (request_failure q)
                        /\ tr = create_entries reqs rs
                                  ++ [Entry (request_call q) None])).
Proof.
  induction pre as [|x pre IH]; intros reqs bad post c st s out s' tr Hm Hb Hrun.
  - destruct reqs; [|discriminate]. simpl in Hrun.
    inversion Hrun; subst; try congruence.
    exists []. simpl. rewrite app_nil_r. split; [reflexivity|].
    left. repeat split. congruence.
  - destruct reqs as [|q reqs]; [discriminate|]. simpl in Hm.
    injection Hm as Hx Hm. simpl in Hrun.
    inversion Hrun; subst; try congruence.
    + assert (q0 = q) by congruence. subst q0.
      exists []. simpl. rewrite app_nil_r. split; [reflexivity|].
      right. exists q. simpl. auto.
    + assert (q0 = q) by congruence. subst q0.
      match goal with
      | Hn : loop_run h (pre ++ _) _ _ _ _ _ |- _ =>
          eapply IH in Hn; eauto; destruct Hn as (rs & Hr & Hc)
      end.
      exists (r :: rs). simpl in Hr. rewrite <- app_assoc in Hr. simpl in Hr.
      split; [exact Hr|].
      destruct Hc as [(Hc1 & Hc2 & Hc3) | (q' & Hc1 & Hc2 & Hc3)].
      * left. simpl. rewrite Hc2, Hc3. auto.
      * right. exists q'. simpl. rewrite Hc3. auto.
Qed.

End Multi.

Section MultiNif.

Variable S : Type.
Variable h : handler S.

(** Every run of [nif_compress_multi_typed], in full: the loop, then one
    of the four ways out of the function. *)
Lemma nif_compress_multi_typed_run (cctx : CCtx) (t : term) (s : S) :
  let r := run h (nif_compress_multi_typed cctx t) s in
  exists st early s1 tr1,
    loop_run h (cells t) (mkMulti [] [] 0) s (st, early) s1 tr1
    /\ match early, refs st with
       | Some msg, _ =>
           result_of r = Error msg
           /\ trace_of r = tr1 ++ free_entries (refs st)
       | None, [] =>
           result_of r = Error "input list must not be empty"
           /\ trace_of r = tr1
       | None, _ :: _ =>
           exists bound s2 report written s3,
             h _ (ZL_compressBound (total_size st)) s1 = (bound, s2)
             /\ h _ (ZL_CCtx_compressMultiTypedRef
                       (ctx cctx) bound (ref_ptrs st)
                       (Z.of_nat (List.length (ref_ptrs st)))) s2
                = ((report, written), s3)
             /\ ((ZL_isError report = true
                  /\ exists err s4,
                      h _ (ZL_CCtx_getErrorContextString (ctx cctx) report) s3
                      = (err, s4)
                      /\ result_of r
                         = Error (error_message err
                                    "multi-typed compression failed")
                      /\ trace_of r
                         = tr1
                           ++ [Entry (ZL_compressBound (total_size st)) bound;
                               Entry (ZL_CCtx_compressMultiTypedRef
                                        (ctx cctx) bound (ref_ptrs st)
                                        (Z.of_nat (List.length (ref_ptrs st))))
                                     (report, written);
                               Entry (ZL_CCtx_getErrorContextString
                                        (ctx cctx) report) err]
                           ++ free_entries (refs st))
                 \/ (ZL_isError report = false
                     /\ result_of r
                        = Ok (resize (filled bound written)
                                     (ZL_validResult report))
                     /\ trace_of r
                        = tr1
                          ++ [Entry (ZL_compressBound (total_size st)) bound;
                              Entry (ZL_CCtx_compressMultiTypedRef
                                       (ctx cctx) bound (ref_ptrs st)
                                       (Z.of_nat (List.length (ref_ptrs st))))
                                    (report, written)]
                          ++ free_entries (refs st)))
       end.
Proof.
  intros r. subst r. unfold nif_compress_multi_typed.
  rewrite bind_prog, run_bind.
  pose proof (multi_loop_run _ h t (mkMulti [] [] 0) s) as Hloop.
  destruct (run h (multi_loop t (mkMulti [] [] 0)) s) as [[[st early] s1] tr1].
  unfold result_of, state_of, trace_of in *. simpl in Hloop.
  exists st, early, s1, tr1. split; [exact Hloop|].
  destruct early as [msg|].
  - simpl. destruct (run_free_refs _ h (refs st) s1) as [s' Hf].
    rewrite run_bind, Hf. simpl. rewrite ?app_nil_r. auto.
  - destruct (refs st) as [|r0 rs0] eqn:Hrefs.
    + simpl. rewrite app_nil_r. auto.
    + simpl.
      destruct (h Z (ZL_compressBound (total_size st)) s1)
        as [bound s2] eqn:Hbound.
      destruct (h _ (ZL_CCtx_compressMultiTypedRef _ _ _ _) s2)
        as [[report written] s3] eqn:Hmulti.
      exists bound, s2, report, written, s3.
      split; [first [reflexivity | exact Hbound]|].
      split; [first [reflexivity | exact Hmulti]|].
      destruct (ZL_isError report) eqn:Herr.
      * left. split; [reflexivity|]. simpl.
        destruct (h _ (ZL_CCtx_getErrorContextString (ctx cctx) report) s3)
          as [err s4] eqn:Hdiag.
        exists err, s4. split; [first [reflexivity | exact Hdiag]|].
        destruct (h unit (ZL_TypedRef_free r0) s4) as [[] s5].
        destruct (run_free_refs _ h rs0 s5) as [s' Hf].
        rewrite run_bind, Hf. simpl. rewrite ?app_nil_r. auto.
      * right. split; [reflexivity|]. simpl.
        destruct (h unit (ZL_TypedRef_free r0) s3) as [[] s5].
        destruct (run_free_refs _ h rs0 s5) as [s' Hf].
        rewrite run_bind, Hf. simpl. rewrite ?app_nil_r. auto.
Qed.

End MultiNif.

Lemma decode_item_binary (x : term) (q : ref_request) :
  decode_item x = inr q -> item_binary x = Some (request_data q).
Proof.
  unfold decode_item, item_binary.
  destruct (enif_get_tuple x) as [[arity tuple_terms]|]; [|discriminate].
  destruct (negb (arity =? 3)); [discriminate|].
  destruct (enif_get_atom _ 16) as [type_atom|]; [|discriminate].
  destruct (enif_inspect_binary (nth 1 tuple_terms TOther)) as [bin|];
    [|discriminate].
  destruct (strcmp_eq0 type_atom "numeric").
  { destruct (enif_get_uint64 _) as [width|]; [|discriminate].
    destruct (bad_numeric_width width); [discriminate|].
    destruct (negb _); [discriminate|]. intros H; injection H as <-. reflexivity. }
  destruct (strcmp_eq0 type_atom "struct").
  { destruct (enif_get_uint64 _) as [width|]; [|discriminate].
    destruct (width =? 0); [discriminate|].
    destruct (negb _); [discriminate|]. intros H; injection H as <-. reflexivity. }
  destruct (strcmp_eq0 type_atom "string"); [|discriminate].
  destruct (enif_inspect_binary _) as [lens|]; [|discriminate].
  destruct (negb _); [discriminate|]. intros H; injection H as <-. reflexivity.
Qed.

Lemma decoded_binaries (items : list term) :
  forall reqs,
    map decode_item items = map inr reqs ->
    Forall2 (fun x q => decode_item x = inr q
                        /\ item_binary x = Some (request_data q)) items reqs.
Proof.
  induction items as [|x xs IH]; intros [|q reqs] H; try discriminate.
  - constructor.
  - simpl in H. injection H as Hx Hxs. constructor; auto.
    split; [exact Hx | apply decode_item_binary; exact Hx].
Qed.

Lemma size_nonneg (b : bytes) : 0 <= size b.
Proof. unfold size. lia. Qed.

Lemma sum_sizes_nonneg (reqs : list ref_request) : 0 <= sum_sizes reqs.
Proof.
  induction reqs as [|q reqs IH]; simpl; [lia|].
  pose proof (size_nonneg (request_data q)). lia.
Qed.

Lemma wrap64_small (z : Z) : 0 <= z < size_t_modulus -> wrap64 z = z.
Proof. intros H. unfold wrap64. apply Z.mod_small. exact H. Qed.

Lemma no_multi_existsb (tr : list entry) :
  no_multi_compress tr -> existsb is_multi_compress tr = true -> False.
Proof.
  unfold no_multi_compress. induction tr as [|en tr IH]; simpl; [discriminate|].
  destruct (is_multi_compress en); simpl; [discriminate|]. exact IH.
Qed.

Lemma request_entry_no_multi (q : ref_request) (x : option ZL_TypedRef) :
  no_multi_compress [Entry (request_call q) x].
Proof. destruct q; reflexivity. Qed.

Lemma loop_early_no_multi (S : Type) (h : handler S) items st s st' msg s' tr :
  loop_run h items st s (st', Some msg) s' tr -> no_multi_compress tr.
Proof.
  intros H. apply loop_run_early in H.
  destruct H as (pre & x & post & reqs & rs & _ & _ & _ & _ & Hc).
  destruct Hc as [(c & _ & _ & ->) | (q & _ & _ & ->)].
  - apply create_entries_no_multi.
  - apply no_multi_app;
      [apply create_entries_no_multi | apply request_entry_no_multi].
Qed.

(* ===================================================================== *)
(** ** Multi-stream compression: order, bound, fail-fast, list prefix *)
(* ===================================================================== *)

Section MultiFacts.

Variable S : Type.
Variable h : handler S.

(** A run that reaches the multi-reference compress call. *)
Lemma multi_accepted (cctx : CCtx) (t : term) (s : S) :
  existsb is_multi_compress
          (trace_of (run h (nif_compress_multi_typed cctx t) s)) = true ->
  exists reqs rs bound answer rest,
    Forall2 (fun x q => decode_item x = inr q
                        /\ item_binary x = Some (request_data q))
            (cells t) reqs
    /\ List.length rs = List.length reqs
    /\ trace_of (run h (nif_compress_multi_typed cctx t) s)
       = create_entries reqs rs
         ++ Entry (ZL_compressBound (wrap64 (sum_sizes reqs))) bound
         :: Entry (ZL_CCtx_compressMultiTypedRef
                     (ctx cctx) bound rs (Z.of_nat (List.length rs))) answer
         :: rest
    /\ no_multi_compress rest
    /\ (sum_sizes reqs < size_t_modulus ->
        wrap64 (sum_sizes reqs) = sum_sizes reqs).
Proof.
  intros Hacc.
  destruct (nif_compress_multi_typed_run _ h cctx t s)
    as (st & early & s1 & tr1 & Hloop & Hout).
  destruct early as [msg|].
  - destruct Hout as [_ Htr]. exfalso. rewrite Htr in Hacc.
    eapply no_multi_existsb; [|exact Hacc].
    apply no_multi_app;
      [eapply loop_early_no_multi; eauto | apply free_entries_no_multi].
  - eapply loop_run_done with (base := 0) in Hloop; [|reflexivity].
    destruct Hloop as (reqs & rs & Hm & Hl & Hr & Hp & Ht & Htr1).
    simpl in Hr, Hp, Ht.
    destruct (refs st) as [|r0 rs0] eqn:Hrefs.
    + destruct Hout as [_ Htr]. exfalso. rewrite Htr, Htr1 in Hacc.
      eapply no_multi_existsb; [|exact Hacc]. apply create_entries_no_multi.
    + destruct Hout as (bound & s2 & report & written & s3 & _ & _ & Hcase).
      exists reqs, rs, bound, (report, written).
      rewrite Hp, Ht in Hcase. rewrite <- Htr1.
      assert (Hsmall : sum_sizes reqs < size_t_modulus ->
                       wrap64 (sum_sizes reqs) = sum_sizes reqs).
      { intros Hlt. apply wrap64_small. pose proof (sum_sizes_nonneg reqs). lia. }
      destruct Hcase as [(_ & err & s4 & _ & _ & Htr) | (_ & _ & Htr)];
        rewrite Htr; eexists; (split; [apply decoded_binaries; exact Hm|]);
        (split; [exact Hl|]); (split; [simpl; reflexivity|]);
        (split; [|exact Hsmall]).
      * apply (no_multi_app [_]); [reflexivity | apply free_entries_no_multi].
      * apply free_entries_no_multi.
Qed.

End MultiFacts.

(* ===================================================================== *)
(** ** Multi-stream decompression: descriptors by position *)
(* ===================================================================== *)

Section MultiDecode.

Variable S : Type.
Variable h : handler S.

Lemma run_read_typed_buffer (tbuf : ZL_TypedBuffer) (s : S) :
  exists v s',
    run h (read_typed_buffer tbuf) s = (view_to_map v, s', view_entries tbuf v).
Proof.
  unfold read_typed_buffer. simpl.
  destruct (h _ (ZL_TypedBuffer_type tbuf) s) as [type s1].
  destruct (h _ (ZL_TypedBuffer_byteSize tbuf) s1) as [byte_size s2].
  destruct (h _ (ZL_TypedBuffer_numElts tbuf) s2) as [num_elts s3].
  destruct (h _ (ZL_TypedBuffer_eltWidth tbuf) s3) as [elt_width s4].
  destruct (h _ (ZL_TypedBuffer_rPtr tbuf) s4) as [data_ptr s5].
  destruct (type =? ZL_Type_string) eqn:Htype; simpl.
  - destruct (h _ (ZL_TypedBuffer_rStringLens tbuf) s5) as [str_lens s6].
    exists (mkView type byte_size num_elts elt_width data_ptr str_lens), s6.
    unfold view_entries. simpl. rewrite Htype. reflexivity.
  - exists (mkView type byte_size num_elts elt_width data_ptr None), s5.
    unfold view_entries. simpl. rewrite Htype. reflexivity.
Qed.

Lemma run_free_buffers (bufs : list ZL_TypedBuffer) :
  forall s, exists s',
    run h (free_buffers bufs) s = (tt, s', buffer_free_entries bufs).
Proof.
  induction bufs as [|b bufs IH]; intros s.
  - exists s. reflexivity.
  - simpl. destruct (h unit (ZL_TypedBuffer_free b) s) as [[] s1].
    destruct (IH s1) as [s' Hs']. rewrite Hs'. exists s'. reflexivity.
Qed.

(** The creation loop appends the new buffers to both vectors, in the
    order the engine handed them out. *)
Lemma run_create_buffers (n : nat) :
  forall bufs buf_ptrs s,
  exists (fresh : list ZL_TypedBuffer) (ok : bool) (s' : S),
    run h (create_buffers n bufs buf_ptrs) s
    = ((bufs ++ fresh, buf_ptrs ++ fresh, ok), s',
       buffer_entries fresh
       ++ (if ok then @nil entry else [Entry ZL_TypedBuffer_create None]))
    /\ (ok = true -> List.length fresh = n).
Proof.
  induction n as [|n IH]; intros bufs buf_ptrs s.
  - exists (@nil ZL_TypedBuffer), true, s. simpl. rewrite !app_nil_r. auto.
  - simpl. destruct (h _ ZL_TypedBuffer_create s) as [[buf|] s1].
    + destruct (IH (bufs ++ [buf]) (buf_ptrs ++ [buf]) s1)
        as (fresh & ok & s' & Hrun & Hlen).
      rewrite Hrun. exists (buf :: fresh), ok, s'.
      rewrite <- !app_assoc. simpl. split; [reflexivity|].
      intros Hok. rewrite (Hlen Hok). reflexivity.
    + exists (@nil ZL_TypedBuffer), false, s1. simpl. rewrite !app_nil_r.
      split; [reflexivity | discriminate].
Qed.

(** The reading loop visits [buf_ptrs[i]] for [i = 0, 1, ...] and appends
    one map per buffer. *)
Lemma run_build_list_items (todo : list ZL_TypedBuffer) :
  forall done list_items s,
  exists views s',
    List.length views = List.length todo
    /\ run h (build_list_items (List.length todo)
                (Z.of_nat (List.length done)) (done ++ todo) list_items) s
       = (list_items ++ map view_to_map views, s', read_entries todo views).
Proof.
  induction todo as [|b todo IH]; intros done list_items s.
  - exists (@nil buffer_view), s. simpl. rewrite app_nil_r. auto.
  - cbn [List.length build_list_items].
    rewrite Nat2Z.id, nth_middle, bind_prog, run_bind.
    destruct (run_read_typed_buffer b s) as (v & s1 & Hread). rewrite Hread.
    destruct (IH (done ++ [b]) (list_items ++ [view_to_map v]) s1)
      as (views & s' & Hlen & Hrun).
    rewrite <- app_assoc in Hrun. simpl in Hrun.
    rewrite length_app in Hrun. simpl in Hrun.
    replace (Z.of_nat (List.length done + 1)) with (Z.of_nat (List.length done) + 1)
      in Hrun by lia.
    rewrite Hrun. exists (v :: views), s'. simpl.
    rewrite Hlen, <- app_assoc. simpl. auto.
Qed.

(** A successful [nif_decompress_multi_typed], in full. *)
Lemma multi_decoded (dctx : DCtx) (compressed : bytes) (s s' : S) (out : term)
    (tr : list entry) :
  run h (nif_decompress_multi_typed dctx compressed) s = (Ok out, s', tr) ->
  exists n bufs views report,
    tr = Entry (ZL_getNumOutputs compressed) (ZL_returnValue n)
         :: buffer_entries bufs
         ++ Entry (ZL_DCtx_decompressMultiTBuffer
                     (dctx_ctx dctx) bufs n compressed) report
         :: read_entries bufs views
         ++ buffer_free_entries bufs
    /\ List.length bufs = Z.to_nat n
    /\ List.length views = List.length bufs
    /\ out = enif_make_list_from_array (map view_to_map views).
Proof.
  unfold nif_decompress_multi_typed. intros Hrun.
  destruct (empty compressed); [discriminate|].
  rewrite bind_prog, run_bind, run_call in Hrun.
  destruct (h _ (ZL_getNumOutputs compressed) s) as [num_report s1].
  destruct num_report as [n | code]; [|discriminate]. simpl ZL_isError in Hrun.
  cbv beta iota zeta in Hrun. rewrite bind_prog, run_bind in Hrun.
  destruct (run_create_buffers (Z.to_nat (ZL_validResult (ZL_returnValue n)))
              [] [] s1) as (bufs & ok & s2 & Hcreate & Hlen).
  rewrite Hcreate in Hrun. cbn [app] in Hrun.
  destruct ok; simpl negb in Hrun; cbv beta iota zeta in Hrun.
  2:{ rewrite bind_prog, run_bind in Hrun.
      destruct (run_free_buffers bufs s2) as [s3 Hfree]. rewrite Hfree in Hrun.
      discriminate. }
  rewrite bind_prog, run_bind, run_call in Hrun. simpl ZL_validResult in *.
  destruct (h _ (ZL_DCtx_decompressMultiTBuffer (dctx_ctx dctx) bufs n compressed)
              s2) as [report s3].
  cbv beta iota zeta in Hrun.
  destruct (ZL_isError report).
  { rewrite bind_prog, run_bind, run_call in Hrun.
    destruct (h _ (ZL_DCtx_getErrorContextString (dctx_ctx dctx) report) s3)
      as [err s4].
    cbv beta iota zeta in Hrun. rewrite bind_prog, run_bind in Hrun.
    destruct (run_free_buffers bufs s4) as [s5 Hfree]. rewrite Hfree in Hrun.
    discriminate. }
  rewrite bind_prog, run_bind in Hrun.
  destruct (run_build_list_items bufs [] [] s3) as (views & s4 & Hviews & Hbuild).
  simpl in Hbuild. rewrite <- (Hlen eq_refl), Hbuild in Hrun.
  cbv beta iota zeta in Hrun. rewrite bind_prog, run_bind in Hrun.
  destruct (run_free_buffers bufs s4) as [s5 Hfree]. rewrite Hfree in Hrun.
  simpl in Hrun. injection Hrun as <- _ <-.
  exists n, bufs, views, report. rewrite !app_nil_r.
  repeat split; auto.
Qed.

End MultiDecode.

Lemma constraint_message_inj (c c' : constraint) :
  constraint_message c = constraint_message c' -> c = c'.
Proof.
  destruct c, c'; simpl; intros H; try reflexivity; try discriminate.
  injection H as H. subst. reflexivity.
Qed.

Lemma map_inr_inj (A B : Type) (l l' : list B) :
  map (@inr A B) l = map (@inr A B) l' -> l = l'.
Proof.
  revert l'. induction l as [|x l IH]; intros [|y l'] H; try discriminate.
  - reflexivity.
  - simpl in H. injection H as Hx Hl. f_equal; auto.
Qed.

Lemma decoded_middle (pre : list term) :
  forall x post reqs,
    map decode_item (pre ++ x :: post) = map inr reqs ->
    exists q, decode_item x = inr q /\ In q reqs.
Proof.
  induction pre as [|y pre IH]; intros x post [|q reqs] H; try discriminate.
  - simpl in H. injection H as Hx _. exists q. simpl. auto.
  - simpl in H. injection H as _ H. apply IH in H.
    destruct H as (q' & Hq & Hin). exists q'. simpl. auto.
Qed.

Lemma not_a_cell_no_loop (t : term) (st : multi_state) :
  enif_get_list_cell t = None -> multi_loop t st = Ret (st, None).
Proof. destruct t; simpl; intros H; try reflexivity; discriminate. Qed.

Section MultiClaims.

Variable S : Type.
Variable h : handler S.

(** Valid items followed by an invalid one. *)
Lemma multi_fail_fast (cctx : CCtx) (t : term) (s : S) pre bad post reqs c :
  cells t = pre ++ bad :: post ->
  map decode_item pre = map inr reqs ->
  decode_item bad = inl c ->
  no_multi_compress (trace_of (run h (nif_compress_multi_typed cctx t) s))
  /\ (result_of (run h (nif_compress_multi_typed cctx t) s)
      = Error (constraint_message c)
      \/ exists q,
          In q reqs
          /\ result_of (run h (nif_compress_multi_typed cctx t) s)
             = Error (request_failure q)
          /\ In (Entry (request_call q) None)
                (trace_of (run h (nif_compress_multi_typed cctx t) s))).
Proof.
  intros Hcells Hpre Hbad.
  destruct (nif_compress_multi_typed_run _ h cctx t s)
    as (st & early & s1 & tr1 & Hloop & Hout).
  rewrite Hcells in Hloop.
  pose proof (loop_run_invalid _ h pre reqs bad post c _ _ _ _ _ Hpre Hbad Hloop)
    as (rs & _ & Hcase).
  simpl in Hcase.
  destruct Hcase as [(He & _ & Htr) | (q & Hin & He & Htr)]; subst early;
    destruct Hout as [Hres Htrace]; rewrite Hres, Htrace.
  - split; [|left; reflexivity].
    apply no_multi_app; [|apply free_entries_no_multi].
    rewrite Htr. apply create_entries_no_multi.
  - split.
    + apply no_multi_app; [|apply free_entries_no_multi].
      rewrite Htr. apply no_multi_app;
        [apply create_entries_no_multi | apply request_entry_no_multi].
    + right. exists q. repeat split; auto.
      rewrite Htr. apply in_or_app. left. apply in_or_app. right. simpl. auto.
Qed.

(** Only the cells count. *)
Lemma multi_only_cells (cctx : CCtx) (t : term) (s : S) :
  run h (nif_compress_multi_typed cctx t) s
  = run h (nif_compress_multi_typed cctx (enif_make_list_from_array (cells t))) s.
Proof.
  unfold nif_compress_multi_typed. rewrite !bind_prog, !run_bind.
  rewrite <- multi_loop_cells. reflexivity.
Qed.

(** A non-empty run of valid cells reaches the engine with one reference
    per cell, unless the engine refuses to build one. *)
Lemma multi_valid_cells (cctx : CCtx) (t : term) (s : S) reqs :
  cells t <> [] ->
  map decode_item (cells t) = map inr reqs ->
  (exists q,
      In q reqs
      /\ result_of (run h (nif_compress_multi_typed cctx t) s)
         = Error (request_failure q)
      /\ In (Entry (request_call q) None)
            (trace_of (run h (nif_compress_multi_typed cctx t) s)))
  \/ (exists rs bound answer rest,
         List.length rs = List.length reqs
         /\ trace_of (run h (nif_compress_multi_typed cctx t) s)
            = create_entries reqs rs
              ++ Entry (ZL_compressBound (wrap64 (sum_sizes reqs))) bound
              :: Entry (ZL_CCtx_compressMultiTypedRef
                          (ctx cctx) bound rs (Z.of_nat (List.length rs)))
                       answer
              :: rest).
Proof.
  intros Hne Hvalid.
  destruct (nif_compress_multi_typed_run _ h cctx t s)
    as (st & early & s1 & tr1 & Hloop & Hout).
  destruct early as [msg|].
  - left. destruct Hout as [Hres Htrace].
    apply loop_run_early in Hloop.
    destruct Hloop as (pre & x & post & reqs' & rs & Hi & _ & _ & _ & Hc).
    rewrite Hi in Hvalid. apply decoded_middle in Hvalid.
    destruct Hvalid as (q & Hq & Hin).
    destruct Hc as [(c & Hc & _) | (q' & Hq' & Hmsg & Htr)]; [congruence|].
    assert (q' = q) by congruence. subst q'.
    exists q. rewrite Hres, Htrace, Hmsg, Htr. repeat split; auto.
    apply in_or_app. left. apply in_or_app. right. simpl. auto.
  - right. eapply loop_run_done with (base := 0) in Hloop; [|reflexivity].
    destruct Hloop as (reqs' & rs & Hm & Hl & Hr & Hp & Ht & Htr1).
    simpl in Hr, Hp, Ht. rewrite Hvalid in Hm. apply map_inr_inj in Hm.
    subst reqs'.
    destruct (refs st) as [|r0 rs0] eqn:Hrefs.
    + exfalso. subst rs. destruct reqs; [|discriminate].
      destruct (cells t); [congruence | discriminate].
    + destruct Hout as (bound & s2 & report & written & s3 & _ & _ & Hcase).
      rewrite Hp, Ht in Hcase. exists rs, bound, (report, written).
      destruct Hcase as [(_ & err & s4 & _ & _ & Htr) | (_ & _ & Htr)];
        rewrite Htr, Htr1; eexists; (split; [exact Hl|]); simpl; reflexivity.
Qed.

End MultiClaims.

(* ===================================================================== *)
(** ** Construction of a compression context *)
(* ===================================================================== *)

Section Construction.

Variable S : Type.
Variable h : handler S.

(** Every run of the constructor. *)
Lemma CCtx_new_run (s : S) :
  (result_of (run h CCtx_new s)
   = Propagated (StdException "failed to create OpenZL compression context")
   /\ trace_of (run h CCtx_new s) = [Entry ZL_CCtx_create None])
  \/ (exists c version r1 r2 rest member,
         result_of (run h CCtx_new s) = Returned (mkCCtx c member None)
         /\ trace_of (run h CCtx_new s)
            = construction_prefix c version r1 r2 ++ rest
         /\ graph_setup c rest member).
Proof.
  unfold CCtx_new, result_of, trace_of. simpl.
  destruct (h _ ZL_CCtx_create s) as [[c|] s1]; [|left; auto].
  right. simpl.
  destruct (h _ ZL_getDefaultEncodingVersion s1) as [version s2].
  destruct (h _ (ZL_CCtx_setParameter c ZL_CParam_formatVersion _) s2)
    as [r1 s3].
  destruct (h _ (ZL_CCtx_setParameter c ZL_CParam_stickyParameters 1) s3)
    as [r2 s4].
  destruct (h _ ZL_Compressor_create s4) as [[comp|] s5]; simpl.
  - destruct (h _ (ZL_Compressor_selectStartingGraphID comp _) s5)
      as [report s6].
    destruct (ZL_isError report) eqn:Herr; simpl.
    + exists c, version, r1, r2. do 2 eexists.
      split; [reflexivity|]. split; [reflexivity|].
      right. left. exists comp, report. auto.
    + destruct (h _ (ZL_CCtx_refCompressor c comp) s6) as [attach s7].
      exists c, version, r1, r2. do 2 eexists.
      split; [reflexivity|]. split; [reflexivity|].
      right. right. exists comp, report, attach. auto.
  - exists c, version, r1, r2. do 2 eexists.
    split; [reflexivity|]. split; [reflexivity|]. left. auto.
Qed.

End Construction.

(* ===================================================================== *)
(** ** Frame introspection, run by run *)
(* ===================================================================== *)

Section FrameInfo.

Variable S : Type.
Variable h : handler S.

Lemma run_build_output_items (n : nat) (fi : ZL_FrameInfo) :
  forall i output_items s,
  exists reports s',
    List.length reports = n
    /\ run h (build_output_items n i fi output_items) s
       = (output_items ++ map output_of_reports reports, s',
          query_entries fi i reports).
Proof.
  induction n as [|n IH]; intros i output_items s.
  - exists (@nil output_reports), s. simpl. rewrite app_nil_r. auto.
  - simpl.
    destruct (h _ (ZL_FrameInfo_getOutputType fi (static_cast_int i)) s)
      as [type_report s1].
    destruct (h _ (ZL_FrameInfo_getDecompressedSize fi (static_cast_int i)) s1)
      as [size_report s2].
    destruct (h _ (ZL_FrameInfo_getNumElts fi (static_cast_int i)) s2)
      as [elts_report s3].
    destruct (IH (i + 1)
                (output_items
                 ++ [output_item type_report size_report elts_report]) s3)
      as (reports & s' & Hlen & Hrun).
    rewrite Hrun.
    exists ((type_report, size_report, elts_report) :: reports), s'.
    simpl. rewrite Hlen, <- app_assoc. auto.
Qed.

(** Every run of [nif_frame_info]. *)
Lemma frame_info_run (compressed : bytes) (s : S) :
  frame_info_outcome compressed
    (result_of (run h (nif_frame_info compressed) s))
    (trace_of (run h (nif_frame_info compressed) s)).
Proof.
  destruct (run h (nif_frame_info compressed) s) as [[res s'] tr] eqn:Hrun.
  unfold result_of, trace_of. simpl.
  unfold nif_frame_info in Hrun.
  destruct compressed as [|b0 compressed0] eqn:Hc.
  { simpl in Hrun. injection Hrun as <- _ <-. simpl. auto. }
  rewrite <- Hc in *. assert (Hempty : empty compressed = false) by (subst; auto).
  rewrite Hempty in Hrun. clear Hc Hempty.
  rewrite bind_prog, run_bind, run_call in Hrun.
  destruct (h _ (ZL_FrameInfo_create compressed) s) as [[fi|] s1].
  2:{ simpl in Hrun. injection Hrun as <- _ <-. simpl. auto. }
  cbv beta iota zeta in Hrun.
  rewrite bind_prog, run_bind, run_call in Hrun.
  destruct (h _ (ZL_FrameInfo_getFormatVersion fi) s1) as [[version|code] s2].
  2:{ simpl in Hrun. destruct (h unit (ZL_FrameInfo_free fi) s2) as [[] s3].
      injection Hrun as <- _ <-. simpl. right. right. left. eauto. }
  cbv beta iota zeta in Hrun. simpl ZL_isError in Hrun. cbv iota in Hrun.
  rewrite bind_prog, run_bind, run_call in Hrun.
  destruct (h _ (ZL_FrameInfo_getNumOutputs fi) s2) as [[n|code] s3].
  2:{ simpl in Hrun. destruct (h unit (ZL_FrameInfo_free fi) s3) as [[] s4].
      injection Hrun as <- _ <-. simpl. right. right. right. eauto. }
  cbv beta iota zeta in Hrun. simpl ZL_isError in Hrun. cbv iota in Hrun.
  rewrite bind_prog, run_bind in Hrun. simpl ZL_validResult in Hrun.
  destruct (run_build_output_items (Z.to_nat n) fi 0 [] s3)
    as (reports & s4 & Hlen & Hbuild).
  rewrite Hbuild in Hrun. cbv beta iota zeta in Hrun.
  rewrite bind_prog, run_bind, run_call in Hrun.
  destruct (h unit (ZL_FrameInfo_free fi) s4) as [[] s5].
  simpl in Hrun. injection Hrun as <- _ <-. simpl.
  exists fi, version, n, reports. repeat split; auto.
Qed.

End FrameInfo.

(** Each field of an output map depends on its own report only. *)
Lemma output_item_fields (type_report size_report elts_report : ZL_Report) :
  field "type" (output_item type_report size_report elts_report)
  = Some (known_or_unknown type_report (fun v => make_atom (type_to_string v)))
  /\ field "decompressed_size" (output_item type_report size_report elts_report)
     = Some (known_or_unknown size_report TInt)
  /\ field "num_elements" (output_item type_report size_report elts_report)
     = Some (known_or_unknown elts_report TInt).
Proof.
  unfold known_or_unknown.
  destruct type_report, size_report, elts_report; repeat split; reflexivity.
Qed.

(* ===================================================================== *)
(** ** Error messages of the byte-stream NIFs *)
(* ===================================================================== *)

Section Diagnostics.

Variable S : Type.
Variable h : handler S.

(** Both byte-stream decompress NIFs answer an engine failure with the
    fixed text, and never ask for a diagnostic. *)
Lemma decompress_failure_is_generic (dctx : DCtx) (compressed : bytes) (s : S)
    (msg : string) :
  (result_of (run h (nif_decompress compressed) s) = Error msg ->
   no_diagnostic_query (trace_of (run h (nif_decompress compressed) s))
   /\ (msg = "input must not be empty"
       \/ msg = "failed to read decompressed size from frame"
       \/ msg = "decompression failed"))
  /\ (result_of (run h (nif_decompress_with_context dctx compressed) s)
      = Error msg ->
      no_diagnostic_query
        (trace_of (run h (nif_decompress_with_context dctx compressed) s))
      /\ (msg = "input must not be empty"
          \/ msg = "failed to read decompressed size from frame"
          \/ msg = "decompression failed")).
Proof.
  unfold nif_decompress, nif_decompress_with_context, result_of, trace_of.
  split; destruct (empty compressed); simpl;
    try (intros H; injection H as <-; split; [reflexivity | auto]);
    destruct (h _ (ZL_getDecompressedSize compressed) s) as [[n|code] s1];
    simpl;
    try (intros H; injection H as <-; split; [reflexivity | auto]).
  - destruct (h _ (ZL_decompress n compressed) s1) as [[[v|code] written] s2];
      simpl; [discriminate|].
    intros H; injection H as <-; split; [reflexivity | auto].
  - destruct (h _ (ZL_DCtx_decompress (dctx_ctx dctx) n compressed) s1)
      as [[[v|code] written] s2]; simpl; [discriminate|].
    intros H; injection H as <-; split; [reflexivity | auto].
Qed.

(** The context-reusing compress NIF does surface the diagnostic. *)
Lemma compress_failure_is_diagnosed (cctx : CCtx) (input : bytes) (s : S)
    (bound : Z) (code : Z) (written : bytes) (s1 s2 : S) :
  input <> [] ->
  h _ (ZL_compressBound (size input)) s = (bound, s1) ->
  h _ (ZL_CCtx_compress (ctx cctx) bound input) s1
  = ((ZL_returnError code, written), s2) ->
  result_of (run h (nif_compress_with_context cctx input) s)
  = Error (error_message
             (fst (h _ (ZL_CCtx_getErrorContextString
                          (ctx cctx) (ZL_returnError code)) s2))
             "compression failed").
Proof.
  intros Hne Hb Hc. unfold nif_compress_with_context, result_of.
  destruct input as [|b0 input]; [congruence|]. simpl empty. cbv iota.
  simpl. simpl in Hb. rewrite Hb. simpl in Hc. rewrite Hc. simpl.
  destruct (h _ (ZL_CCtx_getErrorContextString (ctx cctx) _) s2) as [err s3].
  reflexivity.
Qed.

End Diagnostics.

(** The sibling paths hand the engine's diagnostic through: the typed
    decompress NIF on the same kind of context, and the multi-reference
    compress NIF. *)
Example decompress_typed_is_diagnosed :
  result_of (run (with_faults corrupt_payload nominal)
               (nif_decompress_typed sample_dctx [Byte.x01]) 0)
  = Error "corrupt payload"
  /\ result_of (run (with_faults corrupt_payload nominal)
                  (nif_decompress_multi_typed sample_dctx [Byte.x01]) 0)
     = Error "corrupt payload".
Proof. split; reflexivity. Qed.

Example compress_multi_is_diagnosed :
  result_of (run (with_faults multi_fails nominal)
               (nif_compress_multi_typed sample_cctx three_streams) 0)
  = Error "engine diagnostic".
Proof. reflexivity. Qed.

(* ===================================================================== *)
(** ** The properties *)
(* ===================================================================== *)

(** C1.  Multi-stream order.  Whenever [nif_compress_multi_typed] reaches
    the engine's multi-reference compress call, the log is: one reference
    creation per input cell in input order, the bound query for the sum of
    the items' data sizes (in [size_t] arithmetic; the plain sum when it
    fits 64 bits), then the compress call with exactly the references just
    obtained, in that order, and that bound as capacity.  Whenever
    [nif_decompress_multi_typed] answers [Ok], its list holds, position by
    position, the maps read from the buffers of the array given to the
    engine. *)
Theorem C1_multi_stream_order (S : Type) (h : handler S) (s : S) :
  (forall cctx t,
      existsb is_multi_compress
              (trace_of (run h (nif_compress_multi_typed cctx t) s)) = true ->
      references_in_input_order h s cctx t)
  /\ (forall dctx compressed out,
         result_of (run h (nif_decompress_multi_typed dctx compressed) s)
         = Ok out ->
         descriptors_in_frame_order h s dctx compressed out).
Proof.
  split.
  - intros cctx t Hacc. apply multi_accepted. exact Hacc.
  - intros dctx compressed out Hres. unfold descriptors_in_frame_order.
    destruct (run h (nif_decompress_multi_typed dctx compressed) s)
      as [[res s'] tr] eqn:Hrun.
    unfold result_of in Hres. simpl in Hres. subst res.
    unfold trace_of. simpl. eapply multi_decoded. exact Hrun.
Qed.

Lemma C1_multi_stream_order_witness :
  (existsb is_multi_compress
           (trace_of (run nominal (nif_compress_multi_typed sample_cctx
                                     three_streams) 0)) = true
   /\ references_in_input_order nominal 0 sample_cctx three_streams)
  /\ (exists out,
         result_of (run nominal (nif_decompress_multi_typed sample_dctx
                                   [Byte.x01]) 0) = Ok out
         /\ descriptors_in_frame_order nominal 0 sample_dctx [Byte.x01] out).
Proof.
  destruct (C1_multi_stream_order Z nominal 0) as [Hc Hd]. split.
  - split; [reflexivity | apply Hc; reflexivity].
  - eexists. split; [reflexivity | apply Hd; reflexivity].
Defined.

(** C3.  Empty primary input.  [nif_compress] on the empty binary,
    [nif_compress_multi_typed] on the empty list and [nif_sddl_compile] on
    the empty source answer with their local message, with an empty call
    log and an untouched engine, whatever the engine is. *)
Theorem C3_empty_input_rejected_locally (S : Type) (h : handler S) (s : S)
    (cctx : CCtx) :
  run h (nif_compress []) s = (Error "input must not be empty", s, [])
  /\ run h (nif_compress_multi_typed cctx TNil) s
     = (Error "input list must not be empty", s, [])
  /\ run h (nif_sddl_compile []) s
     = (Returned (Error "SDDL source must not be empty"), s, []).
Proof. repeat split; reflexivity. Qed.

(** C2 as stated fails: with an engine that cannot allocate a compressor
    the constructor still returns a context, which owns no default
    compressor and to which nothing was attached. *)
Lemma C2_context_without_default_graph :
  exists obj,
    result_of (run (with_faults no_compressor nominal) CCtx_new 0) = Returned obj
    /\ default_compressor obj = None
    /\ no_ref_compressor
         (trace_of (run (with_faults no_compressor nominal) CCtx_new 0)).
Proof. eexists. repeat split; reflexivity. Qed.

(** C2, amended.  Every constructed context has, right after the native
    context was created, asked the engine to set the format version to the
    engine's default encoding version and to set sticky parameters to 1
    (neither report is looked at), and has no attached [Compressor]
    resource.  The default generic graph follows the engine: no default
    compressor when none could be allocated; an owned but unattached one
    when selecting the generic graph failed; otherwise an owned one that
    the constructor asked the engine to attach to this context. *)
Theorem C2_construction_requests (S : Type) (h : handler S) (s : S) (obj : CCtx) :
  result_of (run h CCtx_new s) = Returned obj ->
  exists version r1 r2 rest,
    trace_of (run h CCtx_new s)
    = construction_prefix (ctx obj) version r1 r2 ++ rest
    /\ compressor_ref obj = None
    /\ graph_setup (ctx obj) rest (default_compressor obj).
Proof.
  intros Hres.
  destruct (CCtx_new_run _ h s) as [[Hthrow _] | Hok].
  - rewrite Hthrow in Hres. discriminate.
  - destruct Hok as (c & version & r1 & r2 & rest & member & Hobj & Htr & Hg).
    rewrite Hobj in Hres. injection Hres as <-.
    exists version, r1, r2, rest. simpl. auto.
Qed.

Lemma C2_construction_requests_witness :
  result_of (run nominal CCtx_new 0) = Returned (mkCCtx 0 (Some 1) None)
  /\ exists version r1 r2 rest,
      trace_of (run nominal CCtx_new 0)
      = construction_prefix 0 version r1 r2 ++ rest
      /\ None = (@None Compressor)
      /\ graph_setup 0 rest (Some 1).
Proof.
  split; [reflexivity|].
  apply (C2_construction_requests Z nominal 0 (mkCCtx 0 (Some 1) None)).
  reflexivity.
Defined.

(** C10.  The constructor throws only when the native context itself could
    not be created.  If any step of the default graph setup fails
    (allocating the compressor, selecting the generic graph, attaching),
    the constructor still returns a context; no attachment was accepted by
    the engine, and when the allocation failed the context owns no default
    compressor. *)
Theorem C10_graph_setup_failure_is_discarded (S : Type) (h : handler S) (s : S) :
  (forall e, result_of (run h CCtx_new s) = Propagated e ->
             trace_of (run h CCtx_new s) = [Entry ZL_CCtx_create None])
  /\ (existsb is_graph_setup_failure (trace_of (run h CCtx_new s)) = true ->
      exists obj,
        result_of (run h CCtx_new s) = Returned obj
        /\ existsb is_attach_success (trace_of (run h CCtx_new s)) = false
        /\ (existsb is_compressor_alloc_failure (trace_of (run h CCtx_new s))
            = true -> default_compressor obj = None)).
Proof.
  destruct (CCtx_new_run _ h s) as [[Hthrow Htr] | Hok].
  - split; [intros; exact Htr|]. rewrite Htr. discriminate.
  - destruct Hok as (c & version & r1 & r2 & rest & member & Hobj & Htr & Hg).
    split; [intros e He; rewrite Hobj in He; discriminate|].
    rewrite Htr, Hobj. intros Hfail. eexists. split; [reflexivity|].
    destruct Hg as [[-> ->] | [(comp & report & Herr & -> & ->)
                              | (comp & report & attach & Herr & -> & ->)]].
    + split; reflexivity.
    + simpl. unfold is_attach_success, is_graph_setup_failure. simpl.
      split; [reflexivity | discriminate].
    + revert Hfail. simpl.
      unfold is_attach_success, is_graph_setup_failure. simpl.
      rewrite Herr. simpl. destruct (ZL_isError attach); simpl.
      * intros _. split; [reflexivity | discriminate].
      * discriminate.
Qed.

Lemma C10_graph_setup_failure_is_discarded_witness :
  (existsb is_graph_setup_failure
     (trace_of (run (with_faults no_compressor nominal) CCtx_new 0)) = true
   /\ exists obj,
       result_of (run (with_faults no_compressor nominal) CCtx_new 0)
       = Returned obj
       /\ existsb is_attach_success
            (trace_of (run (with_faults no_compressor nominal) CCtx_new 0))
          = false
       /\ (existsb is_compressor_alloc_failure
             (trace_of (run (with_faults no_compressor nominal) CCtx_new 0))
           = true -> default_compressor obj = None))
  /\ (exists obj,
         result_of (run (with_faults select_fails nominal) CCtx_new 0)
         = Returned obj)
  /\ (exists obj,
         result_of (run (with_faults attach_fails nominal) CCtx_new 0)
         = Returned obj).
Proof.
  split; [split; [reflexivity|]|split].
  - apply (C10_graph_setup_failure_is_discarded
             Z (with_faults no_compressor nominal) 0). reflexivity.
  - destruct (C10_graph_setup_failure_is_discarded
                Z (with_faults select_fails nominal) 0) as [_ H].
    destruct (H eq_refl) as (obj & Hobj & _). exists obj. exact Hobj.
  - destruct (C10_graph_setup_failure_is_discarded
                Z (with_faults attach_fails nominal) 0) as [_ H].
    destruct (H eq_refl) as (obj & Hobj & _). exists obj. exact Hobj.
Defined.

(** C4, at a failing input.  The decompression context has a diagnostic
    for the failed call, yet [nif_decompress_with_context] answers with the
    fixed text and never asks for it; the one-shot [nif_decompress] does the
    same. *)
Theorem C4_decompress_drops_diagnostic :
  let engine := with_faults corrupt_payload nominal in
  fst (engine _ (ZL_DCtx_getErrorContextString
                   (dctx_ctx sample_dctx) (ZL_returnError 5)) 0)
  = Some "corrupt payload"
  /\ run engine (nif_decompress_with_context sample_dctx [Byte.x01]) 0
     = (Error "decompression failed", 0,
        [Entry (ZL_getDecompressedSize [Byte.x01]) (ZL_returnValue 1);
         Entry (ZL_DCtx_decompress (dctx_ctx sample_dctx) 1 [Byte.x01])
               (ZL_returnError 5, [])])
  /\ run engine (nif_decompress [Byte.x01]) 0
     = (Error "decompression failed", 0,
        [Entry (ZL_getDecompressedSize [Byte.x01]) (ZL_returnValue 1);
         Entry (ZL_decompress 1 [Byte.x01]) (ZL_returnError 5, [])]).
Proof. repeat split; reflexivity. Qed.

(** ** The log of a call that stops at an invalid item *)

Section MultiFailFastLog.

Variable S : Type.
Variable h : handler S.

(** The loop on valid cells followed by an invalid one: the references of
    the valid cells are requested in order; the loop stops at the invalid
    cell with its constraint, or earlier at the first request the engine
    refuses. *)
Lemma loop_run_invalid_log pre :
  forall reqs bad post c st s out s' tr,
    map decode_item pre = map inr reqs ->
    decode_item bad = inl c ->
    loop_run h (pre ++ bad :: post) st s out s' tr ->
    exists rs,
      refs (fst out) = refs st ++ rs
      /\ ((snd out = Some (constraint_message c)
           /\ List.length rs = List.length reqs
           /\ tr = create_entries reqs rs)
          \/ (exists q, nth_error reqs (List.length rs) = Some q
                        /\ snd out = Some (request_failure q)
                        /\ tr = create_entries (firstn (List.length rs) reqs) rs
                                  ++ [Entry (request_call q) None])).
Proof.
  induction pre as [|x pre IH]; intros reqs bad post c st s out s' tr Hm Hb Hrun.
  - destruct reqs; [|discriminate]. simpl in Hrun.
    inversion Hrun; subst; try congruence.
    exists []. simpl. rewrite app_nil_r. split; [reflexivity|].
    left. split; [congruence|]. split; reflexivity.
  - destruct reqs as [|q reqs]; [discriminate|]. simpl in Hm.
    injection Hm as Hx Hm. simpl in Hrun.
    inversion Hrun; subst; try congruence.
    + assert (q0 = q) by congruence. subst q0.
      exists []. simpl. rewrite app_nil_r. split; [reflexivity|].
      right. exists q. split; [reflexivity|]. split; reflexivity.
    + assert (q0 = q) by congruence. subst q0.
      match goal with
      | Hn : loop_run h (pre ++ _) _ _ _ _ _ |- _ =>
          eapply IH in Hn; eauto; destruct Hn as (rs & Hr & Hc)
      end.
      exists (r :: rs). simpl in Hr. rewrite <- app_assoc in Hr. simpl in Hr.
      split; [exact Hr|].
      destruct Hc as [(Hc1 & Hc2 & Hc3) | (q' & Hc1 & Hc2 & Hc3)].
      * left. simpl. rewrite Hc2, Hc3. auto.
      * right. exists q'. simpl. rewrite Hc3. auto.
Qed.

(** The whole call in that situation: the log is the requests for the
    earlier items, the refused request if there is one, and the release of
    every reference obtained; nothing else. *)
Lemma multi_fail_fast_log (cctx : CCtx) (t : term) (s : S) pre bad post reqs c :
  cells t = pre ++ bad :: post ->
  map decode_item pre = map inr reqs ->
  decode_item bad = inl c ->
  (exists rs,
      List.length rs = List.length reqs
      /\ result_of (run h (nif_compress_multi_typed cctx t) s)
         = Error (constraint_message c)
      /\ trace_of (run h (nif_compress_multi_typed cctx t) s)
         = create_entries reqs rs ++ free_entries rs)
  \/ (exists q rs,
         nth_error reqs (List.length rs) = Some q
         /\ result_of (run h (nif_compress_multi_typed cctx t) s)
            = Error (request_failure q)
         /\ trace_of (run h (nif_compress_multi_typed cctx t) s)
            = create_entries (firstn (List.length rs) reqs) rs
                ++ Entry (request_call q) None :: free_entries rs).
Proof.
  intros Hcells Hpre Hbad.
  destruct (nif_compress_multi_typed_run _ h cctx t s)
    as (st & early & s1 & tr1 & Hloop & Hout).
  rewrite Hcells in Hloop.
  pose proof (loop_run_invalid_log pre reqs bad post c _ _ _ _ _ Hpre Hbad Hloop)
    as (rs & Hrefs & Hcase).
  simpl in Hrefs, Hcase.
  destruct Hcase as [(He & Hlen & Htr) | (q & Hnth & He & Htr)]; subst early;
    destruct Hout as [Hres Htrace]; rewrite Hres, Htrace, Hrefs, Htr.
  - left. exists rs. split; [exact Hlen|]. split; reflexivity.
  - right. exists q, rs. split; [exact Hnth|]. split; [reflexivity|].
    rewrite <- app_assoc. reflexivity.
Qed.

End MultiFailFastLog.

(** C5 as stated fails: no function of the message recovers the position
    of the offending item; the same text comes back whether the bad item
    is first or second. *)
Lemma C5_message_does_not_locate_item :
  ~ (exists position_of : string -> nat,
        forall (items : list term) (i : nat),
          first_invalid items = Some i ->
          exists msg,
            result_of (run nominal
                         (nif_compress_multi_typed sample_cctx
                            (enif_make_list_from_array items)) 0)
            = Error msg
            /\ position_of msg = i).
Proof.
  intros [position_of H].
  destruct (H [bad_width] 0%nat eq_refl) as (m0 & Hm0 & Hp0).
  destruct (H [good_numeric; bad_width] 1%nat eq_refl) as (m1 & Hm1 & Hp1).
  vm_compute in Hm0. vm_compute in Hm1.
  injection Hm0 as <-. injection Hm1 as <-.
  rewrite Hp0 in Hp1. discriminate.
Qed.

(** C5, amended.  When the cells before an offending item are all valid,
    the call fails without the engine's multi-reference compress ever being
    invoked.  The references of the earlier items are requested first, in
    order, one per item; the call then answers the text of the first
    constraint the offending item violates, after releasing every one of
    those references, and the log holds nothing else.  That text determines
    the constraint (it does not carry the position).  The only other way
    out is that the engine refused the request of one of the earlier
    items: the answer is then that creation error, and the log is the
    requests granted before it, the refused request, and the release of
    the references granted.  The named constraints
    are the ones of the source: a numeric width outside 1, 2, 4, 8 (zero
    included), a zero struct width, a data size that is no multiple of the
    width, a lengths binary whose size is no multiple of 4, and an unknown
    type tag. *)
Theorem C5_fail_fast_names_constraint (S : Type) (h : handler S) (s : S)
    (cctx : CCtx) (t : term) (pre : list term) (bad : term) (post : list term)
    (reqs : list ref_request) (c : constraint) :
  cells t = pre ++ bad :: post ->
  map decode_item pre = map inr reqs ->
  decode_item bad = inl c ->
  (no_multi_compress (trace_of (run h (nif_compress_multi_typed cctx t) s))
   /\ ((exists rs,
           List.length rs = List.length reqs
           /\ result_of (run h (nif_compress_multi_typed cctx t) s)
              = Error (constraint_message c)
           /\ trace_of (run h (nif_compress_multi_typed cctx t) s)
              = create_entries reqs rs ++ free_entries rs)
       \/ (exists q rs,
              nth_error reqs (List.length rs) = Some q
              /\ result_of (run h (nif_compress_multi_typed cctx t) s)
                 = Error (request_failure q)
              /\ trace_of (run h (nif_compress_multi_typed cctx t) s)
                 = create_entries (firstn (List.length rs) reqs) rs
                     ++ Entry (request_call q) None :: free_entries rs)))
  /\ (forall c', constraint_message c' = constraint_message c -> c' = c)
  /\ (forall data width,
         0 <= width < size_t_modulus -> bad_numeric_width width = true ->
         decode_item (numeric_item data width) = inl NumericWidthNotAllowed)
  /\ (forall data, decode_item (struct_item data 0) = inl StructWidthZero)
  /\ (forall data width,
         0 <= width < size_t_modulus -> bad_numeric_width width = false ->
         size data mod width <> 0 ->
         decode_item (numeric_item data width) = inl NumericSizeNotMultiple)
  /\ (forall data swidth,
         0 < swidth < size_t_modulus -> size data mod swidth <> 0 ->
         decode_item (struct_item data swidth) = inl StructSizeNotMultiple)
  /\ (forall data lengths,
         size lengths mod sizeof_uint32_t <> 0 ->
         decode_item (string_item data lengths) = inl LengthsMisaligned)
  /\ (forall name type_atom data param,
         enif_get_atom (TAtom name) 16 = Some type_atom ->
         strcmp_eq0 type_atom "numeric" = false ->
         strcmp_eq0 type_atom "struct" = false ->
         strcmp_eq0 type_atom "string" = false ->
         decode_item (TTuple [TAtom name; TBinary data; param])
         = inl (UnknownTypeTag (c_str type_atom))).
Proof.
  intros Hcells Hpre Hbad.
  split.
  { split; [eapply multi_fail_fast; eauto|].
    eapply multi_fail_fast_log; eauto. }
  split; [intros c' Hc'; apply constraint_message_inj; exact Hc'|].
  assert (Hu64 : forall w, 0 <= w < size_t_modulus ->
                           enif_get_uint64 (TInt w) = Some w).
  { intros w [Hlo Hhi]. unfold enif_get_uint64.
    apply Z.leb_le in Hlo. apply Z.ltb_lt in Hhi. rewrite Hlo, Hhi. reflexivity. }
  split; [|split; [|split; [|split; [|split]]]].
  - intros data width Hw Hbadw. unfold decode_item, numeric_item.
    cbn -[enif_get_uint64 bad_numeric_width size Z.modulo Z.div].
    rewrite (Hu64 _ Hw), Hbadw. reflexivity.
  - intros data. reflexivity.
  - intros data width Hw Hokw Hmod. unfold decode_item, numeric_item.
    cbn -[enif_get_uint64 bad_numeric_width size Z.modulo Z.div].
    rewrite (Hu64 _ Hw), Hokw.
    apply Z.eqb_neq in Hmod. rewrite Hmod. reflexivity.
  - intros data swidth Hw Hmod. unfold decode_item, struct_item.
    cbn -[enif_get_uint64 size Z.modulo Z.div Z.eqb].
    rewrite Hu64 by lia.
    assert (Hnz : (swidth =? 0) = false) by (apply Z.eqb_neq; lia).
    rewrite Hnz. apply Z.eqb_neq in Hmod. rewrite Hmod. reflexivity.
  - intros data lengths Hmod. unfold decode_item, string_item.
    cbn -[size Z.modulo Z.div Z.eqb sizeof_uint32_t].
    apply Z.eqb_neq in Hmod. rewrite Hmod. reflexivity.
  - intros name type_atom data param Hatom Hn Hs Hstr. unfold decode_item.
    cbn -[enif_get_atom strcmp_eq0 c_str].
    rewrite Hatom, Hn, Hs, Hstr. reflexivity.
Qed.

Lemma C5_fail_fast_names_constraint_witness :
  no_multi_compress
    (trace_of
       (run nominal
            (nif_compress_multi_typed sample_cctx
               (enif_make_list_from_array [good_numeric; bad_width])) 0))
  /\ ((exists rs,
          List.length rs = List.length [ReqNumeric [Byte.x01; Byte.x02] 2 1]
          /\ result_of
               (run nominal
            (nif_compress_multi_typed sample_cctx
               (enif_make_list_from_array [good_numeric; bad_width])) 0)
             = Error (constraint_message NumericWidthNotAllowed)
          /\ trace_of
               (run nominal
            (nif_compress_multi_typed sample_cctx
               (enif_make_list_from_array [good_numeric; bad_width])) 0)
             = create_entries [ReqNumeric [Byte.x01; Byte.x02] 2 1] rs
                 ++ free_entries rs)
      \/ (exists q rs,
             nth_error [ReqNumeric [Byte.x01; Byte.x02] 2 1] (List.length rs)
             = Some q
             /\ result_of
                  (run nominal
            (nif_compress_multi_typed sample_cctx
               (enif_make_list_from_array [good_numeric; bad_width])) 0)
                = Error (request_failure q)
             /\ trace_of
                  (run nominal
            (nif_compress_multi_typed sample_cctx
               (enif_make_list_from_array [good_numeric; bad_width])) 0)
                = create_entries
                    (firstn (List.length rs)
                       [ReqNumeric [Byte.x01; Byte.x02] 2 1]) rs
                    ++ Entry (request_call q) None :: free_entries rs)).
Proof.
  refine (proj1 (C5_fail_fast_names_constraint Z nominal 0 sample_cctx
                   (enif_make_list_from_array [good_numeric; bad_width])
                   [good_numeric] bad_width []
                   [ReqNumeric [Byte.x01; Byte.x02] 2 1] NumericWidthNotAllowed
                   _ _ _));
    reflexivity.
Defined.

(** C6 as stated fails: the frame opens and its output count is readable,
    but the format version is not, and the whole call fails. *)
Lemma C6_unreadable_version_fails_the_call :
  let engine := with_faults version_unreadable nominal in
  fst (engine _ (ZL_FrameInfo_create [Byte.x01]) 0) = Some 0
  /\ fst (engine _ (ZL_FrameInfo_getNumOutputs 0) 1) = ZL_returnValue 1
  /\ result_of (run engine (nif_frame_info [Byte.x01]) 0)
     = Error "failed to get format version".
Proof. repeat split; reflexivity. Qed.

(** C6, amended.  [nif_frame_info] fails in exactly four cases: the frame
    is empty, the frame info cannot be created, the format version cannot
    be read, or the output count cannot be read.  Otherwise the answer
    holds the version, the count and one map per output in index order;
    in each map a field whose own query failed is the atom [unknown] and
    the two other fields are not affected. *)
Theorem C6_frame_info_fields (S : Type) (h : handler S) (s : S)
    (compressed : bytes) :
  frame_info_outcome compressed
    (result_of (run h (nif_frame_info compressed) s))
    (trace_of (run h (nif_frame_info compressed) s))
  /\ (forall type_report size_report elts_report,
         field "type" (output_item type_report size_report elts_report)
         = Some (known_or_unknown type_report
                   (fun v => make_atom (type_to_string v)))
         /\ field "decompressed_size"
                  (output_item type_report size_report elts_report)
            = Some (known_or_unknown size_report TInt)
         /\ field "num_elements"
                  (output_item type_report size_report elts_report)
            = Some (known_or_unknown elts_report TInt)).
Proof.
  split; [apply frame_info_run | apply output_item_fields].
Qed.

(** A single unreadable field on a concrete frame. *)
Example frame_info_unknown_type :
  result_of (run (with_faults type_unreadable nominal)
               (nif_frame_info [Byte.x01]) 0)
  = Ok (frame_info_map 21 1
          [TMap [(make_atom "type", make_atom "unknown");
                 (make_atom "decompressed_size", TInt 1);
                 (make_atom "num_elements", TInt 1)]]).
Proof. reflexivity. Qed.

(** C7 as stated fails: the message is not the exception's text but that
    text behind a fixed prefix. *)
Lemma C7_message_is_prefixed :
  result_of (run (with_faults compiler_rejects nominal)
               (nif_sddl_compile [Byte.x01]) 0)
  = Returned (Error "SDDL compilation failed: boom")
  /\ result_of (run (with_faults compiler_rejects nominal)
                  (nif_sddl_compile [Byte.x01]) 0)
     <> Returned (Error "boom").
Proof. split; [reflexivity | discriminate]. Qed.

(** Only [std::exception] is handled by the [catch] clause. *)
Example sddl_compile_other_exception :
  result_of (run (with_faults compiler_throws_other nominal)
               (nif_sddl_compile [Byte.x01]) 0)
  = Propagated NonStdException.
Proof. reflexivity. Qed.

(** C7, amended.  Whenever the compiler throws a [std::exception] on a
    non-empty source, [nif_sddl_compile] returns normally with an error
    whose message is ["SDDL compilation failed: "] followed by the
    exception's text; the compiler call is the only call made. *)
Theorem C7_std_exception_becomes_error (S : Type) (h : handler S) (s : S)
    (source : bytes) (what : string) :
  source <> [] ->
  fst (h _ (Compiler_compile source "[input]") s) = Thrown (StdException what) ->
  result_of (run h (nif_sddl_compile source) s)
  = Returned (Error (String.append "SDDL compilation failed: " what))
  /\ trace_of (run h (nif_sddl_compile source) s)
     = [Entry (Compiler_compile source "[input]") (Thrown (StdException what))].
Proof.
  intros Hne Hthrow. unfold nif_sddl_compile, result_of, trace_of.
  destruct source as [|b0 source]; [congruence|]. simpl.
  simpl in Hthrow.
  destruct (h _ (Compiler_compile (b0 :: source) "[input]") s) as [out s1].
  simpl in Hthrow. subst out. split; reflexivity.
Qed.

Lemma C7_std_exception_becomes_error_witness :
  result_of (run (with_faults compiler_rejects nominal)
               (nif_sddl_compile [Byte.x01]) 0)
  = Returned (Error (String.append "SDDL compilation failed: " "boom"))
  /\ trace_of (run (with_faults compiler_rejects nominal)
                 (nif_sddl_compile [Byte.x01]) 0)
     = [Entry (Compiler_compile [Byte.x01] "[input]")
              (Thrown (StdException "boom"))].
Proof.
  apply (C7_std_exception_becomes_error
           Z (with_faults compiler_rejects nominal) 0 [Byte.x01] "boom");
    [discriminate | reflexivity].
Defined.

(** C8.  A string stream whose lengths binary has a size that is no
    multiple of 4 is rejected with no call made at all, and that is the
    only check on the lengths.  When the size is a multiple of 4, also
    when the decoded lengths do not add up to the data size, the rest of
    the code is fixed and holds no comparison of the two: the loop body of
    the multi-stream NIF is one call of the engine's string-reference
    constructor, with the data and the lengths as given, followed by the
    push of the reference (or the creation error); the single-stream NIF
    is that same call followed by the common compress tail, so every run
    is one of three logs, and which one, and the answer, depend on the
    engine's replies alone: the constructor refuses; the engine's compress
    reports an error, whose diagnostic is the answer; or it reports a
    length, and the answer is [Ok]. *)
Theorem C8_only_alignment_is_checked (S : Type) (h : handler S) (s : S)
    (cctx : CCtx) (data lengths : bytes) (st : multi_state) :
  (size lengths mod sizeof_uint32_t <> 0 ->
   (exists msg, nif_compress_typed_string cctx data lengths = Ret (Error msg))
   /\ multi_item (string_item data lengths) st
      = Ret (inl "string lengths binary size must be a multiple of 4"))
  /\ (size lengths mod sizeof_uint32_t = 0 ->
      sum_lengths lengths <> size data ->
      (data <> [] ->
       nif_compress_typed_string cctx data lengths
       = Call (ZL_TypedRef_createString data (size data) lengths
                 (size lengths / sizeof_uint32_t))
              (fun tref =>
                 match tref with
                 | None => Ret (Error "failed to create string typed ref")
                 | Some tref =>
                     compress_typed_ref cctx data tref
                       "typed string compression failed"
                 end)
       /\ ((result_of (run h (nif_compress_typed_string cctx data lengths) s)
            = Error "failed to create string typed ref"
            /\ trace_of (run h (nif_compress_typed_string cctx data lengths) s)
               = [Entry (ZL_TypedRef_createString data (size data) lengths
                           (size lengths / sizeof_uint32_t)) None])
           \/ (exists tref bound n written,
                  result_of (run h (nif_compress_typed_string cctx data lengths) s)
                  = Ok (resize (filled bound written) n)
                  /\ trace_of (run h (nif_compress_typed_string cctx data lengths) s)
                     = [Entry (ZL_TypedRef_createString data (size data) lengths
                                 (size lengths / sizeof_uint32_t)) (Some tref);
                        Entry (ZL_compressBound (size data)) bound;
                        Entry (ZL_CCtx_compressTypedRef (ctx cctx) bound tref)
                              (ZL_returnValue n, written);
                        Entry (ZL_TypedRef_free tref) tt])
           \/ (exists tref bound code written err,
                  result_of (run h (nif_compress_typed_string cctx data lengths) s)
                  = Error (error_message err "typed string compression failed")
                  /\ trace_of (run h (nif_compress_typed_string cctx data lengths) s)
                     = [Entry (ZL_TypedRef_createString data (size data) lengths
                                 (size lengths / sizeof_uint32_t)) (Some tref);
                        Entry (ZL_compressBound (size data)) bound;
                        Entry (ZL_CCtx_compressTypedRef (ctx cctx) bound tref)
                              (ZL_returnError code, written);
                        Entry (ZL_CCtx_getErrorContextString (ctx cctx)
                                 (ZL_returnError code)) err;
                        Entry (ZL_TypedRef_free tref) tt])))
      /\ multi_item (string_item data lengths) st
         = Call (ZL_TypedRef_createString data (size data) lengths
                   (size lengths / sizeof_uint32_t))
                (fun ref =>
                   match ref with
                   | None => Ret (inl "failed to create string typed ref")
                   | Some ref => Ret (inr (push_ref st data ref))
                   end)).
Proof.
  split.
  - intros Hmod. apply Z.eqb_neq in Hmod. split.
    + unfold nif_compress_typed_string. destruct (empty data); [eauto|].
      rewrite Hmod. simpl. eauto.
    + unfold multi_item, string_item.
      cbn -[size Z.modulo Z.div Z.eqb sizeof_uint32_t].
      rewrite Hmod. reflexivity.
  - intros Hmod _. apply Z.eqb_eq in Hmod. split.
    + intros Hne.
      assert (Hprog :
        nif_compress_typed_string cctx data lengths
        = Call (ZL_TypedRef_createString data (size data) lengths
                  (size lengths / sizeof_uint32_t))
               (fun tref =>
                  match tref with
                  | None => Ret (Error "failed to create string typed ref")
                  | Some tref =>
                      compress_typed_ref cctx data tref
                        "typed string compression failed"
                  end)).
      { unfold nif_compress_typed_string.
        destruct data as [|b0 data]; [congruence|]. simpl empty. cbv iota.
        rewrite Hmod. simpl negb. cbv iota. reflexivity. }
      split; [exact Hprog|].
      rewrite Hprog. unfold result_of, trace_of.
      cbn [run].
      destruct (h _ (ZL_TypedRef_createString _ _ _ _) s) as [[tref|] s0].
      * right. unfold compress_typed_ref. simpl.
        destruct (h _ (ZL_compressBound _) s0) as [bound s1].
        destruct (h _ (ZL_CCtx_compressTypedRef _ _ _) s1)
          as [[result written] s2].
        destruct result as [n|code]; simpl.
        -- destruct (h unit (ZL_TypedRef_free tref) s2) as [[] s3]. simpl.
           left. exists tref, bound, n, written. split; reflexivity.
        -- destruct (h _ (ZL_CCtx_getErrorContextString _ _) s2) as [err s3].
           destruct (h unit (ZL_TypedRef_free tref) s3) as [[] s4]. simpl.
           right. exists tref, bound, code, written, err. split; reflexivity.
      * left. simpl. split; reflexivity.
    + unfold multi_item, string_item.
      cbn -[size Z.modulo Z.div Z.eqb sizeof_uint32_t].
      rewrite Hmod. simpl negb. cbv iota. reflexivity.
Qed.

Lemma C8_only_alignment_is_checked_witness :
  (size [Byte.x05; Byte.x00; Byte.x00] mod sizeof_uint32_t <> 0
   /\ multi_item (string_item [Byte.x61] [Byte.x05; Byte.x00; Byte.x00])
                 (mkMulti [] [] 0)
      = Ret (inl "string lengths binary size must be a multiple of 4"))
  /\ (sum_lengths [Byte.x05; Byte.x00; Byte.x00; Byte.x00] = 5
      /\ size [Byte.x61] = 1
      /\ nif_compress_typed_string sample_cctx [Byte.x61]
           [Byte.x05; Byte.x00; Byte.x00; Byte.x00]
         = Call (ZL_TypedRef_createString [Byte.x61] (size [Byte.x61])
                   [Byte.x05; Byte.x00; Byte.x00; Byte.x00]
                   (size [Byte.x05; Byte.x00; Byte.x00; Byte.x00] / sizeof_uint32_t))
                (fun tref =>
                   match tref with
                   | None => Ret (Error "failed to create string typed ref")
                   | Some tref =>
                       compress_typed_ref sample_cctx [Byte.x61] tref
                         "typed string compression failed"
                   end)
      /\ ((result_of
             (run nominal
                  (nif_compress_typed_string sample_cctx [Byte.x61]
                     [Byte.x05; Byte.x00; Byte.x00; Byte.x00]) 0)
           = Error "failed to create string typed ref"
           /\ trace_of
                (run nominal
                  (nif_compress_typed_string sample_cctx [Byte.x61]
                     [Byte.x05; Byte.x00; Byte.x00; Byte.x00]) 0)
              = [Entry (ZL_TypedRef_createString [Byte.x61] (size [Byte.x61])
                      [Byte.x05; Byte.x00; Byte.x00; Byte.x00]
                      (size [Byte.x05; Byte.x00; Byte.x00; Byte.x00]
                       / sizeof_uint32_t)) None])
          \/ (exists tref bound n written,
                 result_of
                   (run nominal
                  (nif_compress_typed_string sample_cctx [Byte.x61]
                     [Byte.x05; Byte.x00; Byte.x00; Byte.x00]) 0)
                 = Ok (resize (filled bound written) n)
                 /\ trace_of
                      (run nominal
                  (nif_compress_typed_string sample_cctx [Byte.x61]
                     [Byte.x05; Byte.x00; Byte.x00; Byte.x00]) 0)
                    = [Entry (ZL_TypedRef_createString [Byte.x61] (size [Byte.x61])
                      [Byte.x05; Byte.x00; Byte.x00; Byte.x00]
                      (size [Byte.x05; Byte.x00; Byte.x00; Byte.x00]
                       / sizeof_uint32_t)) (Some tref);
                       Entry (ZL_compressBound (size [Byte.x61])) bound;
                       Entry (ZL_CCtx_compressTypedRef (ctx sample_cctx) bound tref)
                             (ZL_returnValue n, written);
                       Entry (ZL_TypedRef_free tref) tt])
          \/ (exists tref bound code written err,
                 result_of
                   (run nominal
                  (nif_compress_typed_string sample_cctx [Byte.x61]
                     [Byte.x05; Byte.x00; Byte.x00; Byte.x00]) 0)
                 = Error (error_message err "typed string compression failed")
                 /\ trace_of
                      (run nominal
                  (nif_compress_typed_string sample_cctx [Byte.x61]
                     [Byte.x05; Byte.x00; Byte.x00; Byte.x00]) 0)
                    = [Entry (ZL_TypedRef_createString [Byte.x61] (size [Byte.x61])
                      [Byte.x05; Byte.x00; Byte.x00; Byte.x00]
                      (size [Byte.x05; Byte.x00; Byte.x00; Byte.x00]
                       / sizeof_uint32_t)) (Some tref);
                       Entry (ZL_compressBound (size [Byte.x61])) bound;
                       Entry (ZL_CCtx_compressTypedRef (ctx sample_cctx) bound tref)
                             (ZL_returnError code, written);
                       Entry (ZL_CCtx_getErrorContextString (ctx sample_cctx)
                                (ZL_returnError code)) err;
                       Entry (ZL_TypedRef_free tref) tt]))).
Proof.
  split.
  - split; [discriminate|].
    refine (proj2 (proj1 (C8_only_alignment_is_checked Z nominal 0 sample_cctx
                            [Byte.x61] [Byte.x05; Byte.x00; Byte.x00]
                            (mkMulti [] [] 0)) _)).
    discriminate.
  - split; [reflexivity|]. split; [reflexivity|].
    refine (proj1 (proj2 (C8_only_alignment_is_checked Z nominal 0 sample_cctx
                            [Byte.x61] [Byte.x05; Byte.x00; Byte.x00; Byte.x00]
                            (mkMulti [] [] 0)) _ _) _);
      [reflexivity | discriminate | discriminate].
Defined.

(** C9 as stated fails: an improper list whose cells hold a valid item and
    then an invalid one is not compressed; the call fails on the invalid
    item. *)
Lemma C9_invalid_item_in_prefix :
  let t := TCons good_numeric (TCons bad_width (TInt 7)) in
  (exists q, decode_item good_numeric = inr q)
  /\ result_of (run nominal (nif_compress_multi_typed sample_cctx t) 0)
     = Error "numeric element_width must be 1, 2, 4, or 8"
  /\ no_multi_compress
       (trace_of (run nominal (nif_compress_multi_typed sample_cctx t) 0)).
Proof. split; [eexists; reflexivity | split; reflexivity]. Qed.

(** C9, amended.  [nif_compress_multi_typed] looks at the cons cells of its
    argument only.  On a term that is no cons cell (the empty list, or no
    list at all) it answers with the empty-list error and calls nothing.
    On any term it runs exactly as on the proper list of its cells, so an
    improper tail is never looked at and causes no error.  When the cells
    are non-empty and all valid, the engine's multi-reference compress is
    called with one reference per cell, unless the engine refused to build
    one of them. *)
Theorem C9_only_cells_are_visited (S : Type) (h : handler S) (s : S)
    (cctx : CCtx) (t : term) :
  (enif_get_list_cell t = None ->
   run h (nif_compress_multi_typed cctx t) s
   = (Error "input list must not be empty", s, []))
  /\ run h (nif_compress_multi_typed cctx t) s
     = run h (nif_compress_multi_typed cctx
                (enif_make_list_from_array (cells t))) s
  /\ (forall reqs,
         cells t <> [] ->
         map decode_item (cells t) = map inr reqs ->
         (exists q,
             In q reqs
             /\ result_of (run h (nif_compress_multi_typed cctx t) s)
                = Error (request_failure q)
             /\ In (Entry (request_call q) None)
                   (trace_of (run h (nif_compress_multi_typed cctx t) s)))
         \/ (exists rs bound answer rest,
                List.length rs = List.length reqs
                /\ trace_of (run h (nif_compress_multi_typed cctx t) s)
                   = create_entries reqs rs
                     ++ Entry (ZL_compressBound (wrap64 (sum_sizes reqs))) bound
                     :: Entry (ZL_CCtx_compressMultiTypedRef
                                 (ctx cctx) bound rs
                                 (Z.of_nat (List.length rs))) answer
                     :: rest)).
Proof.
  split; [|split].
  - intros Hcell. unfold nif_compress_multi_typed.
    rewrite (not_a_cell_no_loop t _ Hcell). reflexivity.
  - apply multi_only_cells.
  - intros reqs Hne Hvalid. apply multi_valid_cells; assumption.
Qed.

Lemma C9_only_cells_are_visited_witness :
  run nominal (nif_compress_multi_typed sample_cctx (TInt 5)) 0
  = (Error "input list must not be empty", 0, [])
  /\ ((exists q,
          In q [ReqNumeric [Byte.x01; Byte.x02] 2 1]
          /\ result_of (run nominal
                          (nif_compress_multi_typed sample_cctx
                             (TCons good_numeric (TInt 7))) 0)
             = Error (request_failure q)
          /\ In (Entry (request_call q) None)
                (trace_of (run nominal
                             (nif_compress_multi_typed sample_cctx
                                (TCons good_numeric (TInt 7))) 0)))
      \/ (exists rs bound answer rest,
             List.length rs = 1%nat
             /\ trace_of (run nominal
                            (nif_compress_multi_typed sample_cctx
                               (TCons good_numeric (TInt 7))) 0)
                = create_entries [ReqNumeric [Byte.x01; Byte.x02] 2 1] rs
                  ++ Entry (ZL_compressBound
                              (wrap64 (sum_sizes
                                         [ReqNumeric [Byte.x01; Byte.x02] 2 1])))
                           bound
                  :: Entry (ZL_CCtx_compressMultiTypedRef
                              (ctx sample_cctx) bound rs
                              (Z.of_nat (List.length rs))) answer
                  :: rest)).
Proof.
  split.
  - apply (proj1 (C9_only_cells_are_visited Z nominal 0 sample_cctx (TInt 5))).
    reflexivity.
  - apply (proj2 (proj2 (C9_only_cells_are_visited Z nominal 0 sample_cctx
                           (TCons good_numeric (TInt 7)))));
      [discriminate | reflexivity].
Defined.

(* ===================================================================== *)
(** ** Further properties: buffers *)
(* ===================================================================== *)

Lemma size_resize (s : bytes) (n : Z) : 0 <= n -> size (resize s n) = n.
Proof.
  intros Hn. unfold size, resize.
  rewrite length_app, length_firstn, repeat_length. lia.
Qed.

Lemma size_filled (n : Z) (written : bytes) : 0 <= n -> size (filled n written) = n.
Proof.
  intros Hn. unfold size, filled.
  rewrite length_firstn, length_app, repeat_length. lia.
Qed.

(** Truncating the output buffer to a length within its capacity keeps
    the first bytes the engine wrote. *)
Lemma resize_filled (cap n : Z) (written : bytes) :
  0 <= n <= cap ->
  resize (filled cap written) n = firstn (Z.to_nat n) (written ++ zeros cap).
Proof.
  intros Hn. unfold resize, filled, zeros.
  rewrite firstn_firstn.
  replace (Nat.min (Z.to_nat n) (Z.to_nat cap)) with (Z.to_nat n) by lia.
  rewrite length_firstn, length_app, repeat_length.
  replace (Z.to_nat n - Nat.min (Z.to_nat cap) (List.length written + Z.to_nat cap))%nat
    with 0%nat by lia.
  simpl. apply app_nil_r.
Qed.

Lemma resize_filled_written (cap n : Z) (written : bytes) :
  0 <= n <= cap -> n <= size written ->
  resize (filled cap written) n = firstn (Z.to_nat n) written.
Proof.
  intros Hn Hw. rewrite resize_filled by exact Hn.
  rewrite firstn_app. unfold size in Hw.
  replace (Z.to_nat n - List.length written)%nat with 0%nat by lia.
  simpl. apply app_nil_r.
Qed.

(* ===================================================================== *)
(** ** Further properties: what a log obtains and releases *)
(* ===================================================================== *)

Lemma keep_app (A : Type) (f : entry -> option A) (t1 t2 : list entry) :
  keep f (t1 ++ t2) = keep f t1 ++ keep f t2.
Proof. unfold keep. apply flat_map_app. Qed.

Lemma acquired_app (t1 t2 : list entry) :
  acquired (t1 ++ t2) = acquired t1 ++ acquired t2.
Proof. apply keep_app. Qed.

Lemma released_app (t1 t2 : list entry) :
  released (t1 ++ t2) = released t1 ++ released t2.
Proof. apply keep_app. Qed.

Lemma acquired_create_entries (reqs : list ref_request) :
  forall rs, List.length rs = List.length reqs ->
             acquired (create_entries reqs rs) = map NativeTypedRef rs.
Proof.
  induction reqs as [|q reqs IH]; intros [|r rs] H; try discriminate.
  - reflexivity.
  - simpl in H. injection H as H. simpl create_entries.
    change (acquired (Entry (request_call q) (Some r) :: create_entries reqs rs))
      with (match acquired_by (Entry (request_call q) (Some r)) with
            | Some a => [a] | None => []
            end ++ acquired (create_entries reqs rs)).
    rewrite (IH rs H). destruct q; reflexivity.
Qed.

Lemma released_create_entries (reqs : list ref_request) :
  forall rs, released (create_entries reqs rs) = [].
Proof.
  induction reqs as [|q reqs IH]; intros [|r rs]; try reflexivity.
  simpl create_entries.
  change (released (Entry (request_call q) (Some r) :: create_entries reqs rs))
    with (match released_by (Entry (request_call q) (Some r)) with
          | Some a => [a] | None => []
          end ++ released (create_entries reqs rs)).
  rewrite IH. destruct q; reflexivity.
Qed.

Lemma acquired_free_entries (rs : list ZL_TypedRef) :
  acquired (free_entries rs) = [].
Proof. induction rs as [|r rs IH]; [reflexivity | exact IH]. Qed.

Lemma released_free_entries (rs : list ZL_TypedRef) :
  released (free_entries rs) = map NativeTypedRef rs.
Proof.
  induction rs as [|r rs IH]; [reflexivity|].
  simpl. unfold released, keep in *. simpl. rewrite IH. reflexivity.
Qed.

Lemma failed_request_entry (q : ref_request) :
  acquired [Entry (request_call q) None] = []
  /\ released [Entry (request_call q) None] = [].
Proof. destruct q; split; reflexivity. Qed.

Lemma acquired_buffer_entries (bufs : list ZL_TypedBuffer) :
  acquired (buffer_entries bufs) = map NativeTypedBuffer bufs
  /\ released (buffer_entries bufs) = [].
Proof.
  induction bufs as [|b bufs [IHa IHr]]; [split; reflexivity|].
  split; unfold acquired, released, keep in *; simpl.
  - rewrite IHa. reflexivity.
  - exact IHr.
Qed.

Lemma released_buffer_free_entries (bufs : list ZL_TypedBuffer) :
  acquired (buffer_free_entries bufs) = []
  /\ released (buffer_free_entries bufs) = map NativeTypedBuffer bufs.
Proof.
  induction bufs as [|b bufs [IHa IHr]]; [split; reflexivity|].
  split; unfold acquired, released, keep in *; simpl.
  - exact IHa.
  - rewrite IHr. reflexivity.
Qed.

Lemma view_entries_neutral (tbuf : ZL_TypedBuffer) (v : buffer_view) :
  acquired (view_entries tbuf v) = [] /\ released (view_entries tbuf v) = [].
Proof.
  unfold view_entries. destruct (bv_type v =? ZL_Type_string); split; reflexivity.
Qed.

Lemma read_entries_neutral (bufs : list ZL_TypedBuffer) :
  forall views,
    acquired (read_entries bufs views) = []
    /\ released (read_entries bufs views) = [].
Proof.
  induction bufs as [|b bufs IH]; intros [|v views]; try (split; reflexivity).
  cbn [read_entries]. rewrite acquired_app, released_app.
  destruct (view_entries_neutral b v) as [-> ->].
  destruct (IH views) as [-> ->]. split; reflexivity.
Qed.

Lemma query_entries_neutral (fi : ZL_FrameInfo) (reports : list output_reports) :
  forall i,
    acquired (query_entries fi i reports) = []
    /\ released (query_entries fi i reports) = []
    /\ existsb is_decompression (query_entries fi i reports) = false.
Proof.
  induction reports as [|[[t sz] e] reports IH]; intros i.
  - repeat split; reflexivity.
  - destruct (IH (i + 1)) as (Ha & Hr & Hd).
    unfold acquired, released, keep in *. simpl. auto.
Qed.

Lemma scoped_balanced (tr : list entry) :
  scoped tr -> released tr = acquired tr.
Proof.
  intros (pre & post & -> & Hp & _ & Ha & Hr).
  rewrite released_app, acquired_app, Hp, Ha, Hr, app_nil_r. reflexivity.
Qed.

Lemma free_entries_releases (rs : list ZL_TypedRef) :
  forallb is_release (free_entries rs) = true.
Proof. induction rs as [|r rs IH]; [reflexivity | exact IH]. Qed.

Lemma buffer_free_entries_releases (bufs : list ZL_TypedBuffer) :
  forallb is_release (buffer_free_entries bufs) = true.
Proof. induction bufs as [|b bufs IH]; [reflexivity | exact IH]. Qed.

(** A log without any object involved. *)
Lemma scoped_neutral (tr : list entry) :
  acquired tr = [] -> released tr = [] -> scoped tr.
Proof.
  intros Ha Hr. exists tr, []. rewrite app_nil_r, Ha. repeat split; auto.
Qed.

(* ===================================================================== *)
(** ** Further properties: the version string *)
(* ===================================================================== *)

(** X1.  A version number [major*10000 + minor*100 + patch] with two-digit
    minor and patch is printed as ["major.minor.patch"] in decimal. *)
Theorem version_decodes (major minor patch : Z) :
  0 <= major -> 0 <= minor < 100 -> 0 <= patch < 100 ->
  major * 10000 + minor * 100 + patch < 2 ^ 32 ->
  nif_version (major * 10000 + minor * 100 + patch)
  = String.append (std_to_string major)
      (String.append "."
         (String.append (std_to_string minor)
            (String.append "." (std_to_string patch)))).
Proof.
  intros HM Hm Hp Hfit. unfold nif_version, wrap32.
  rewrite (Z.mod_small (major * 10000 + minor * 100 + patch)) by lia.
  assert (H1 : (major * 10000 + minor * 100 + patch) / 10000 = major).
  { symmetry. apply Z.div_unique with (minor * 100 + patch); lia. }
  assert (H2 : (major * 10000 + minor * 100 + patch) / 100 = major * 100 + minor).
  { symmetry. apply Z.div_unique with patch; lia. }
  assert (H3 : (major * 100 + minor) mod 100 = minor).
  { symmetry. apply Z.mod_unique with major; lia. }
  assert (H4 : (major * 10000 + minor * 100 + patch) mod 100 = patch).
  { symmetry. apply Z.mod_unique with (major * 100 + minor); lia. }
  cbv zeta. rewrite H1, H2, H3, H4. reflexivity.
Qed.

Lemma version_decodes_witness :
  nif_version (0 * 10000 + 12 * 100 + 3) = "0.12.3".
Proof.
  rewrite (version_decodes 0 12 3); [reflexivity | lia | lia | lia | reflexivity].
Defined.

(* ===================================================================== *)
(** ** Further properties: byte-stream compress and decompress *)
(* ===================================================================== *)

(** X2.  [nif_compress] frees its scratch context on every path on which
    it obtained one, as its last call, and frees nothing else. *)
Theorem compress_scratch_context_scoped (S : Type) (h : handler S) (s : S)
    (input : bytes) :
  scoped (trace_of (run h (nif_compress input) s))
  /\ (acquired (trace_of (run h (nif_compress input) s)) = []
      \/ exists c pre,
          acquired (trace_of (run h (nif_compress input) s)) = [NativeCCtx c]
          /\ trace_of (run h (nif_compress input) s)
             = pre ++ [Entry (ZL_CCtx_free c) tt]).
Proof.
  unfold nif_compress, trace_of.
  destruct input as [|b0 input]; simpl.
  { split; [apply scoped_neutral; reflexivity | left; reflexivity]. }
  destruct (h _ (ZL_compressBound _) s) as [bound s1].
  destruct (h _ ZL_CCtx_create s1) as [[c|] s2]; simpl.
  2:{ split; [apply scoped_neutral; reflexivity | left; reflexivity]. }
  destruct (h _ ZL_getDefaultEncodingVersion s2) as [version s3].
  destruct (h _ (ZL_CCtx_setParameter c _ _) s3) as [r1 s4].
  destruct (h _ (ZL_CCtx_compress c bound _) s4) as [[result written] s5].
  destruct result as [n|code]; simpl.
  - destruct (h unit (ZL_CCtx_free c) s5) as [[] s6]. simpl. split.
    + eexists [_; _; _; _; _], [_]. repeat split; reflexivity.
    + right. exists c. eexists [_; _; _; _; _]. split; reflexivity.
  - destruct (h _ (ZL_CCtx_getErrorContextString c _) s5) as [err s6].
    destruct (h unit (ZL_CCtx_free c) s6) as [[] s7]. simpl. split.
    + eexists [_; _; _; _; _; _], [_]. repeat split; reflexivity.
    + right. exists c. eexists [_; _; _; _; _; _]. split; reflexivity.
Qed.

(** X3.  Whenever the engine's compress call succeeds with length [n],
    [nif_compress_with_context] answers [Ok] with a binary of exactly [n]
    bytes: the first [n] bytes of the output buffer, whose capacity is the
    bound the engine gave for the input size; nothing else is called. *)
Theorem compress_returns_engine_prefix (S : Type) (h : handler S) (s : S)
    (cctx : CCtx) (input : bytes) (bound n : Z) (written : bytes) (s1 s2 : S) :
  input <> [] ->
  h _ (ZL_compressBound (size input)) s = (bound, s1) ->
  h _ (ZL_CCtx_compress (ctx cctx) bound input) s1
  = ((ZL_returnValue n, written), s2) ->
  run h (nif_compress_with_context cctx input) s
  = (Ok (resize (filled bound written) n), s2,
     [Entry (ZL_compressBound (size input)) bound;
      Entry (ZL_CCtx_compress (ctx cctx) bound input)
            (ZL_returnValue n, written)])
  /\ (0 <= n -> size (resize (filled bound written) n) = n)
  /\ (0 <= n <= bound ->
      resize (filled bound written) n
      = firstn (Z.to_nat n) (written ++ zeros bound))
  /\ (0 <= n <= bound -> n <= size written ->
      resize (filled bound written) n = firstn (Z.to_nat n) written).
Proof.
  intros Hne Hb Hc. split; [|split; [|split]].
  - unfold nif_compress_with_context.
    destruct input as [|b0 input]; [congruence|]. simpl empty. cbv iota.
    simpl. simpl in Hb. rewrite Hb. simpl in Hc. rewrite Hc. reflexivity.
  - apply size_resize.
  - apply resize_filled.
  - apply resize_filled_written.
Qed.

Lemma compress_returns_engine_prefix_witness :
  run nominal (nif_compress_with_context sample_cctx [Byte.x01; Byte.x02]) 0
  = (Ok (resize (filled 18 [Byte.x01; Byte.x02]) 2), 0,
     [Entry (ZL_compressBound 2) 18;
      Entry (ZL_CCtx_compress 100 18 [Byte.x01; Byte.x02])
            (ZL_returnValue 2, [Byte.x01; Byte.x02])])
  /\ resize (filled 18 [Byte.x01; Byte.x02]) 2 = [Byte.x01; Byte.x02].
Proof.
  destruct (compress_returns_engine_prefix Z nominal 0 sample_cctx
              [Byte.x01; Byte.x02] 18 2 [Byte.x01; Byte.x02] 0 0)
    as (Hrun & _ & _ & Hw); [discriminate | reflexivity | reflexivity|].
  split; [exact Hrun|]. apply Hw; [lia | discriminate].
Defined.

(** X4.  Whenever a decompress NIF answers [Ok], the log is two calls:
    the frame's declared size was read, and the engine's decompress was
    given a buffer of exactly that size and reported a length [n]; the
    binary answered is that buffer cut to [n] bytes, so what the engine
    wrote followed by the zeros the buffer was filled with.  Nothing
    relates [n] to the declared size: an engine that reports fewer bytes
    than the frame declared gets [Ok] with the shorter binary. *)
Theorem decompress_returns_engine_prefix (S : Type) (h : handler S) (s : S)
    (dctx : DCtx) (compressed out : bytes) :
  (result_of (run h (nif_decompress compressed) s) = Ok out ->
   exists declared n written,
     trace_of (run h (nif_decompress compressed) s)
     = [Entry (ZL_getDecompressedSize compressed) (ZL_returnValue declared);
        Entry (ZL_decompress declared compressed) (ZL_returnValue n, written)]
     /\ out = resize (filled declared written) n
     /\ (0 <= n -> size out = n)
     /\ (0 <= n <= declared ->
         out = firstn (Z.to_nat n) (written ++ zeros declared)))
  /\ (result_of (run h (nif_decompress_with_context dctx compressed) s) = Ok out ->
      exists declared n written,
        trace_of (run h (nif_decompress_with_context dctx compressed) s)
        = [Entry (ZL_getDecompressedSize compressed) (ZL_returnValue declared);
           Entry (ZL_DCtx_decompress (dctx_ctx dctx) declared compressed)
                 (ZL_returnValue n, written)]
        /\ out = resize (filled declared written) n
        /\ (0 <= n -> size out = n)
        /\ (0 <= n <= declared ->
            out = firstn (Z.to_nat n) (written ++ zeros declared))).
Proof.
  split.
  - unfold nif_decompress.
    destruct compressed as [|b0 compressed]; [discriminate|]. simpl empty.
    cbv iota. unfold result_of, trace_of. simpl.
    destruct (h _ (ZL_getDecompressedSize _) s) as [[declared|code] s1]; simpl;
      [|discriminate].
    destruct (h _ (ZL_decompress _ _) s1) as [[[n|code] written] s2]; simpl;
      [|discriminate].
    intros Hout. injection Hout as <-.
    exists declared, n, written. split; [reflexivity|]. split; [reflexivity|].
    split; [apply size_resize | apply resize_filled].
  - unfold nif_decompress_with_context.
    destruct compressed as [|b0 compressed]; [discriminate|]. simpl empty.
    cbv iota. unfold result_of, trace_of. simpl.
    destruct (h _ (ZL_getDecompressedSize _) s) as [[declared|code] s1]; simpl;
      [|discriminate].
    destruct (h _ (ZL_DCtx_decompress _ _ _) s1) as [[[n|code] written] s2];
      simpl; [|discriminate].
    intros Hout. injection Hout as <-.
    exists declared, n, written. split; [reflexivity|]. split; [reflexivity|].
    split; [apply size_resize | apply resize_filled].
Qed.

Lemma decompress_returns_engine_prefix_witness :
  result_of (run (with_faults short_output nominal) (nif_decompress [Byte.x01]) 0)
  = Ok [Byte.x61; Byte.x62]
  /\ exists declared n written,
      trace_of (run (with_faults short_output nominal)
                  (nif_decompress [Byte.x01]) 0)
      = [Entry (ZL_getDecompressedSize [Byte.x01]) (ZL_returnValue declared);
         Entry (ZL_decompress declared [Byte.x01]) (ZL_returnValue n, written)]
      /\ [Byte.x61; Byte.x62] = resize (filled declared written) n
      /\ (0 <= n -> size [Byte.x61; Byte.x62] = n)
      /\ (0 <= n <= declared ->
          [Byte.x61; Byte.x62]
          = firstn (Z.to_nat n) (written ++ zeros declared)).
Proof.
  split; [reflexivity|].
  refine (proj1 (decompress_returns_engine_prefix
                   Z (with_faults short_output nominal) 0 sample_dctx
                   [Byte.x01] [Byte.x61; Byte.x62]) _).
  reflexivity.
Defined.

(* ===================================================================== *)
(** ** Further properties: typed compression *)
(* ===================================================================== *)

Lemma allowed_width_positive (width : Z) :
  bad_numeric_width width = false -> 0 < width.
Proof.
  unfold bad_numeric_width. intros H.
  destruct (Z.eqb_spec width 1); [lia|].
  destruct (Z.eqb_spec width 2); [lia|].
  destruct (Z.eqb_spec width 4); [lia|].
  destruct (Z.eqb_spec width 8); [lia|]. discriminate.
Qed.

Lemma whole_elements (total width : Z) :
  width <> 0 -> total mod width = 0 -> total / width * width = total.
Proof.
  intros Hw Hm. pose proof (Z.div_mod total width Hw) as H. lia.
Qed.

(** X5.  [nif_compress_typed_numeric] returns a local error without calling
    the engine exactly when the data is empty, the width is not 1, 2, 4 or
    8, or the size is no multiple of the width.  Otherwise its first call
    builds the numeric reference over the whole data: the element count
    times the width is the data size. *)
Theorem typed_numeric_validation (cctx : CCtx) (data : bytes) (width : Z) :
  ((exists msg, nif_compress_typed_numeric cctx data width = Ret (Error msg))
   <-> (data = [] \/ bad_numeric_width width = true
        \/ size data mod width <> 0))
  /\ (data <> [] -> bad_numeric_width width = false ->
      size data mod width = 0 ->
      (exists k,
          nif_compress_typed_numeric cctx data width
          = Call (ZL_TypedRef_createNumeric data width (size data / width)) k)
      /\ size data / width * width = size data).
Proof.
  unfold nif_compress_typed_numeric. split; [split|].
  - intros [msg Hret].
    destruct data as [|b0 data]; [left; reflexivity|]. right.
    simpl empty in Hret. cbv iota in Hret.
    destruct (bad_numeric_width width); [left; reflexivity|]. right.
    destruct (Z.eqb_spec (size (b0 :: data) mod width) 0) as [He|Hn];
      [|exact Hn].
    simpl in Hret. discriminate.
  - intros [-> | [Hbad | Hmod]].
    + eexists. reflexivity.
    + destruct (empty data); [eexists; reflexivity|]. rewrite Hbad.
      eexists. reflexivity.
    + destruct (empty data); [eexists; reflexivity|].
      destruct (bad_numeric_width width); [eexists; reflexivity|].
      apply Z.eqb_neq in Hmod. rewrite Hmod. eexists. reflexivity.
  - intros Hne Hok Hmod. split.
    + destruct data as [|b0 data]; [congruence|]. simpl empty. cbv iota.
      rewrite Hok. apply Z.eqb_eq in Hmod. rewrite Hmod. simpl negb. cbv iota.
      eexists. reflexivity.
    + apply whole_elements; [|exact Hmod].
      pose proof (allowed_width_positive width Hok). lia.
Qed.

Lemma typed_numeric_validation_witness :
  (exists k,
      nif_compress_typed_numeric sample_cctx
        [Byte.x01; Byte.x02; Byte.x03; Byte.x04] 2
      = Call (ZL_TypedRef_createNumeric
                [Byte.x01; Byte.x02; Byte.x03; Byte.x04] 2 2) k)
  /\ (exists msg,
         nif_compress_typed_numeric sample_cctx [Byte.x01; Byte.x02; Byte.x03] 2
         = Ret (Error msg)).
Proof.
  split.
  - apply (proj2 (typed_numeric_validation sample_cctx
                    [Byte.x01; Byte.x02; Byte.x03; Byte.x04] 2));
      [discriminate | reflexivity | reflexivity].
  - apply (proj1 (typed_numeric_validation sample_cctx
                    [Byte.x01; Byte.x02; Byte.x03] 2)).
    right. right. discriminate.
Defined.

(** X6.  [nif_compress_typed_struct] returns a local error without calling
    the engine exactly when the data is empty, the width is zero, or the
    size is no multiple of the width; any other width is accepted.
    Otherwise its first call builds the struct reference over the whole
    data. *)
Theorem typed_struct_validation (cctx : CCtx) (data : bytes) (struct_width : Z) :
  ((exists msg, nif_compress_typed_struct cctx data struct_width
                = Ret (Error msg))
   <-> (data = [] \/ struct_width = 0 \/ size data mod struct_width <> 0))
  /\ (data <> [] -> struct_width <> 0 -> size data mod struct_width = 0 ->
      (exists k,
          nif_compress_typed_struct cctx data struct_width
          = Call (ZL_TypedRef_createStruct data struct_width
                    (size data / struct_width)) k)
      /\ size data / struct_width * struct_width = size data).
Proof.
  unfold nif_compress_typed_struct. split; [split|].
  - intros [msg Hret].
    destruct data as [|b0 data]; [left; reflexivity|]. right.
    simpl empty in Hret. cbv iota in Hret.
    destruct (Z.eqb_spec struct_width 0) as [Hz|Hnz]; [left; exact Hz|]. right.
    destruct (Z.eqb_spec (size (b0 :: data) mod struct_width) 0) as [He|Hn];
      [|exact Hn].
    simpl in Hret. discriminate.
  - intros [-> | [-> | Hmod]].
    + eexists. reflexivity.
    + destruct (empty data); eexists; reflexivity.
    + destruct (empty data); [eexists; reflexivity|].
      destruct (struct_width =? 0); [eexists; reflexivity|].
      apply Z.eqb_neq in Hmod. rewrite Hmod. eexists. reflexivity.
  - intros Hne Hnz Hmod. split.
    + destruct data as [|b0 data]; [congruence|]. simpl empty. cbv iota.
      apply Z.eqb_neq in Hnz. rewrite Hnz.
      apply Z.eqb_eq in Hmod. rewrite Hmod. simpl negb. cbv iota.
      eexists. reflexivity.
    + apply whole_elements; assumption.
Qed.

Lemma typed_struct_validation_witness :
  (exists k,
      nif_compress_typed_struct sample_cctx
        [Byte.x01; Byte.x02; Byte.x03; Byte.x04; Byte.x05; Byte.x06] 3
      = Call (ZL_TypedRef_createStruct
                [Byte.x01; Byte.x02; Byte.x03; Byte.x04; Byte.x05; Byte.x06]
                3 2) k)
  /\ (exists msg,
         nif_compress_typed_struct sample_cctx [Byte.x01; Byte.x02] 0
         = Ret (Error msg)).
Proof.
  split.
  - apply (proj2 (typed_struct_validation sample_cctx
                    [Byte.x01; Byte.x02; Byte.x03; Byte.x04; Byte.x05; Byte.x06]
                    3));
      [discriminate | discriminate | reflexivity].
  - apply (proj1 (typed_struct_validation sample_cctx [Byte.x01; Byte.x02] 0)).
    right. left. reflexivity.
Defined.

Section TypedScopes.

Variable S : Type.
Variable h : handler S.

Lemma compress_typed_ref_scoped (cctx : CCtx) (data : bytes) (tref : ZL_TypedRef)
    (fallback : string) (s : S) (first : entry) :
  acquired_by first = Some (NativeTypedRef tref) ->
  released_by first = None ->
  scoped (first :: trace_of (run h (compress_typed_ref cctx data tref fallback) s)).
Proof.
  intros Ha Hr. unfold compress_typed_ref, trace_of. simpl.
  destruct (h _ (ZL_compressBound _) s) as [bound s1].
  destruct (h _ (ZL_CCtx_compressTypedRef _ _ _) s1) as [[result written] s2].
  destruct result as [n|code]; simpl.
  - destruct (h unit (ZL_TypedRef_free tref) s2) as [[] s3]. simpl.
    exists [first; Entry (ZL_compressBound (size data)) bound;
            Entry (ZL_CCtx_compressTypedRef (ctx cctx) bound tref)
                  (ZL_returnValue n, written)],
           [Entry (ZL_TypedRef_free tref) tt].
    unfold released, acquired, keep. simpl. rewrite Ha, Hr.
    repeat split; reflexivity.
  - destruct (h _ (ZL_CCtx_getErrorContextString _ _) s2) as [err s3].
    destruct (h unit (ZL_TypedRef_free tref) s3) as [[] s4]. simpl.
    exists [first; Entry (ZL_compressBound (size data)) bound;
            Entry (ZL_CCtx_compressTypedRef (ctx cctx) bound tref)
                  (ZL_returnError code, written);
            Entry (ZL_CCtx_getErrorContextString (ctx cctx)
                     (ZL_returnError code)) err],
           [Entry (ZL_TypedRef_free tref) tt].
    unfold released, acquired, keep. simpl. rewrite Ha, Hr.
    repeat split; reflexivity.
Qed.

End TypedScopes.

(** X7.  The three single-stream typed compress NIFs release the typed
    reference they built on every path, as their last call and after the
    engine's compress call; when no reference was built nothing is
    released. *)
Theorem typed_reference_scoped (S : Type) (h : handler S) (s : S) (cctx : CCtx)
    (data : bytes) (width : Z) (lengths_bin : bytes) :
  scoped (trace_of (run h (nif_compress_typed_numeric cctx data width) s))
  /\ scoped (trace_of (run h (nif_compress_typed_struct cctx data width) s))
  /\ scoped (trace_of (run h (nif_compress_typed_string cctx data lengths_bin) s)).
Proof.
  split; [|split].
  - unfold nif_compress_typed_numeric.
    destruct (empty data); [apply scoped_neutral; reflexivity|].
    destruct (bad_numeric_width width); [apply scoped_neutral; reflexivity|].
    cbv zeta. destruct (negb _); [apply scoped_neutral; reflexivity|].
    rewrite bind_prog. unfold trace_of. rewrite run_bind, run_call.
    destruct (h _ (ZL_TypedRef_createNumeric _ _ _) s) as [[tref|] s1].
    + pose proof (compress_typed_ref_scoped S h cctx data tref
                    "typed numeric compression failed" s1
                    (Entry (ZL_TypedRef_createNumeric data width
                              (size data / width)) (Some tref))
                    eq_refl eq_refl) as H.
      unfold trace_of in H.
      destruct (run h (compress_typed_ref _ _ _ _) s1) as [[res s2] tr].
      exact H.
    + simpl. apply scoped_neutral; reflexivity.
  - unfold nif_compress_typed_struct.
    destruct (empty data); [apply scoped_neutral; reflexivity|].
    destruct (width =? 0); [apply scoped_neutral; reflexivity|].
    cbv zeta. destruct (negb _); [apply scoped_neutral; reflexivity|].
    rewrite bind_prog. unfold trace_of. rewrite run_bind, run_call.
    destruct (h _ (ZL_TypedRef_createStruct _ _ _) s) as [[tref|] s1].
    + pose proof (compress_typed_ref_scoped S h cctx data tref
                    "typed struct compression failed" s1
                    (Entry (ZL_TypedRef_createStruct data width
                              (size data / width)) (Some tref))
                    eq_refl eq_refl) as H.
      unfold trace_of in H.
      destruct (run h (compress_typed_ref _ _ _ _) s1) as [[res s2] tr].
      exact H.
    + simpl. apply scoped_neutral; reflexivity.
  - unfold nif_compress_typed_string.
    destruct (empty data); [apply scoped_neutral; reflexivity|].
    destruct (negb _); [apply scoped_neutral; reflexivity|].
    cbv zeta. rewrite bind_prog. unfold trace_of. rewrite run_bind, run_call.
    destruct (h _ (ZL_TypedRef_createString _ _ _ _) s) as [[tref|] s1].
    + pose proof (compress_typed_ref_scoped S h cctx data tref
                    "typed string compression failed" s1
                    (Entry (ZL_TypedRef_createString data (size data) lengths_bin
                              (size lengths_bin / sizeof_uint32_t)) (Some tref))
                    eq_refl eq_refl) as H.
      unfold trace_of in H.
      destruct (run h (compress_typed_ref _ _ _ _) s1) as [[res s2] tr].
      exact H.
    + simpl. apply scoped_neutral; reflexivity.
Qed.

(** X8.  [nif_compress_multi_typed] releases every typed reference the
    engine handed out, each once and in creation order, on every path;
    all releases come at the very end of the call, after the
    multi-reference compress call and the diagnostic query. *)
Theorem multi_references_scoped (S : Type) (h : handler S) (s : S)
    (cctx : CCtx) (t : term) :
  scoped (trace_of (run h (nif_compress_multi_typed cctx t) s)).
Proof.
  destruct (nif_compress_multi_typed_run _ h cctx t s)
    as (st & early & s1 & tr1 & Hloop & Hout).
  destruct early as [msg|].
  - destruct Hout as [_ ->]. apply loop_run_early in Hloop.
    destruct Hloop as (pre & x & post & reqs & rs & _ & _ & Hl & Hr & Hc).
    simpl in Hr. rewrite Hr.
    exists tr1, (free_entries rs).
    split; [reflexivity|].
    rewrite free_entries_releases, acquired_free_entries, released_free_entries.
    destruct Hc as [(c & _ & _ & ->) | (q & _ & _ & ->)].
    + rewrite released_create_entries, (acquired_create_entries _ _ Hl). auto.
    + rewrite released_app, acquired_app, released_create_entries,
        (acquired_create_entries _ _ Hl).
      destruct (failed_request_entry q) as [-> ->]. rewrite !app_nil_r. auto.
  - eapply loop_run_done with (base := 0) in Hloop; [|reflexivity].
    destruct Hloop as (reqs & rs & _ & Hl & Hr & _ & _ & ->).
    simpl in Hr. rewrite Hr in Hout.
    destruct rs as [|r0 rs0].
    + destruct Hout as [_ ->]. destruct reqs; [|discriminate].
      apply scoped_neutral; reflexivity.
    + destruct Hout as (bound & s2 & report & written & s3 & _ & _ & Hcase).
      destruct Hcase as [(_ & err & s4 & _ & _ & ->) | (_ & _ & ->)];
        rewrite app_assoc;
        eexists; exists (free_entries (r0 :: rs0));
        (split; [reflexivity|]);
        rewrite free_entries_releases, acquired_free_entries,
          released_free_entries, released_app, acquired_app,
          released_create_entries, (acquired_create_entries _ _ Hl);
        repeat split; try reflexivity;
        rewrite app_nil_r; reflexivity.
Qed.

(** X9.  Unlike the single-stream NIF, [nif_compress_multi_typed] has no
    emptiness check on an item's data: a list holding one numeric item
    with an empty binary passes validation, its reference is requested
    with element count 0 and the bound is asked for size 0. *)
Theorem multi_accepts_empty_data (S : Type) (h : handler S) (s : S)
    (cctx : CCtx) (width : Z) :
  bad_numeric_width width = false ->
  nif_compress_typed_numeric cctx [] width = Ret (Error "input must not be empty")
  /\ decode_item (numeric_item [] width) = inr (ReqNumeric [] width 0)
  /\ (result_of (run h (nif_compress_multi_typed cctx
                          (TCons (numeric_item [] width) TNil)) s)
      = Error "failed to create numeric typed ref"
      \/ exists r bound answer rest,
          trace_of (run h (nif_compress_multi_typed cctx
                             (TCons (numeric_item [] width) TNil)) s)
          = Entry (ZL_TypedRef_createNumeric [] width 0) (Some r)
            :: Entry (ZL_compressBound 0) bound
            :: Entry (ZL_CCtx_compressMultiTypedRef (ctx cctx) bound [r] 1)
                     answer
            :: rest).
Proof.
  intros Hok. split; [reflexivity|].
  pose proof (allowed_width_positive width Hok) as Hpos.
  assert (Hsmall : width < size_t_modulus).
  { unfold bad_numeric_width in Hok. unfold size_t_modulus.
    destruct (Z.eqb_spec width 1); [lia|].
    destruct (Z.eqb_spec width 2); [lia|].
    destruct (Z.eqb_spec width 4); [lia|].
    destruct (Z.eqb_spec width 8); [lia|]. discriminate. }
  assert (Hd : decode_item (numeric_item [] width) = inr (ReqNumeric [] width 0)).
  { unfold decode_item, numeric_item.
    cbn -[enif_get_uint64 bad_numeric_width Z.modulo Z.div].
    unfold enif_get_uint64.
    assert (Hlo : (0 <=? width) = true) by (apply Z.leb_le; lia).
    assert (Hhi : (width <? size_t_modulus) = true) by (apply Z.ltb_lt; lia).
    rewrite Hlo, Hhi. simpl andb. cbv iota. rewrite Hok.
    rewrite Z.mod_0_l, Z.div_0_l by lia. reflexivity. }
  split; [exact Hd|].
  destruct (multi_valid_cells S h cctx (TCons (numeric_item [] width) TNil) s
              [ReqNumeric [] width 0])
    as [(q & Hin & Hres & _) | (rs & bound & answer & rest & Hlen & Htr)].
  - discriminate.
  - simpl. rewrite Hd. reflexivity.
  - left. destruct Hin as [<- | []]. exact Hres.
  - right. destruct rs as [|r [|r' rs]]; try discriminate.
    exists r, bound, answer, rest. exact Htr.
Qed.

Lemma multi_accepts_empty_data_witness :
  exists rest,
    trace_of (run nominal (nif_compress_multi_typed sample_cctx
                             (TCons (numeric_item [] 4) TNil)) 0)
    = Entry (ZL_TypedRef_createNumeric [] 4 0) (Some 0)
      :: Entry (ZL_compressBound 0) 16
      :: Entry (ZL_CCtx_compressMultiTypedRef 100 16 [0] 1)
               (ZL_returnValue 1, [Byte.x2a])
      :: rest.
Proof.
  destruct (multi_accepts_empty_data Z nominal 0 sample_cctx 4 eq_refl)
    as (_ & _ & [H | (r & bound & answer & rest & H)]).
  - discriminate H.
  - eexists. reflexivity.
Defined.

(** X10.  The type tag is read into a 16-byte buffer: an item whose tag is
    an atom of 16 or more characters fails the atom check, so the call
    answers "first element must be an atom" and makes no engine call when
    such an item comes first. *)
Theorem long_tag_is_no_atom (S : Type) (h : handler S) (s : S) (cctx : CCtx)
    (name : list N) (data param tail : term) :
  (16 <= List.length name)%nat ->
  decode_item (TTuple [TAtom name; data; param]) = inl TagNotAtom
  /\ run h (nif_compress_multi_typed cctx
              (TCons (TTuple [TAtom name; data; param]) tail)) s
     = (Error "first element must be an atom", s, []).
Proof.
  intros Hlen.
  assert (Hatom : enif_get_atom (TAtom name) 16 = None).
  { unfold enif_get_atom.
    assert (Hfit : (Z.of_nat (List.length name) + 1 <=? 16) = false)
      by (apply Z.leb_gt; lia).
    rewrite Hfit, andb_false_r. reflexivity. }
  assert (Hd : decode_item (TTuple [TAtom name; data; param]) = inl TagNotAtom).
  { unfold decode_item. cbn -[enif_get_atom]. rewrite Hatom. reflexivity. }
  split; [exact Hd|].
  unfold nif_compress_multi_typed.
  change (multi_loop (TCons (TTuple [TAtom name; data; param]) tail)
            (mkMulti [] [] 0))
    with (prog_bind (multi_item (TTuple [TAtom name; data; param])
                       (mkMulti [] [] 0))
            (fun r => match r with
                      | inl msg => Ret (mkMulti [] [] 0, Some msg)
                      | inr st' => multi_loop tail st'
                      end)).
  rewrite multi_item_decode, Hd. reflexivity.
Qed.

Lemma long_tag_is_no_atom_witness :
  run nominal
      (nif_compress_multi_typed sample_cctx
         (TCons (TTuple [make_atom "numeric_elements"; TBinary [Byte.x01];
                         TInt 1]) TNil)) 0
  = (Error "first element must be an atom", 0, []).
Proof.
  apply (long_tag_is_no_atom Z nominal 0 sample_cctx
           (codes_of_string "numeric_elements")).
  simpl. lia.
Defined.

(* ===================================================================== *)
(** ** Further properties: typed decompression *)
(* ===================================================================== *)

Section TypedDecode.

Variable S : Type.
Variable h : handler S.

(** Reading a buffer asks for the string lengths only when the buffer's
    type is [ZL_Type_string]. *)
Lemma run_read_typed_buffer_lens (tbuf : ZL_TypedBuffer) (s : S) :
  exists v s',
    run h (read_typed_buffer tbuf) s = (view_to_map v, s', view_entries tbuf v)
    /\ (bv_type v <> ZL_Type_string -> bv_str_lens v = None).
Proof.
  unfold read_typed_buffer. simpl.
  destruct (h _ (ZL_TypedBuffer_type tbuf) s) as [type s1].
  destruct (h _ (ZL_TypedBuffer_byteSize tbuf) s1) as [byte_size s2].
  destruct (h _ (ZL_TypedBuffer_numElts tbuf) s2) as [num_elts s3].
  destruct (h _ (ZL_TypedBuffer_eltWidth tbuf) s3) as [elt_width s4].
  destruct (h _ (ZL_TypedBuffer_rPtr tbuf) s4) as [data_ptr s5].
  destruct (Z.eqb_spec type ZL_Type_string) as [Htype|Htype]; simpl.
  - destruct (h _ (ZL_TypedBuffer_rStringLens tbuf) s5) as [str_lens s6].
    exists (mkView type byte_size num_elts elt_width data_ptr str_lens), s6.
    unfold view_entries. simpl.
    destruct (Z.eqb_spec type ZL_Type_string); [|contradiction].
    split; [reflexivity | intros; contradiction].
  - exists (mkView type byte_size num_elts elt_width data_ptr None), s5.
    unfold view_entries. simpl.
    destruct (Z.eqb_spec type ZL_Type_string); [contradiction|].
    split; reflexivity.
Qed.

(** Every run of [nif_decompress_multi_typed]. *)
Lemma decompress_multi_run (dctx : DCtx) (compressed : bytes) (s : S) :
  decompress_multi_outcome dctx compressed
    (result_of (run h (nif_decompress_multi_typed dctx compressed) s))
    (trace_of (run h (nif_decompress_multi_typed dctx compressed) s)).
Proof.
  destruct (run h (nif_decompress_multi_typed dctx compressed) s)
    as [[res s'] tr] eqn:Hrun.
  unfold result_of, trace_of, decompress_multi_outcome. simpl.
  unfold nif_decompress_multi_typed in Hrun.
  destruct compressed as [|b0 compressed0] eqn:Hc.
  { simpl in Hrun. injection Hrun as <- _ <-. left. auto. }
  rewrite <- Hc in *.
  assert (Hempty : empty compressed = false) by (subst; auto).
  rewrite Hempty in Hrun. clear Hc Hempty. right.
  rewrite bind_prog, run_bind, run_call in Hrun.
  destruct (h _ (ZL_getNumOutputs compressed) s) as [num_report s1].
  destruct num_report as [n | code].
  2:{ simpl in Hrun. injection Hrun as <- _ <-. left. eauto. }
  right. simpl ZL_isError in Hrun.
  cbv beta iota zeta in Hrun. rewrite bind_prog, run_bind in Hrun.
  destruct (run_create_buffers _ h (Z.to_nat (ZL_validResult (ZL_returnValue n)))
              [] [] s1) as (bufs & ok & s2 & Hcreate & Hlen).
  rewrite Hcreate in Hrun. cbn [app] in Hrun.
  destruct ok; simpl negb in Hrun; cbv beta iota zeta in Hrun.
  2:{ rewrite bind_prog, run_bind in Hrun.
      destruct (run_free_buffers _ h bufs s2) as [s3 Hfree].
      rewrite Hfree in Hrun. simpl in Hrun. injection Hrun as <- _ <-.
      left. exists n, bufs. rewrite app_nil_r, <- app_assoc. auto. }
  right.
  rewrite bind_prog, run_bind, run_call in Hrun. simpl ZL_validResult in *.
  destruct (h _ (ZL_DCtx_decompressMultiTBuffer (dctx_ctx dctx) bufs n compressed)
              s2) as [report s3].
  cbv beta iota zeta in Hrun.
  destruct (ZL_isError report) eqn:Herr.
  { rewrite bind_prog, run_bind, run_call in Hrun.
    destruct (h _ (ZL_DCtx_getErrorContextString (dctx_ctx dctx) report) s3)
      as [err s4].
    cbv beta iota zeta in Hrun. rewrite bind_prog, run_bind in Hrun.
    destruct (run_free_buffers _ h bufs s4) as [s5 Hfree].
    rewrite Hfree in Hrun. simpl in Hrun. injection Hrun as <- _ <-.
    left. exists n, bufs, report, err. rewrite !app_nil_r.
    repeat split; auto. }
  right.
  rewrite bind_prog, run_bind in Hrun.
  destruct (run_build_list_items _ h bufs [] [] s3)
    as (views & s4 & Hviews & Hbuild).
  simpl in Hbuild. rewrite <- (Hlen eq_refl), Hbuild in Hrun.
  cbv beta iota zeta in Hrun. rewrite bind_prog, run_bind in Hrun.
  destruct (run_free_buffers _ h bufs s4) as [s5 Hfree]. rewrite Hfree in Hrun.
  simpl in Hrun. injection Hrun as <- _ <-.
  exists n, bufs, views, report. rewrite !app_nil_r.
  repeat split; auto.
Qed.

End TypedDecode.

(** The [string_lengths] key of a result map. *)
Lemma view_to_map_fields (v : buffer_view) :
  field "type" (view_to_map v) = Some (make_atom (type_to_string (bv_type v)))
  /\ field "data" (view_to_map v)
     = Some (TBinary (memcpy (bv_data v) (bv_byte_size v)))
  /\ field "element_width" (view_to_map v) = Some (TInt (bv_elt_width v))
  /\ field "num_elements" (view_to_map v) = Some (TInt (bv_num_elts v))
  /\ field "string_lengths" (view_to_map v)
     = option_map
         (fun lens => TBinary (memcpy lens
                                 (wrap64 (bv_num_elts v * sizeof_uint32_t))))
         (bv_str_lens v).
Proof.
  unfold view_to_map. destruct (bv_str_lens v); repeat split; reflexivity.
Qed.

(** X11.  When [nif_decompress_typed] answers [Ok], its map describes the
    one buffer it had the engine fill: type name, the first [byte_size]
    bytes of the buffer, element width and count.  The key
    [string_lengths] is present exactly when the buffer's type is string
    and its lengths array is not null, and the engine is asked for that
    array exactly when the type is string. *)
Theorem decompress_typed_map (S : Type) (h : handler S) (s : S) (dctx : DCtx)
    (compressed : bytes) (m : term) :
  result_of (run h (nif_decompress_typed dctx compressed) s) = Ok m ->
  exists tbuf report v,
    trace_of (run h (nif_decompress_typed dctx compressed) s)
    = Entry ZL_TypedBuffer_create (Some tbuf)
      :: Entry (ZL_DCtx_decompressTBuffer (dctx_ctx dctx) tbuf compressed) report
      :: view_entries tbuf v
      ++ [Entry (ZL_TypedBuffer_free tbuf) tt]
    /\ m = view_to_map v
    /\ field "type" m = Some (make_atom (type_to_string (bv_type v)))
    /\ field "data" m = Some (TBinary (memcpy (bv_data v) (bv_byte_size v)))
    /\ (field "string_lengths" m = None
        <-> (bv_type v <> ZL_Type_string \/ bv_str_lens v = None))
    /\ existsb is_lens_query (view_entries tbuf v)
       = (bv_type v =? ZL_Type_string).
Proof.
  destruct (run h (nif_decompress_typed dctx compressed) s)
    as [[res s'] tr] eqn:Hrun.
  unfold result_of, trace_of. simpl. intros ->.
  unfold nif_decompress_typed in Hrun.
  destruct (empty compressed); [discriminate|].
  rewrite bind_prog, run_bind, run_call in Hrun.
  destruct (h _ ZL_TypedBuffer_create s) as [[tbuf|] s1]; [|discriminate].
  cbv beta iota zeta in Hrun.
  rewrite bind_prog, run_bind, run_call in Hrun.
  destruct (h _ (ZL_DCtx_decompressTBuffer (dctx_ctx dctx) tbuf compressed) s1)
    as [report s2].
  cbv beta iota zeta in Hrun.
  destruct (ZL_isError report).
  { simpl in Hrun.
    destruct (h _ (ZL_DCtx_getErrorContextString (dctx_ctx dctx) report) s2)
      as [err s3].
    destruct (h unit (ZL_TypedBuffer_free tbuf) s3) as [[] s4]. discriminate. }
  rewrite bind_prog, run_bind in Hrun.
  destruct (run_read_typed_buffer_lens S h tbuf s2) as (v & s3 & Hread & Hlens).
  rewrite Hread in Hrun. cbv beta iota zeta in Hrun.
  rewrite bind_prog, run_bind, run_call in Hrun.
  destruct (h unit (ZL_TypedBuffer_free tbuf) s3) as [[] s4].
  simpl in Hrun. injection Hrun as <- _ <-.
  exists tbuf, report, v. rewrite ?app_nil_r.
  destruct (view_to_map_fields v) as (Ht & Hd & _ & _ & Hs).
  split; [reflexivity|]. split; [reflexivity|].
  split; [exact Ht|]. split; [exact Hd|]. split.
  - rewrite Hs. split.
    + intros Hnone. destruct (bv_str_lens v); [discriminate | right; reflexivity].
    + intros [Hty | Hl]; [rewrite (Hlens Hty) | rewrite Hl]; reflexivity.
  - unfold view_entries. simpl.
    destruct (bv_type v =? ZL_Type_string); reflexivity.
Qed.

Lemma decompress_typed_map_witness :
  exists tbuf report v,
    trace_of (run (with_faults string_output nominal)
                (nif_decompress_typed sample_dctx [Byte.x01]) 0)
    = Entry ZL_TypedBuffer_create (Some tbuf)
      :: Entry (ZL_DCtx_decompressTBuffer 200 tbuf [Byte.x01]) report
      :: view_entries tbuf v
      ++ [Entry (ZL_TypedBuffer_free tbuf) tt]
    /\ bv_type v = ZL_Type_string
    /\ field "string_lengths" (view_to_map v)
       = Some (TBinary [Byte.x01; Byte.x00; Byte.x00; Byte.x00;
                        Byte.x02; Byte.x00; Byte.x00; Byte.x00]).
Proof.
  destruct (decompress_typed_map Z (with_faults string_output nominal) 0
              sample_dctx [Byte.x01] _ eq_refl)
    as (tbuf & report & v & Htr & Hm & _).
  exists 0, (ZL_returnValue 0),
    (mkView ZL_Type_string 3 2 1 [Byte.x61; Byte.x62; Byte.x63]
            (Some [Byte.x01; Byte.x00; Byte.x00; Byte.x00;
                   Byte.x02; Byte.x00; Byte.x00; Byte.x00])).
  repeat split; reflexivity.
Defined.

(** X12.  [nif_decompress_multi_typed] runs in one of five ways.  The
    engine's multi-buffer decompress is called only after as many buffers
    were created as the frame declares outputs (none for a frame with zero
    outputs), with those buffers in creation order; if a buffer cannot be
    created the buffers created so far are released and decompression is
    not attempted; a decompress failure surfaces the context's diagnostic;
    on success there is one map per buffer. *)
Theorem decompress_multi_runs (S : Type) (h : handler S) (s : S) (dctx : DCtx)
    (compressed : bytes) :
  decompress_multi_outcome dctx compressed
    (result_of (run h (nif_decompress_multi_typed dctx compressed) s))
    (trace_of (run h (nif_decompress_multi_typed dctx compressed) s)).
Proof. apply decompress_multi_run. Qed.

(** X13.  Both typed decompress NIFs release every typed buffer they
    created, each once, in creation order and at the very end of the call,
    on every path. *)
Theorem typed_buffers_scoped (S : Type) (h : handler S) (s : S) (dctx : DCtx)
    (compressed : bytes) :
  scoped (trace_of (run h (nif_decompress_typed dctx compressed) s))
  /\ scoped (trace_of (run h (nif_decompress_multi_typed dctx compressed) s)).
Proof.
  split.
  - unfold nif_decompress_typed.
    destruct (empty compressed); [apply scoped_neutral; reflexivity|].
    unfold trace_of. rewrite bind_prog, run_bind, run_call.
    destruct (h _ ZL_TypedBuffer_create s) as [[tbuf|] s1];
      [|apply scoped_neutral; reflexivity].
    cbv beta iota zeta. rewrite bind_prog, run_bind, run_call.
    destruct (h _ (ZL_DCtx_decompressTBuffer (dctx_ctx dctx) tbuf compressed) s1)
      as [report s2].
    cbv beta iota zeta. destruct (ZL_isError report).
    + simpl.
      destruct (h _ (ZL_DCtx_getErrorContextString (dctx_ctx dctx) report) s2)
        as [err s3].
      destruct (h unit (ZL_TypedBuffer_free tbuf) s3) as [[] s4]. simpl.
      eexists [_; _; _], [_]. repeat split; reflexivity.
    + rewrite bind_prog, run_bind.
      destruct (run_read_typed_buffer S h tbuf s2) as (v & s3 & Hread).
      rewrite Hread. cbv beta iota zeta. rewrite bind_prog, run_bind, run_call.
      destruct (h unit (ZL_TypedBuffer_free tbuf) s3) as [[] s4]. simpl.
      rewrite ?app_nil_r.
      exists (Entry ZL_TypedBuffer_create (Some tbuf)
              :: Entry (ZL_DCtx_decompressTBuffer
                          (dctx_ctx dctx) tbuf compressed) report
              :: view_entries tbuf v),
             [Entry (ZL_TypedBuffer_free tbuf) tt].
      destruct (view_entries_neutral tbuf v) as [Ha Hr].
      change (released (Entry ZL_TypedBuffer_create (Some tbuf)
                        :: Entry (ZL_DCtx_decompressTBuffer
                                    (dctx_ctx dctx) tbuf compressed) report
                        :: view_entries tbuf v))
        with (released (view_entries tbuf v)).
      change (acquired (Entry ZL_TypedBuffer_create (Some tbuf)
                        :: Entry (ZL_DCtx_decompressTBuffer
                                    (dctx_ctx dctx) tbuf compressed) report
                        :: view_entries tbuf v))
        with (NativeTypedBuffer tbuf :: acquired (view_entries tbuf v)).
      rewrite Ha, Hr. repeat split; reflexivity.
  - pose proof (decompress_multi_run S h dctx compressed s) as Hrun.
    destruct Hrun as [(_ & _ & ->) | [(code & _ & ->) | [(n & bufs & _ & ->)
      | [(n & bufs & report & err & _ & _ & _ & ->)
        | (n & bufs & views & report & _ & _ & _ & _ & ->)]]]].
    + apply scoped_neutral; reflexivity.
    + apply scoped_neutral; reflexivity.
    + exists (Entry (ZL_getNumOutputs compressed) (ZL_returnValue n)
              :: buffer_entries bufs ++ [Entry ZL_TypedBuffer_create None]),
             (buffer_free_entries bufs).
      split; [simpl; rewrite <- app_assoc; reflexivity|].
      destruct (acquired_buffer_entries bufs) as [Ha Hr].
      destruct (released_buffer_free_entries bufs) as [Hfa Hfr].
      rewrite buffer_free_entries_releases, Hfa, Hfr.
      change (released (Entry (ZL_getNumOutputs compressed) (ZL_returnValue n)
                        :: buffer_entries bufs
                        ++ [Entry ZL_TypedBuffer_create None]))
        with (released (buffer_entries bufs
                        ++ [Entry ZL_TypedBuffer_create None])).
      change (acquired (Entry (ZL_getNumOutputs compressed) (ZL_returnValue n)
                        :: buffer_entries bufs
                        ++ [Entry ZL_TypedBuffer_create None]))
        with (acquired (buffer_entries bufs
                        ++ [Entry ZL_TypedBuffer_create None])).
      rewrite released_app, acquired_app, Ha, Hr. simpl.
      rewrite ?app_nil_r. repeat split; reflexivity.
    + exists (Entry (ZL_getNumOutputs compressed) (ZL_returnValue n)
              :: buffer_entries bufs
              ++ [Entry (ZL_DCtx_decompressMultiTBuffer
                           (dctx_ctx dctx) bufs n compressed) report;
                  Entry (ZL_DCtx_getErrorContextString (dctx_ctx dctx) report)
                        err]),
             (buffer_free_entries bufs).
      split; [simpl; rewrite <- app_assoc; reflexivity|].
      destruct (acquired_buffer_entries bufs) as [Ha Hr].
      destruct (released_buffer_free_entries bufs) as [Hfa Hfr].
      rewrite buffer_free_entries_releases, Hfa, Hfr.
      unfold released, acquired, keep in *. simpl.
      rewrite !flat_map_app, Ha, Hr. simpl. rewrite ?app_nil_r. repeat split; reflexivity.
    + exists (Entry (ZL_getNumOutputs compressed) (ZL_returnValue n)
              :: buffer_entries bufs
              ++ Entry (ZL_DCtx_decompressMultiTBuffer
                          (dctx_ctx dctx) bufs n compressed) report
              :: read_entries bufs views),
             (buffer_free_entries bufs).
      split; [simpl; rewrite <- app_assoc; reflexivity|].
      destruct (acquired_buffer_entries bufs) as [Ha Hr].
      destruct (released_buffer_free_entries bufs) as [Hfa Hfr].
      destruct (read_entries_neutral bufs views) as [Hva Hvr].
      rewrite buffer_free_entries_releases, Hfa, Hfr.
      unfold released, acquired, keep in *. simpl.
      rewrite !flat_map_app. simpl. rewrite Ha, Hr, Hva, Hvr.
      rewrite ?app_nil_r. repeat split; reflexivity.
Qed.

(* ===================================================================== *)
(** ** Further properties: frame introspection *)
(* ===================================================================== *)

(** X14.  [nif_frame_info] never decompresses and never allocates a typed
    buffer, and it releases the frame-info object it created, once and as
    its last call, on every path. *)
Theorem frame_info_reads_only (S : Type) (h : handler S) (s : S)
    (compressed : bytes) :
  existsb is_decompression (trace_of (run h (nif_frame_info compressed) s))
  = false
  /\ scoped (trace_of (run h (nif_frame_info compressed) s)).
Proof.
  pose proof (frame_info_run S h compressed s) as Hrun.
  unfold frame_info_outcome in Hrun.
  destruct (result_of (run h (nif_frame_info compressed) s)) as [m | msg].
  - destruct Hrun as (fi & version & n & reports & _ & _ & ->).
    destruct (query_entries_neutral fi reports 0) as (Ha & Hr & Hd).
    split.
    + simpl. rewrite existsb_app, Hd. reflexivity.
    + exists ([Entry (ZL_FrameInfo_create compressed) (Some fi);
               Entry (ZL_FrameInfo_getFormatVersion fi) (ZL_returnValue version);
               Entry (ZL_FrameInfo_getNumOutputs fi) (ZL_returnValue n)]
              ++ query_entries fi 0 reports),
             [Entry (ZL_FrameInfo_free fi) tt].
      split; [rewrite <- app_assoc; reflexivity|].
      rewrite released_app, acquired_app, Ha, Hr.
      repeat split; reflexivity.
  - destruct Hrun as [(_ & _ & ->) | [(_ & ->) | [(fi & code & _ & ->)
      | (fi & version & code & _ & ->)]]].
    + split; [reflexivity | apply scoped_neutral; reflexivity].
    + split; [reflexivity | apply scoped_neutral; reflexivity].
    + split; [reflexivity|]. eexists [_; _], [_]. repeat split; reflexivity.
    + split; [reflexivity|]. eexists [_; _; _], [_]. repeat split; reflexivity.
Qed.

(* ===================================================================== *)
(** ** Further properties: context settings and lifetime *)
(* ===================================================================== *)

Lemma static_cast_int_periodic (z k : Z) :
  static_cast_int (z + k * 2 ^ 32) = static_cast_int z.
Proof. unfold static_cast_int. rewrite Z.mod_add by lia. reflexivity. Qed.

Lemma static_cast_int_small (z : Z) :
  - 2 ^ 31 <= z < 2 ^ 31 -> static_cast_int z = z.
Proof.
  intros Hz. unfold static_cast_int.
  destruct (Z.ltb_spec (z mod 2 ^ 32) (2 ^ 31)) as [Hlt | Hge].
  - destruct (Z_lt_le_dec z 0) as [Hneg | Hpos].
    + exfalso. rewrite <- (Z.mod_add z 1 (2 ^ 32)) in Hlt by lia.
      rewrite Z.mod_small in Hlt; lia.
    + apply Z.mod_small. lia.
  - destruct (Z_lt_le_dec z 0) as [Hneg | Hpos].
    + rewrite <- (Z.mod_add z 1 (2 ^ 32)) by lia.
      rewrite Z.mod_small; lia.
    + exfalso. rewrite Z.mod_small in Hge; lia.
Qed.

(** X15.  [nif_set_compression_level] narrows the 64-bit level to 32 bits
    before the engine sees it: a level within the [int] range is passed
    unchanged, and two levels that differ by a multiple of 2^32 run the
    same program.  The answer is [:ok] when the engine accepts the
    parameter, and otherwise the context's diagnostic or the fixed text. *)
Theorem set_compression_level_narrows (S : Type) (h : handler S) (s : S)
    (cctx : CCtx) (level : Z) :
  (forall k,
      nif_set_compression_level cctx (level + k * 2 ^ 32)
      = nif_set_compression_level cctx level)
  /\ (- 2 ^ 31 <= level < 2 ^ 31 ->
      exists k,
        nif_set_compression_level cctx level
        = Call (ZL_CCtx_setParameter (ctx cctx) ZL_CParam_compressionLevel level)
               k)
  /\ (forall v s1,
         h _ (ZL_CCtx_setParameter (ctx cctx) ZL_CParam_compressionLevel
                (static_cast_int level)) s
         = (ZL_returnValue v, s1) ->
         result_of (run h (nif_set_compression_level cctx level) s)
         = Ok (mkAtom "ok"))
  /\ (forall code s1,
         h _ (ZL_CCtx_setParameter (ctx cctx) ZL_CParam_compressionLevel
                (static_cast_int level)) s
         = (ZL_returnError code, s1) ->
         result_of (run h (nif_set_compression_level cctx level) s)
         = Error (error_message
                    (fst (h _ (ZL_CCtx_getErrorContextString
                                 (ctx cctx) (ZL_returnError code)) s1))
                    "failed to set compression level")).
Proof.
  split; [|split; [|split]].
  - intros k. unfold nif_set_compression_level.
    rewrite static_cast_int_periodic. reflexivity.
  - intros Hz. unfold nif_set_compression_level.
    rewrite (static_cast_int_small level Hz). eexists. reflexivity.
  - intros v s1 Hset. unfold nif_set_compression_level, result_of. simpl.
    rewrite Hset. reflexivity.
  - intros code s1 Hset. unfold nif_set_compression_level, result_of. simpl.
    rewrite Hset. simpl.
    destruct (h _ (ZL_CCtx_getErrorContextString (ctx cctx) _) s1) as [err s2].
    reflexivity.
Qed.

Lemma set_compression_level_narrows_witness :
  nif_set_compression_level sample_cctx (3 + 1 * 2 ^ 32)
  = nif_set_compression_level sample_cctx 3
  /\ result_of (run nominal (nif_set_compression_level sample_cctx 3) 0)
     = Ok (mkAtom "ok")
  /\ result_of (run (with_faults rejects_settings nominal)
                  (nif_set_compression_level sample_cctx 3) 0)
     = Error "engine diagnostic".
Proof.
  split; [|split].
  - apply (proj1 (set_compression_level_narrows Z nominal 0 sample_cctx 3)).
  - apply (proj1 (proj2 (proj2 (set_compression_level_narrows
                                  Z nominal 0 sample_cctx 3))) 0 0).
    reflexivity.
  - apply (proj2 (proj2 (proj2 (set_compression_level_narrows
                                  Z (with_faults rejects_settings nominal) 0
                                  sample_cctx 3))) 8 0).
    reflexivity.
Defined.


Lemma run_CCtx_delete (S : Type) (h : handler S) (obj : CCtx) (s : S) :
  trace_of (run h (CCtx_delete obj) s)
  = Entry (ZL_CCtx_free (ctx obj)) tt
    :: match default_compressor obj with
       | Some comp => [Entry (ZL_Compressor_free comp) tt]
       | None => []
       end.
Proof.
  unfold CCtx_delete, trace_of. simpl.
  destruct (h unit (ZL_CCtx_free (ctx obj)) s) as [[] s1].
  destruct (default_compressor obj) as [comp|]; simpl.
  - destruct (h unit (ZL_Compressor_free comp) s1) as [[] s2]. reflexivity.
  - reflexivity.
Qed.

(** X17.  Constructing a compression context and destroying it releases
    exactly the native objects the constructor obtained: the context
    first, then the default compressor if one was allocated, also when
    selecting or attaching the default graph failed.  A constructor that
    throws has obtained nothing. *)
Theorem context_lifetime_balanced (S : Type) (h : handler S) (s : S) :
  match result_of (run h CCtx_new s) with
  | Returned obj =>
      forall s',
        scoped (trace_of (run h CCtx_new s)
                ++ trace_of (run h (CCtx_delete obj) s'))
        /\ released (trace_of (run h (CCtx_delete obj) s'))
           = NativeCCtx (ctx obj)
             :: match default_compressor obj with
                | Some comp => [NativeCompressor comp]
                | None => []
                end
  | Propagated _ => acquired (trace_of (run h CCtx_new s)) = []
  end.
Proof.
  destruct (CCtx_new_run S h s) as [[-> ->] | Hok]; [reflexivity|].
  destruct Hok as (c & version & r1 & r2 & rest & member & -> & -> & Hg).
  intros s'. rewrite run_CCtx_delete. simpl ctx. simpl default_compressor.
  destruct Hg as [[-> ->] | [(comp & report & _ & -> & ->)
                            | (comp & report & attach & _ & -> & ->)]].
  - split; [|reflexivity].
    eexists (construction_prefix c version r1 r2 ++ [_]), [_].
    split; [rewrite <- app_assoc; reflexivity|]. repeat split; reflexivity.
  - split; [|reflexivity].
    eexists (construction_prefix c version r1 r2 ++ [_; _]), [_; _].
    split; [rewrite <- app_assoc; reflexivity|]. repeat split; reflexivity.
  - split; [|reflexivity].
    eexists (construction_prefix c version r1 r2 ++ [_; _; _]), [_; _].
    split; [rewrite <- app_assoc; reflexivity|]. repeat split; reflexivity.
Qed.

(* ===================================================================== *)
(** ** Further properties: the SDDL compressor *)
(* ===================================================================== *)

(** X18.  [nif_create_sddl_compressor] rejects an empty blob before it
    allocates anything.  On a non-empty blob it allocates one compressor,
    builds the SDDL graph on it from the blob as given, and selects as
    starting graph exactly the id that step returned, on the same
    compressor; it answers [Ok] with that compressor only when both steps
    succeeded.  A failure of either step is answered with the compressor's
    diagnostic for that step or the step's fixed text, and the selection
    is not attempted after a failed build. *)
Theorem sddl_compressor_runs (S : Type) (h : nhandler S) (s : S)
    (compiled : bytes) :
  nif_create_sddl_compressor []
  = NRet (Returned (Error "compiled SDDL must not be empty"))
  /\ (compiled <> [] ->
      sddl_compressor_outcome compiled
        (fst (fst (nrun h (nif_create_sddl_compressor compiled) s)))
        (snd (nrun h (nif_create_sddl_compressor compiled) s))).
Proof.
  split; [reflexivity|]. intros Hne.
  destruct (nrun h (nif_create_sddl_compressor compiled) s)
    as [[res s'] tr] eqn:Hrun.
  unfold sddl_compressor_outcome. simpl fst. simpl snd.
  unfold nif_create_sddl_compressor in Hrun.
  assert (Hempty : empty compiled = false)
    by (destruct compiled; [congruence | reflexivity]).
  rewrite Hempty in Hrun. simpl in Hrun.
  destruct (h _ (Engine ZL_Compressor_create) s) as [[c|] s1]; simpl in Hrun.
  2:{ injection Hrun as <- _ <-. left. auto. }
  right.
  destruct (h _ (ZL_SDDL_setupProfile c compiled (size compiled)) s1)
    as [[graph_id | error] s2]; simpl in Hrun.
  - right.
    destruct (h _ (Engine (ZL_Compressor_selectStartingGraphID c graph_id)) s2)
      as [report s3].
    destruct (ZL_isError report) eqn:Herr; simpl in Hrun.
    + destruct (h _ (ZL_Compressor_getErrorContextString c report) s3)
        as [err s4]. simpl in Hrun. injection Hrun as <- _ <-.
      left. exists c, graph_id, report, err. auto.
    + injection Hrun as <- _ <-. right. exists c, graph_id, report. auto.
  - destruct (h _ (ZL_Compressor_getErrorContextString_fromError c error) s2)
      as [err s3]. simpl in Hrun. injection Hrun as <- _ <-.
    left. exists c, error, err. auto.
Qed.

Lemma sddl_compressor_runs_witness :
  sddl_compressor_outcome [Byte.x01]
    (Returned (Ok (mkCompressor 0)))
    [NEntry (Engine ZL_Compressor_create) (Some 0);
     NEntry (ZL_SDDL_setupProfile 0 [Byte.x01] 1)
            (ZL_RES_value (ZL_GRAPH_custom 7));
     NEntry (Engine (ZL_Compressor_selectStartingGraphID 0 (ZL_GRAPH_custom 7)))
            (ZL_returnValue 0)].
Proof.
  apply (proj2 (sddl_compressor_runs Z nnominal 0 [Byte.x01])). discriminate.
Defined.

(* ===================================================================== *)
(** ** Further properties: item shape and unknown types *)
(* ===================================================================== *)

(** An invalid first item ends the call before any engine call. *)
Lemma first_item_invalid (S : Type) (h : handler S) (s : S) (cctx : CCtx)
    (head tail : term) (c : constraint) :
  decode_item head = inl c ->
  run h (nif_compress_multi_typed cctx (TCons head tail)) s
  = (Error (constraint_message c), s, []).
Proof.
  intros Hd. unfold nif_compress_multi_typed.
  change (multi_loop (TCons head tail) (mkMulti [] [] 0))
    with (prog_bind (multi_item head (mkMulti [] [] 0))
            (fun r => match r with
                      | inl msg => Ret (mkMulti [] [] 0, Some msg)
                      | inr st' => multi_loop tail st'
                      end)).
  rewrite multi_item_decode, Hd. reflexivity.
Qed.

(** X19.  The shape of an item is checked before its tag is looked at: a
    first item that is no tuple or has another arity than 3 is answered
    with the 3-tuple message, and a first item whose second element is no
    binary is answered with the binary message whatever its tag and
    parameter are; in each case no engine call is made and the rest of the
    list is not examined. *)
Theorem item_shape_checked_first (S : Type) (h : handler S) (s : S)
    (cctx : CCtx) (tail : term) :
  (forall head,
      enif_get_tuple head = None ->
      run h (nif_compress_multi_typed cctx (TCons head tail)) s
      = (Error "each input must be a 3-tuple {type, data, param}", s, []))
  /\ (forall elems,
         List.length elems <> 3%nat ->
         run h (nif_compress_multi_typed cctx (TCons (TTuple elems) tail)) s
         = (Error "each input must be a 3-tuple {type, data, param}", s, []))
  /\ (forall name type_atom data param,
         enif_get_atom (TAtom name) 16 = Some type_atom ->
         enif_inspect_binary data = None ->
         run h (nif_compress_multi_typed cctx
                  (TCons (TTuple [TAtom name; data; param]) tail)) s
         = (Error "second element must be a binary", s, [])).
Proof.
  split; [|split].
  - intros head Hnt. apply (first_item_invalid S h s cctx head tail NotATriple).
    unfold decode_item. rewrite Hnt. reflexivity.
  - intros elems Hlen.
    apply (first_item_invalid S h s cctx (TTuple elems) tail NotATriple).
    unfold decode_item. simpl enif_get_tuple. cbv iota beta.
    assert (Hne : (Z.of_nat (List.length elems) =? 3) = false)
      by (apply Z.eqb_neq; lia).
    rewrite Hne. reflexivity.
  - intros name type_atom data param Hatom Hbin.
    apply (first_item_invalid S h s cctx _ tail DataNotBinary).
    unfold decode_item. cbn -[enif_get_atom enif_inspect_binary].
    rewrite Hatom, Hbin. reflexivity.
Qed.

Lemma item_shape_checked_first_witness :
  run nominal (nif_compress_multi_typed sample_cctx
                 (TCons (TInt 5) (TCons bad_width TNil))) 0
  = (Error "each input must be a 3-tuple {type, data, param}", 0, [])
  /\ run nominal (nif_compress_multi_typed sample_cctx
                    (TCons (TTuple [make_atom "numeric"; TBinary [Byte.x01]])
                           TNil)) 0
     = (Error "each input must be a 3-tuple {type, data, param}", 0, [])
  /\ run nominal (nif_compress_multi_typed sample_cctx
                    (TCons (TTuple [make_atom "no_such_type"; TInt 1; TInt 1])
                           TNil)) 0
     = (Error "second element must be a binary", 0, []).
Proof.
  destruct (item_shape_checked_first Z nominal 0 sample_cctx
              (TCons bad_width TNil)) as (H1 & _ & _).
  destruct (item_shape_checked_first Z nominal 0 sample_cctx TNil)
    as (_ & H2 & H3).
  split; [|split].
  - apply H1. reflexivity.
  - apply H2. discriminate.
  - apply (H3 (codes_of_string "no_such_type") "no_such_type"); reflexivity.
Defined.

(** X20.  In the per-output map of [nif_frame_info] the type [unknown] is
    ambiguous: a type query that failed and a type query that answered a
    code outside the four known types give the same map. *)
Theorem unknown_type_is_ambiguous (code type : Z)
    (size_report elts_report : ZL_Report) :
  type <> ZL_Type_serial -> type <> ZL_Type_struct ->
  type <> ZL_Type_numeric -> type <> ZL_Type_string ->
  output_item (ZL_returnValue type) size_report elts_report
  = output_item (ZL_returnError code) size_report elts_report.
Proof.
  intros H1 H2 H3 H4. unfold output_item. simpl. unfold type_to_string.
  apply Z.eqb_neq in H1, H2, H3, H4. rewrite H1, H2, H3, H4. reflexivity.
Qed.

Lemma unknown_type_is_ambiguous_witness :
  output_item (ZL_returnValue 3) (ZL_returnValue 10) (ZL_returnValue 5)
  = output_item (ZL_returnError 1) (ZL_returnValue 10) (ZL_returnValue 5).
Proof.
  apply (unknown_type_is_ambiguous 1 3); discriminate.
Defined.
